(** * Curation and enrichment accounting of the company research agent

    A shallow embedding of [backend/nodes/curator.py] (class [Curator]), of
    the employee-count part of [backend/nodes/researchers/company.py] (class
    [CompanyAnalyzer]) and of the data and report part of
    [backend/nodes/researchers/industry.py] (class [IndustryAnalyzer]), with
    the properties of the specification stated and settled on it, and
    further properties of the code.

    Conventions of the embedding:
    - a Python [str] is a [string] (code points below 256);
    - a Python [dict] is an association list in insertion order, written
      through [dict_set], which overwrites in place or appends;
    - a Python exception is the [Raise] case of [result]; the state reached
      when it was raised travels with it, since the state is mutated in place;
    - the documents of the raw mappings are objects on a heap, addressed by
      references, because [curate_data] writes into them through aliases;
    - the collaborators (the observer channel, the references module, the
      language model, the conversions of the interpreter that are not spelled
      out) are the fields of an environment [Env].

    Left out: logging, the payloads of the notifications (their status tags
    and their order are kept), the prompt sent to the language model and the
    pictograms of the narration. *)

From Stdlib Require Import ZArith QArith List String Ascii Bool Lia Permutation
  Sorted.
Import ListNotations.

Local Open Scope string_scope.
Local Open Scope Z_scope.

(* ================================================================== *)
(** * Python values *)

Module Py.

(** [str] helpers. *)

(** [c.isspace()] for a code point below 256, as [str.strip()] uses it. *)
Definition is_space (c : ascii) : bool :=
  let n := nat_of_ascii c in
  ((9 <=? n) && (n <=? 13) || (28 <=? n) && (n <=? 32)
   || (n =? 133) || (n =? 160))%nat.

(** What the pattern [\d] matches among code points below 256. *)
Definition is_digit (c : ascii) : bool :=
  let n := nat_of_ascii c in ((48 <=? n) && (n <=? 57))%nat.

Fixpoint lstrip (s : string) : string :=
  match s with
  | String c s' => if is_space c then lstrip s' else s
  | EmptyString => EmptyString
  end.

Fixpoint rstrip (s : string) : string :=
  match s with
  | String c s' =>
      match rstrip s' with
      | EmptyString => if is_space c then EmptyString else String c EmptyString
      | r => String c r
      end
  | EmptyString => EmptyString
  end.

(** [s.strip()] *)
Definition strip (s : string) : string := rstrip (lstrip s).

(** [s.split(sep)[0]] for a one-character separator: the part of [s] before
    the first [sep], all of [s] when there is none. *)
Fixpoint split_head (sep : ascii) (s : string) : string :=
  match s with
  | String c s' => if Ascii.eqb c sep then EmptyString else String c (split_head sep s')
  | EmptyString => EmptyString
  end.

(** [re.sub(r'[^\d]', '', s)] *)
Fixpoint remove_non_digits (s : string) : string :=
  match s with
  | String c s' =>
      if is_digit c then String c (remove_non_digits s') else remove_non_digits s'
  | EmptyString => EmptyString
  end.

Definition digit_value (c : ascii) : Z := Z.of_nat (nat_of_ascii c) - 48.

Fixpoint decimal_value (acc : Z) (s : string) : Z :=
  match s with
  | String c s' => decimal_value (10 * acc + digit_value c) s'
  | EmptyString => acc
  end.

(** CPython's default [sys.int_info.default_max_str_digits]: [int(s)] raises
    [ValueError] on a decimal string with more digits. *)
Definition int_max_str_digits : nat := 4300.

(** [int(s)] on a string of decimal digits; [None] is [ValueError] (the empty
    string, or more digits than the interpreter converts). *)
Definition int_of_digits (s : string) : option Z :=
  match s with
  | EmptyString => None
  | _ => if (int_max_str_digits <? String.length s)%nat then None
         else Some (decimal_value 0 s)
  end.

(** [c.lower()] for a code point below 256: the ASCII capitals and the
    accented capitals of Latin-1 move up by 32. *)
Definition lower_char (c : ascii) : ascii :=
  let n := nat_of_ascii c in
  if ((65 <=? n) && (n <=? 90) || (192 <=? n) && (n <=? 214)
      || (216 <=? n) && (n <=? 222))%nat
  then ascii_of_nat (n + 32) else c.

(** [s.lower()] *)

Fixpoint lower (s : string) : string :=
  match s with
  | String c s' => String (lower_char c) (lower s')
  | EmptyString => EmptyString
  end.

(** [s.replace(a, b)] for one-character [a] and [b]. *)
Fixpoint replace_char (a b : ascii) (s : string) : string :=
  match s with
  | String c s' => String (if Ascii.eqb c a then b else c) (replace_char a b s')
  | EmptyString => EmptyString
  end.

(** A [float] by its exact value: a rational, as every finite binary64
    number is one, or one of the three special values. *)
Inductive pyfloat : Type :=
| Fin (q : Q)
| PInf
| NInf
| NaN.

(** [x >= y] on floats; every comparison with [nan] is false. *)
Definition float_ge (x y : pyfloat) : bool :=
  match x, y with
  | NaN, _ | _, NaN => false
  | PInf, _ => true
  | _, NInf => true
  | NInf, _ => false
  | Fin _, PInf => false
  | Fin a, Fin b => Qle_bool b a
  end.

(** [x > y] on floats. *)
Definition float_gt (x y : pyfloat) : bool :=
  match x, y with
  | NaN, _ | _, NaN => false
  | NInf, _ => false
  | _, PInf => false
  | PInf, _ => true
  | Fin _, NInf => true
  | Fin a, Fin b => negb (Qle_bool a b)
  end.

(** Exceptions, by class, as far as the handlers of the code tell them
    apart. All of them derive from [Exception]; the cancellation of the task,
    which does not, is not modelled. *)
Inductive exn : Type :=
| ValueError
| TypeError
| OverflowError
| OtherError.

(** The outcome of a computation on a state mutated in place: the value, or
    the exception together with whatever the computation leaves behind. *)
Inductive result (A B : Type) : Type :=
| Ok (a : A)
| Raise (e : exn) (b : B).
Arguments Ok {A B} a.
Arguments Raise {A B} e b.

(** The values a dynamically typed field is seen to hold. [VOther] stands for
    every object that is neither an [int], a [float], a [str] nor [None]; it
    carries what [float] makes of it: [TypeError] for most objects, a number
    for [bytes] that spell one, a [Decimal], a [Fraction] or any object with
    [__float__], or the exception that the conversion raises. Such an object
    is no instance of [int] or [float]. *)
Inductive pyval : Type :=
| VInt (z : Z)
| VBool (b : bool)
| VFloat (f : pyfloat)
| VStr (s : string)
| VNone
| VOther (as_float : result pyfloat unit).

(** [isinstance(v, (int, float))]; [bool] is a subclass of [int]. *)
Definition is_int_or_float (v : pyval) : bool :=
  match v with
  | VInt _ | VBool _ | VFloat _ => true
  | _ => false
  end.

(** [v > 0] for a number. *)
Definition is_positive (v : pyval) : bool :=
  match v with
  | VInt z => 0 <? z
  | VBool b => b
  | VFloat f => float_gt f (Fin 0)
  | _ => false
  end.

(** Truncation toward zero of a rational. *)
Definition Qtrunc (q : Q) : Z := Z.quot (Qnum q) (Zpos (Qden q)).

(** [int(v)] for a number: truncation for a float, [OverflowError] on an
    infinity and [ValueError] on [nan]. *)
Definition int_of (v : pyval) : result Z unit :=
  match v with
  | VInt z => Ok z
  | VBool b => Ok (if b then 1 else 0)
  | VFloat (Fin q) => Ok (Qtrunc q)
  | VFloat NaN => Raise ValueError tt
  | VFloat _ => Raise OverflowError tt
  | _ => Raise TypeError tt
  end.

(** The range test of an employee count: [1 <= n <= 10000000]. *)
Definition in_range_b (n : Z) : bool := (1 <=? n) && (n <=? 10000000).

(** ** Dictionaries in insertion order *)

Definition dict (V : Type) : Type := list (string * V).

Fixpoint dict_get {V} (d : dict V) (k : string) : option V :=
  match d with
  | [] => None
  | (k', v) :: d' => if String.eqb k k' then Some v else dict_get d' k
  end.

(** [k in d] *)
Definition dict_mem {V} (d : dict V) (k : string) : bool :=
  match dict_get d k with Some _ => true | None => false end.

(** [d[k] = v]: an existing key keeps its place, a new one goes last. *)
Fixpoint dict_set {V} (d : dict V) (k : string) (v : V) : dict V :=
  match d with
  | [] => [(k, v)]
  | (k', v') :: d' =>
      if String.eqb k k' then (k', v) :: d' else (k', v') :: dict_set d' k v
  end.

Definition keys {V} (d : dict V) : list string := map fst d.
Definition values {V} (d : dict V) : list V := map snd d.

(** [len(d)] *)
Definition len {V} (d : dict V) : Z := Z.of_nat (List.length d).

(** [dict(items)]: later items overwrite earlier ones with the same key. *)
Definition dict_of_items {V} (items : list (string * V)) : dict V :=
  fold_left (fun d kv => dict_set d (fst kv) (snd kv)) items [].

End Py.

(* ================================================================== *)
(** * [urllib.parse] of the Python standard library

    [curate_data] calls [urlparse], [ParseResult._replace], [geturl] and
    [urljoin]. They are transcribed from CPython 3.11 ([Lib/urllib/parse.py]).
    Two checks of [urlsplit] are outside the strings modelled here:
    [_checknetloc] only rejects code points above 255, and the validation of a
    bracketed host by the [ipaddress] module is the parameter
    [bracketed_netloc_ok]. *)

Module Url.
Import Py.

Record ParseResult : Type := mkParseResult {
  scheme : string;
  netloc : string;
  path : string;
  params : string;
  query : string;
  fragment : string
}.

(** [c in s] *)
Fixpoint contains (c : ascii) (s : string) : bool :=
  match s with
  | String x s' => Ascii.eqb x c || contains c s'
  | EmptyString => false
  end.

(** [s.split(c, 1)] as a pair: around the first [c]; the whole of [s] and the empty string without one. *)
Fixpoint split_once (c : ascii) (s : string) : string * string :=
  match s with
  | String x s' =>
      if Ascii.eqb x c then (EmptyString, s')
      else let (a, b) := split_once c s' in (String x a, b)
  | EmptyString => (EmptyString, EmptyString)
  end.

(** Around the last [c], which stays at the end of the first part; [None]
    when [c] does not occur. *)
Fixpoint rsplit_keep (c : ascii) (s : string) : option (string * string) :=
  match s with
  | String x s' =>
      match rsplit_keep c s' with
      | Some (h, t) => Some (String x h, t)
      | None => if Ascii.eqb x c then Some (String x EmptyString, s') else None
      end
  | EmptyString => None
  end.

(** [s.split(c)] *)
Fixpoint split_all (c : ascii) (s : string) : list string :=
  match s with
  | String x s' =>
      if Ascii.eqb x c then EmptyString :: split_all c s'
      else match split_all c s' with
           | h :: t => String x h :: t
           | [] => [String x EmptyString]
           end
  | EmptyString => [EmptyString]
  end.

(** [sep.join(l)] *)
Fixpoint join (sep : string) (l : list string) : string :=
  match l with
  | [] => EmptyString
  | [x] => x
  | x :: l' => x ++ sep ++ join sep l'
  end.

Definition uses_relative : list string :=
  [EmptyString; "ftp"; "http"; "gopher"; "nntp"; "imap"; "wais"; "file"; "https";
   "shttp"; "mms"; "prospero"; "rtsp"; "rtspu"; "sftp"; "svn"; "svn+ssh";
   "ws"; "wss"].

Definition uses_netloc : list string :=
  [EmptyString; "ftp"; "http"; "gopher"; "nntp"; "telnet"; "imap"; "wais"; "file";
   "mms"; "https"; "shttp"; "snews"; "prospero"; "rtsp"; "rtspu"; "rsync";
   "svn"; "svn+ssh"; "sftp"; "nfs"; "git"; "git+ssh"; "ws"; "wss"].

Definition uses_params : list string :=
  [EmptyString; "ftp"; "hdl"; "prospero"; "http"; "imap"; "https"; "shttp"; "rtsp";
   "rtspu"; "sip"; "sips"; "mms"; "sftp"; "tel"].

Definition str_in (s : string) (l : list string) : bool :=
  existsb (String.eqb s) l.

Definition is_ascii_alpha (c : ascii) : bool :=
  let n := nat_of_ascii c in
  ((65 <=? n) && (n <=? 90) || (97 <=? n) && (n <=? 122))%nat.

(** [c in scheme_chars] *)
Definition is_scheme_char (c : ascii) : bool :=
  is_ascii_alpha c || is_digit c
  || Ascii.eqb c "+" || Ascii.eqb c "-" || Ascii.eqb c ".".

Fixpoint all_chars (p : ascii -> bool) (s : string) : bool :=
  match s with
  | String c s' => p c && all_chars p s'
  | EmptyString => true
  end.

(** [url.lstrip(_WHATWG_C0_CONTROL_OR_SPACE)] *)
Fixpoint lstrip_c0 (s : string) : string :=
  match s with
  | String c s' => if (nat_of_ascii c <=? 32)%nat then lstrip_c0 s' else s
  | EmptyString => EmptyString
  end.

(** Removal of [_UNSAFE_URL_BYTES_TO_REMOVE]: tab, carriage return, newline. *)
Fixpoint remove_unsafe (s : string) : string :=
  match s with
  | String c s' =>
      let n := nat_of_ascii c in
      if ((n =? 9) || (n =? 13) || (n =? 10))%nat then remove_unsafe s'
      else String c (remove_unsafe s')
  | EmptyString => EmptyString
  end.

(** The scheme test of [urlsplit]: a first [:] at a position [i > 0], after
    an ASCII letter and scheme characters only. Gives the lowered scheme and
    the rest, or the default scheme and the whole string. *)
Definition split_scheme (default url : string) : string * string :=
  if contains ":" url then
    let (pre, rest) := split_once ":" url in
    match pre with
    | String c0 _ =>
        if is_ascii_alpha c0 && all_chars is_scheme_char pre
        then (lower pre, rest)
        else (default, url)
    | EmptyString => (default, url)
    end
  else (default, url).

(** [_splitnetloc(url, 2)] on a string already rid of its two slashes: up to
    the first of [/], [?] and [#]. *)
Fixpoint _splitnetloc (s : string) : string * string :=
  match s with
  | String c s' =>
      if Ascii.eqb c "/" || Ascii.eqb c "?" || Ascii.eqb c "#"
      then (EmptyString, s)
      else let (a, b) := _splitnetloc s' in (String c a, b)
  | EmptyString => (EmptyString, EmptyString)
  end.

(** The fragment and the query of [urlsplit]: [url.split('#', 1)] when there
    is a [#], then [url.split('?', 1)] when there is a [?]. Gives the path,
    the query and the fragment. *)
Definition split_fragment_query (url : string) : string * string * string :=
  let (url, fragment) :=
    if contains "#" url then split_once "#" url else (url, EmptyString) in
  let (url, query) :=
    if contains "?" url then split_once "?" url else (url, EmptyString) in
  (url, query, fragment).

Section Parse.

(** [_check_bracketed_netloc] returns rather than raises. *)
Variable bracketed_netloc_ok : string -> bool.

(** The netloc of [urlsplit], taken when [url[:2] == '//']: the netloc, the
    rest, and whether the bracket checks raise [ValueError]. *)
Definition split_netloc (url : string) : string * string * bool :=
  match url with
  | String c1 (String c2 rest) =>
      if Ascii.eqb c1 "/" && Ascii.eqb c2 "/" then
        let (netloc, url) := _splitnetloc rest in
        let bad :=
          (contains "[" netloc && negb (contains "]" netloc))
          || (contains "]" netloc && negb (contains "[" netloc))
          || (contains "[" netloc && contains "]" netloc
              && negb (bracketed_netloc_ok netloc)) in
        (netloc, url, bad)
      else (EmptyString, url, false)
  | _ => (EmptyString, url, false)
  end.

(** [urlsplit(url, scheme)] with fragments allowed; only [ValueError] can be
    raised. The result carries no parameters yet. *)
Definition urlsplit (url default : string) : result ParseResult unit :=
  let url := remove_unsafe (lstrip_c0 url) in
  let (scheme, url) := split_scheme default url in
  let '(netloc, url, bad) := split_netloc url in
  if bad then Raise ValueError tt
  else
    let '(url, query, fragment) := split_fragment_query url in
    Ok (mkParseResult scheme netloc url EmptyString query fragment).

Definition _splitparams (url : string) : string * string :=
  match rsplit_keep "/" url with
  | Some (head, tail) =>
      if contains ";" tail
      then let (a, b) := split_once ";" tail in (head ++ a, b)
      else (url, EmptyString)
  | None => split_once ";" url
  end.

(** [urlparse(url, scheme)] *)
Definition urlparse_with (url default : string) : result ParseResult unit :=
  match urlsplit url default with
  | Ok r =>
      if str_in (scheme r) uses_params && contains ";" (path r)
      then let (url, params) := _splitparams (path r) in
           Ok (mkParseResult (scheme r) (netloc r) url params (query r) (fragment r))
      else Ok r
  | Raise e u => Raise e u
  end.

(** [urlparse(url)] *)
Definition urlparse (url : string) : result ParseResult unit :=
  urlparse_with url EmptyString.

End Parse.

Definition non_empty (s : string) : bool :=
  match s with EmptyString => false | _ => true end.

Definition starts_with_slash (s : string) : bool :=
  match s with String "/" _ => true | _ => false end.

Definition starts_with_two_slashes (s : string) : bool :=
  match s with String "/" (String "/" _) => true | _ => false end.

Definition urlunsplit (scheme netloc url query fragment : string) : string :=
  let url :=
    if non_empty netloc
       || (non_empty scheme && str_in scheme uses_netloc
           && negb (starts_with_two_slashes url))
    then
      let url := if non_empty url && negb (starts_with_slash url)
                 then "/" ++ url else url in
      "//" ++ netloc ++ url
    else url in
  let url := if non_empty scheme then scheme ++ ":" ++ url else url in
  let url := if non_empty query then url ++ "?" ++ query else url in
  if non_empty fragment then url ++ "#" ++ fragment else url.

Definition urlunparse (r : ParseResult) : string :=
  let url := if non_empty (params r) then path r ++ ";" ++ params r else path r in
  urlunsplit (scheme r) (netloc r) url (query r) (fragment r).

(** [r.geturl()] *)
Definition geturl (r : ParseResult) : string := urlunparse r.

(** [r._replace(query='', fragment='')] *)
Definition clear_query_fragment (r : ParseResult) : ParseResult :=
  mkParseResult (scheme r) (netloc r) (path r) (params r) EmptyString EmptyString.

(** [segments[1:-1] = filter(None, segments[1:-1])] on the part after the
    first segment: empty segments go, the last one stays. *)
Fixpoint filter_inner (l : list string) : list string :=
  match l with
  | [] => []
  | [x] => [x]
  | x :: l' => if non_empty x then x :: filter_inner l' else filter_inner l'
  end.

(** The loop of [urljoin] over the segments; [resolved_path] is kept in
    reverse. *)
Fixpoint resolve (segments resolved_rev : list string) : list string :=
  match segments with
  | [] => rev resolved_rev
  | seg :: rest =>
      if String.eqb seg ".." then resolve rest (tl resolved_rev)
      else if String.eqb seg "." then resolve rest resolved_rev
      else resolve rest (seg :: resolved_rev)
  end.

Section Join.

Variable bracketed_netloc_ok : string -> bool.

(** [urljoin(base, url)] *)
Definition urljoin (base url : string) : result string unit :=
  if negb (non_empty base) then Ok url
  else if negb (non_empty url) then Ok base
  else
    match urlparse_with bracketed_netloc_ok base EmptyString with
    | Raise e u => Raise e u
    | Ok b =>
        match urlparse_with bracketed_netloc_ok url (scheme b) with
        | Raise e u => Raise e u
        | Ok r =>
            if negb (String.eqb (scheme r) (scheme b))
               || negb (str_in (scheme r) uses_relative)
            then Ok url
            else if str_in (scheme r) uses_netloc && non_empty (netloc r)
            then Ok (urlunparse r)
            else
              let netloc' :=
                if str_in (scheme r) uses_netloc then netloc b else netloc r in
              if negb (non_empty (path r)) && negb (non_empty (params r))
              then
                let query' := if non_empty (query r) then query r else query b in
                Ok (urlunparse (mkParseResult (scheme r) netloc' (path b)
                                  (params b) query' (fragment r)))
              else
                let base_parts := split_all "/" (path b) in
                let base_parts :=
                  if non_empty (last base_parts EmptyString)
                  then removelast base_parts else base_parts in
                let segments :=
                  if starts_with_slash (path r) then split_all "/" (path r)
                  else
                    match (base_parts ++ split_all "/" (path r))%list with
                    | x :: l => x :: filter_inner l
                    | [] => []
                    end in
                let resolved_path := resolve segments [] in
                let resolved_path :=
                  let l := last segments EmptyString in
                  if String.eqb l "." || String.eqb l ".."
                  then (resolved_path ++ [EmptyString])%list else resolved_path in
                let p := join "/" resolved_path in
                let p := if non_empty p then p else "/" in
                Ok (urlunparse (mkParseResult (scheme r) netloc' p
                                  (params r) (query r) (fragment r)))
        end
    end.

End Join.

End Url.

(* ================================================================== *)
(** * The data model: documents, the research state, the snapshot *)

Module State.
Import Py.

(** A reference to a document object. *)
Definition loc : Type := nat.

(** The templated [relevance_reason]: it names the score and the threshold. *)
Inductive Reason : Type :=
| MeetsThreshold (score threshold : pyfloat).

(** The [evaluation] entry the evaluator attaches. *)
Record Evaluation : Type := mkEvaluation {
  overall_score : pyfloat;
  ev_query : string;
  relevance_reason : Reason
}.

(** A document: a [dict] whose keys may be absent. [score] and
    [employee_count] hold whatever the producer put there. *)
Record Document : Type := mkDocument {
  d_title : option string;
  d_url : option string;
  d_raw_content : option string;
  d_score : option pyval;
  d_query : option string;
  d_doc_type : option string;
  d_employee_count : option pyval;
  d_evaluation : option Evaluation
}.

Definition set_url (v : string) (d : Document) : Document :=
  mkDocument (d_title d) (Some v) (d_raw_content d) (d_score d) (d_query d)
    (d_doc_type d) (d_employee_count d) (d_evaluation d).

Definition set_doc_type (v : string) (d : Document) : Document :=
  mkDocument (d_title d) (d_url d) (d_raw_content d) (d_score d) (d_query d)
    (Some v) (d_employee_count d) (d_evaluation d).

Definition set_evaluation (v : Evaluation) (d : Document) : Document :=
  mkDocument (d_title d) (d_url d) (d_raw_content d) (d_score d) (d_query d)
    (d_doc_type d) (d_employee_count d) (Some v).

(** The heap of document objects. *)
Definition heap : Type := list Document.

Definition empty_document : Document :=
  mkDocument None None None None None None None None.

Definition deref (h : heap) (r : loc) : Document := nth r h empty_document.

(** A write through the reference [r]. *)
Fixpoint update (h : heap) (r : loc) (d : Document) : heap :=
  match h, r with
  | [], _ => []
  | _ :: h', O => d :: h'
  | x :: h', S r' => x :: update h' r' d
  end.

(** One category of the snapshot. *)
Record CategoryCounts : Type := mkCategoryCounts {
  enriched : Z;
  total : Z
}.

(** The [employeeCount] category of the snapshot. In the code [data] is the
    very [dict] that is stored under [employee_count]; the curator never
    writes into that object afterwards, it replaces it, so a value stands for
    it here. *)
Record EmployeeCounts : Type := mkEmployeeCounts {
  e_enriched : Z;
  e_total : Z;
  data : dict Z;
  hasData : bool;
  totalCount : Z;
  validCounts : Z
}.

(** The EnrichmentSnapshot that [build_enrichment_counts] returns. *)
Record EnrichmentSnapshot : Type := mkEnrichmentSnapshot {
  sn_company : CategoryCounts;
  sn_employeeCount : EmployeeCounts;
  sn_industry : CategoryCounts;
  sn_financial : CategoryCounts;
  sn_news : CategoryCounts
}.

(** A section of [enrichment_counts], the progress structure the company
    analyzer keeps (not the snapshot of the curator). *)
Record ProgressCounts : Type := mkProgressCounts {
  p_enriched : pyval;
  p_total : pyval;
  p_data : option (dict pyval);
  p_hasData : option bool
}.

(** One line of the narration the curator appends to [messages]. *)
Inductive Line : Type :=
| Curating (company : string)
| Found (doc_type : string) (n : Z)
| NoRelevantDocuments
| Kept (n : Z)
| NoneMetThreshold
| Text (s : string).

(** An [AIMessage]: its lines, joined by newlines in the code. *)
Definition Message : Type := list Line.

(** The keys of [ResearchState] that the two components read or write;
    [None] is an absent key. [websocket_manager] tells whether a manager is
    attached; what its calls do is in the environment. *)
Record ResearchState : Type := mkState {
  company : option string;
  industry : option string;
  hq_location : option string;
  company_url : option string;
  job_id : option string;
  websocket_manager : bool;
  company_data : option (dict loc);
  industry_data : option (dict loc);
  financial_data : option (dict loc);
  news_data : option (dict loc);
  curated_company_data : option (dict Document);
  curated_industry_data : option (dict Document);
  curated_financial_data : option (dict Document);
  curated_news_data : option (dict Document);
  employee_count : option (dict pyval);
  Company_Count : option pyval;
  enrichment_counts : option (dict ProgressCounts);
  enrichmentCounts : option EnrichmentSnapshot;
  references : option (list string);
  reference_titles : option (dict string);
  reference_info : option (dict string);
  messages : option (list Message)
}.

Definition set_curated_company_data (v : option (dict Document)) (s : ResearchState) : ResearchState :=
  mkState (company s) (industry s) (hq_location s) (company_url s) (job_id
    s) (websocket_manager s) (company_data s) (industry_data s)
    (financial_data s) (news_data s) v (curated_industry_data s)
    (curated_financial_data s) (curated_news_data s) (employee_count s)
    (Company_Count s) (enrichment_counts s) (enrichmentCounts s) (references
    s) (reference_titles s) (reference_info s) (messages s).

Definition set_curated_industry_data (v : option (dict Document)) (s : ResearchState) : ResearchState :=
  mkState (company s) (industry s) (hq_location s) (company_url s) (job_id
    s) (websocket_manager s) (company_data s) (industry_data s)
    (financial_data s) (news_data s) (curated_company_data s) v
    (curated_financial_data s) (curated_news_data s) (employee_count s)
    (Company_Count s) (enrichment_counts s) (enrichmentCounts s) (references
    s) (reference_titles s) (reference_info s) (messages s).

Definition set_curated_financial_data (v : option (dict Document)) (s : ResearchState) : ResearchState :=
  mkState (company s) (industry s) (hq_location s) (company_url s) (job_id
    s) (websocket_manager s) (company_data s) (industry_data s)
    (financial_data s) (news_data s) (curated_company_data s)
    (curated_industry_data s) v (curated_news_data s) (employee_count s)
    (Company_Count s) (enrichment_counts s) (enrichmentCounts s) (references
    s) (reference_titles s) (reference_info s) (messages s).

Definition set_curated_news_data (v : option (dict Document)) (s : ResearchState) : ResearchState :=
  mkState (company s) (industry s) (hq_location s) (company_url s) (job_id
    s) (websocket_manager s) (company_data s) (industry_data s)
    (financial_data s) (news_data s) (curated_company_data s)
    (curated_industry_data s) (curated_financial_data s) v (employee_count
    s) (Company_Count s) (enrichment_counts s) (enrichmentCounts s)
    (references s) (reference_titles s) (reference_info s) (messages s).

Definition set_employee_count (v : option (dict pyval)) (s : ResearchState) : ResearchState :=
  mkState (company s) (industry s) (hq_location s) (company_url s) (job_id
    s) (websocket_manager s) (company_data s) (industry_data s)
    (financial_data s) (news_data s) (curated_company_data s)
    (curated_industry_data s) (curated_financial_data s) (curated_news_data
    s) v (Company_Count s) (enrichment_counts s) (enrichmentCounts s)
    (references s) (reference_titles s) (reference_info s) (messages s).

Definition set_Company_Count (v : option pyval) (s : ResearchState) : ResearchState :=
  mkState (company s) (industry s) (hq_location s) (company_url s) (job_id
    s) (websocket_manager s) (company_data s) (industry_data s)
    (financial_data s) (news_data s) (curated_company_data s)
    (curated_industry_data s) (curated_financial_data s) (curated_news_data
    s) (employee_count s) v (enrichment_counts s) (enrichmentCounts s)
    (references s) (reference_titles s) (reference_info s) (messages s).

Definition set_enrichment_counts (v : option (dict ProgressCounts)) (s : ResearchState) : ResearchState :=
  mkState (company s) (industry s) (hq_location s) (company_url s) (job_id
    s) (websocket_manager s) (company_data s) (industry_data s)
    (financial_data s) (news_data s) (curated_company_data s)
    (curated_industry_data s) (curated_financial_data s) (curated_news_data
    s) (employee_count s) (Company_Count s) v (enrichmentCounts s)
    (references s) (reference_titles s) (reference_info s) (messages s).

Definition set_enrichmentCounts (v : option EnrichmentSnapshot) (s : ResearchState) : ResearchState :=
  mkState (company s) (industry s) (hq_location s) (company_url s) (job_id
    s) (websocket_manager s) (company_data s) (industry_data s)
    (financial_data s) (news_data s) (curated_company_data s)
    (curated_industry_data s) (curated_financial_data s) (curated_news_data
    s) (employee_count s) (Company_Count s) (enrichment_counts s) v
    (references s) (reference_titles s) (reference_info s) (messages s).

Definition set_references (v : option (list string)) (s : ResearchState) : ResearchState :=
  mkState (company s) (industry s) (hq_location s) (company_url s) (job_id
    s) (websocket_manager s) (company_data s) (industry_data s)
    (financial_data s) (news_data s) (curated_company_data s)
    (curated_industry_data s) (curated_financial_data s) (curated_news_data
    s) (employee_count s) (Company_Count s) (enrichment_counts s)
    (enrichmentCounts s) v (reference_titles s) (reference_info s) (messages
    s).

Definition set_reference_titles (v : option (dict string)) (s : ResearchState) : ResearchState :=
  mkState (company s) (industry s) (hq_location s) (company_url s) (job_id
    s) (websocket_manager s) (company_data s) (industry_data s)
    (financial_data s) (news_data s) (curated_company_data s)
    (curated_industry_data s) (curated_financial_data s) (curated_news_data
    s) (employee_count s) (Company_Count s) (enrichment_counts s)
    (enrichmentCounts s) (references s) v (reference_info s) (messages s).

Definition set_reference_info (v : option (dict string)) (s : ResearchState) : ResearchState :=
  mkState (company s) (industry s) (hq_location s) (company_url s) (job_id
    s) (websocket_manager s) (company_data s) (industry_data s)
    (financial_data s) (news_data s) (curated_company_data s)
    (curated_industry_data s) (curated_financial_data s) (curated_news_data
    s) (employee_count s) (Company_Count s) (enrichment_counts s)
    (enrichmentCounts s) (references s) (reference_titles s) v (messages s).

Definition set_messages (v : option (list Message)) (s : ResearchState) : ResearchState :=
  mkState (company s) (industry s) (hq_location s) (company_url s) (job_id
    s) (websocket_manager s) (company_data s) (industry_data s)
    (financial_data s) (news_data s) (curated_company_data s)
    (curated_industry_data s) (curated_financial_data s) (curated_news_data
    s) (employee_count s) (Company_Count s) (enrichment_counts s)
    (enrichmentCounts s) (references s) (reference_titles s) (reference_info
    s) v.

(** The attempts to notify the observer, oldest first: the status tag and
    whether the call returned. *)
Definition Log : Type := list (string * bool).

(** The state, the heap its raw mappings point into, and the notifications
    attempted so far. *)
Record World : Type := mkWorld {
  state : ResearchState;
  objects : heap;
  sent : Log
}.

(** What the collaborators do. [send_outcome n] is the exception that the
    [n]-th call of [send_status_update] raises, [None] when it returns;
    [float_of_str] is
    [float(s)] on a [str], raising [ValueError] only;
    [process_references_from_search_results] gives its three results or raises
    ([None]), and leaves the state alone; [gemini_response] is the text the
    model answers, [None] when the call fails. *)
Record Env : Type := mkEnv {
  bracketed_netloc_ok : string -> bool;
  float_of_str : string -> option pyfloat;
  send_outcome : nat -> option exn;
  process_references_from_search_results :
    ResearchState -> heap -> option (list string * dict string * dict string);
  gemini_response : option string
}.

(** [state.get(key, {})] and [state.get(key, 0)] *)
Definition get_dict {V} (o : option (dict V)) : dict V :=
  match o with Some d => d | None => [] end.

Definition get_str (o : option string) (default : string) : string :=
  match o with Some s => s | None => default end.

(** [websocket_manager and job_id] *)
Definition attached (s : ResearchState) : bool :=
  websocket_manager s
  && match job_id s with Some (String _ _) => true | _ => false end.

(** [await websocket_manager.send_status_update(status=...)] *)
Definition send_status_update (env : Env) (status : string) (log : Log)
  : result Log Log :=
  match send_outcome env (List.length log) with
  | None => Ok (log ++ [(status, true)])%list
  | Some e => Raise e (log ++ [(status, false)])%list
  end.

End State.

(* ================================================================== *)
(** * The employee-count fact of the company analyzer

    [backend/nodes/researchers/company.py], class [CompanyAnalyzer]. *)

Module Company.
Import Py State.

Fixpoint take_while (p : ascii -> bool) (s : string) : string :=
  match s with
  | String c s' => if p c then String c (take_while p s') else EmptyString
  | EmptyString => EmptyString
  end.

(** [re.search] for a digit followed by digits and commas: the first digit
    of [s] and the digits and commas that follow it. *)
Fixpoint search_count (s : string) : option string :=
  match s with
  | String c s' =>
      if is_digit c
      then Some (take_while (fun x => is_digit x || Ascii.eqb x ",") s)
      else search_count s'
  | EmptyString => None
  end.

(** [s.replace] of every comma by nothing. *)
Fixpoint remove_commas (s : string) : string :=
  match s with
  | String c s' =>
      if Ascii.eqb c "," then remove_commas s' else String c (remove_commas s')
  | EmptyString => EmptyString
  end.

(** [get_employee_count_via_llm]: every failure of the call to the model is
    caught inside and answered by the string [1]. *)
Definition get_employee_count_via_llm (env : Env) : string :=
  match gemini_response env with
  | Some text =>
      match search_count (strip text) with
      | Some m => remove_commas m
      | None => "1"
      end
  | None => "1"
  end.

(** [_validate_and_process_employee_count]. The [try] body can only fail in
    [int(clean_count)]; the handler returns 1. *)
Definition _validate_and_process_employee_count (raw_count company : string) : Z :=
  let clean_count := remove_non_digits (strip (split_head "(" raw_count)) in
  match clean_count with
  | EmptyString => 1
  | _ =>
      match int_of_digits clean_count with
      | Some employee_count =>
          if in_range_b employee_count then employee_count else 1
      | None => 1
      end
  end.

(** A failure of the notification is caught and logged by the two senders
    below: the attempt is recorded, nothing is raised. *)
Definition send_caught (env : Env) (status : string) (log : Log) : Log :=
  match send_status_update env status log with
  | Ok log' => log'
  | Raise _ log' => log'
  end.

(** [_send_employee_count_update] *)
Definition _send_employee_count_update (env : Env) (w : World)
    (employee_count_value : Z) (company : string) : World :=
  let s := state w in
  if attached s then
    let current_enrichment_counts := get_dict (enrichment_counts s) in
    let current_enrichment_counts :=
      dict_set current_enrichment_counts "employeeCount"
        (mkProgressCounts (VInt employee_count_value) (VInt 1)
           (Some [(company, VInt employee_count_value)])
           (Some (0 <? employee_count_value))) in
    let s := set_enrichment_counts (Some current_enrichment_counts) s in
    mkWorld s (objects w) (send_caught env "employee_count_ready" (sent w))
  else w.

(** [v + n] for an [int] [n]; [None] is [TypeError]. *)
Definition add_int (v : pyval) (n : Z) : option pyval :=
  match v with
  | VInt c => Some (VInt (c + n))
  | VBool b => Some (VInt ((if b then 1 else 0) + n))
  | VFloat (Fin q) => Some (VFloat (Fin (q + inject_Z n)))
  | VFloat f => Some (VFloat f)
  | _ => None
  end.

(** [next(iter(state.get('employee_count', {None: 0}).values()))]; [None] is
    [StopIteration]. *)
Definition first_employee_count (s : ResearchState) : option pyval :=
  match employee_count s with
  | None => Some (VInt 0)
  | Some [] => None
  | Some ((_, v) :: _) => Some v
  end.

Definition plain (enriched total : pyval) : ProgressCounts :=
  mkProgressCounts enriched total None None.

(** [_send_enrichment_counts_update]: the structure is built, stored and sent
    inside one [try]; a failure while building it leaves the state as it
    was. *)
Definition _send_enrichment_counts_update (env : Env) (w : World) : World :=
  let s := state w in
  if attached s then
    let n_company := len (get_dict (company_data s)) in
    let n_industry := len (get_dict (industry_data s)) in
    let n_financial := len (get_dict (financial_data s)) in
    let n_news := len (get_dict (news_data s)) in
    let company_count :=
      match Company_Count s with Some v => v | None => VInt 0 end in
    match add_int company_count n_company, first_employee_count s with
    | Some company_total, Some first =>
        let enrichment_counts :=
          [("company", plain (VInt n_company) company_total);
           ("employeeCount", plain first (VInt 1));
           ("industry", plain (VInt n_industry) (VInt n_industry));
           ("financial", plain (VInt n_financial) (VInt n_financial));
           ("news", plain (VInt n_news) (VInt n_news))] in
        mkWorld (set_enrichment_counts (Some enrichment_counts) s) (objects w)
          (send_caught env "enrichment_counts_updated" (sent w))
    | _, _ => w
    end
  else w.

(** The key under which the fact is stored:
    [state.get('company_url', company.lower().replace(' ', '-'))]. *)
Definition company_key (s : ResearchState) (company : string) : string :=
  get_str (company_url s) (replace_char " " "-" (lower company)).

(** [if 'employee_count' not in state: state['employee_count'] = {}], then
    [state['employee_count'][company_url] = value] and the assignment of
    [Company_Count]. *)
Definition store_employee_count (key : string) (value company_count : Z)
    (s : ResearchState) : ResearchState :=
  let s :=
    match employee_count s with
    | None => set_employee_count (Some []) s
    | Some _ => s
    end in
  let s :=
    set_employee_count
      (Some (dict_set (get_dict (employee_count s)) key (VInt value))) s in
  set_Company_Count (Some (VInt company_count)) s.

(** The body of the [try] of the employee-count step of [analyze]. The one
    call that is not guarded further down is the first notification. *)
Definition employee_count_try (env : Env) (w : World) : result (World * Z) World :=
  let s := state w in
  let company := get_str (company s) "Unknown Company" in
  match (if attached s
         then send_status_update env "processing" (sent w)
         else Ok (sent w)) with
  | Raise e log => Raise e (mkWorld s (objects w) log)
  | Ok log =>
      let employee_count_raw := get_employee_count_via_llm env in
      let employee_count_value :=
        _validate_and_process_employee_count employee_count_raw company in
      let company_url := company_key s company in
      let s :=
        store_employee_count company_url employee_count_value
          (if 0 <? employee_count_value then 1 else 0) s in
      let w := mkWorld s (objects w) log in
      let w := _send_employee_count_update env w employee_count_value company in
      let w := _send_enrichment_counts_update env w in
      Ok (w, employee_count_value)
  end.

(** The employee-count step of [analyze], [try] and [except]: the world it
    leaves and the local [employee_count_value]. *)
Definition employee_count_step (env : Env) (w : World) : World * Z :=
  match employee_count_try env w with
  | Ok r => r
  | Raise _ w =>
      let s := state w in
      let company := get_str (company s) "Unknown Company" in
      let employee_count_value := 100 in
      let company_url := company_key s company in
      let s := store_employee_count company_url employee_count_value 1 s in
      let w := mkWorld s (objects w) (sent w) in
      (_send_employee_count_update env w employee_count_value company,
       employee_count_value)
  end.

End Company.

(* ================================================================== *)
(** * The curator

    [backend/nodes/curator.py], class [Curator]. *)

Module Curator.
Import Py State.

(** [self.relevance_threshold = 0.4]: the binary64 number that the literal
    denotes. *)
Definition relevance_threshold : pyfloat :=
  Fin (3602879701896397 # 9007199254740992).

(** [float(z)] for an [int]: the nearest binary64 number, ties to even, and
    [OverflowError] beyond the largest one. *)
Definition float_of_int (z : Z) : result pyfloat unit :=
  let a := Z.abs z in
  let e := Z.log2 a - 52 in
  if e <=? 0 then Ok (Fin (inject_Z z))
  else
    let m := Z.shiftr a e in
    let r := a - Z.shiftl m e in
    let half := Z.shiftl 1 (e - 1) in
    let m := if (half <? r) || ((r =? half) && Z.odd m) then m + 1 else m in
    let v := Z.shiftl m e in
    if 2 ^ 1024 <=? v then Raise OverflowError tt
    else Ok (Fin (inject_Z (Z.sgn z * v))).

(** [float(v)] *)
Definition float_of (env : Env) (v : pyval) : result pyfloat unit :=
  match v with
  | VInt z => float_of_int z
  | VBool b => Ok (Fin (if b then 1 else 0))
  | VFloat f => Ok f
  | VStr s =>
      match float_of_str env s with
      | Some f => Ok f
      | None => Raise ValueError tt
      end
  | VNone => Raise TypeError tt
  | VOther as_float => as_float
  end.

(** [doc.get('score', 0)] *)
Definition score_or_0 (doc : Document) : pyval :=
  match d_score doc with Some v => v | None => VInt 0 end.

(** The key of both sorts: [x['evaluation']['overall_score']]. Every document
    that reaches a sort carries an evaluation. *)
Definition score_key (doc : Document) : pyfloat :=
  match d_evaluation doc with Some e => overall_score e | None => NaN end.

(** A stable sort by decreasing key, as [sort] and [sorted] with
    [reverse=True] are: among equal keys the earlier element stays first. *)
Fixpoint insert_desc {A} (key : A -> pyfloat) (x : A) (l : list A) : list A :=
  match l with
  | [] => [x]
  | y :: l' =>
      if float_ge (key x) (key y) then x :: l else y :: insert_desc key x l'
  end.

Definition sort_desc {A} (key : A -> pyfloat) (l : list A) : list A :=
  fold_right (insert_desc key) [] l.

(** The evaluated copy of a document that passed:
    [{**doc, "evaluation": {...}}]. *)
Definition evaluated (doc : Document) (tavily_score : pyfloat) : Document :=
  set_evaluation
    (mkEvaluation tavily_score (get_str (d_query doc) EmptyString)
       (MeetsThreshold tavily_score relevance_threshold))
    doc.

Section WithEnv.

Variable env : Env.

(** The [for] loop of [evaluate_documents]. The inner handler catches
    [ValueError] and [TypeError], from the conversion of the score as from the
    notification, which comes after the document was appended. [Raise] is any
    other exception, on its way to the outer handler. *)
Fixpoint evaluate_loop (s : ResearchState) (h : heap) (docs : list loc)
    (evaluated_docs : list Document) (log : Log)
  : result (list Document * Log) Log :=
  match docs with
  | [] => Ok (evaluated_docs, log)
  | r :: rest =>
      let doc := deref h r in
      match float_of env (score_or_0 doc) with
      | Raise ValueError _ | Raise TypeError _ =>
          evaluate_loop s h rest evaluated_docs log
      | Raise e _ => Raise e log
      | Ok tavily_score =>
          if float_ge tavily_score relevance_threshold then
            let evaluated_docs :=
              (evaluated_docs ++ [evaluated doc tavily_score])%list in
            if attached s then
              match send_status_update env "document_kept" log with
              | Ok log | Raise ValueError log | Raise TypeError log =>
                  evaluate_loop s h rest evaluated_docs log
              | Raise e log => Raise e log
              end
            else evaluate_loop s h rest evaluated_docs log
          else evaluate_loop s h rest evaluated_docs log
      end
  end.

(** [evaluate_documents]. The first notification is outside every [try]. *)
Definition evaluate_documents (s : ResearchState) (h : heap) (docs : list loc)
    (log : Log) : result (list Document * Log) Log :=
  match (if attached s
         then send_status_update env "processing" log
         else Ok log) with
  | Raise e log => Raise e log
  | Ok log =>
      match docs with
      | [] => Ok ([], log)
      | _ =>
          match evaluate_loop s h docs [] log with
          | Raise _ log => Ok ([], log)
          | Ok (evaluated_docs, log) => Ok (sort_desc score_key evaluated_docs, log)
          end
      end
  end.

(** The loop of [_extract_employee_count_from_company_data]. *)
Fixpoint extract_loop (h : heap) (items : list (string * loc))
    (valid_employee_counts : dict Z) : result (dict Z) unit :=
  match items with
  | [] => Ok valid_employee_counts
  | (url, r) :: rest =>
      match d_employee_count (deref h r) with
      | Some emp_count =>
          if is_int_or_float emp_count && is_positive emp_count then
            match int_of emp_count with
            | Raise e u => Raise e u
            | Ok clean_count =>
                if in_range_b clean_count
                then extract_loop h rest (dict_set valid_employee_counts url clean_count)
                else extract_loop h rest valid_employee_counts
            end
          else extract_loop h rest valid_employee_counts
      | None => extract_loop h rest valid_employee_counts
      end
  end.

Definition _extract_employee_count_from_company_data (h : heap)
    (company_data : dict loc) : result (dict Z) unit :=
  extract_loop h company_data [].

(** The loop of [build_enrichment_counts] over [employee_count_dict]. *)
Fixpoint validate_loop (items : list (string * pyval))
    (valid_employee_counts : dict Z) (total_employee_count : Z)
  : result (dict Z * Z) unit :=
  match items with
  | [] => Ok (valid_employee_counts, total_employee_count)
  | (url, count) :: rest =>
      if is_int_or_float count && is_positive count then
        match int_of count with
        | Raise e u => Raise e u
        | Ok clean_count =>
            if in_range_b clean_count
            then validate_loop rest (dict_set valid_employee_counts url clean_count)
                   (total_employee_count + clean_count)
            else validate_loop rest valid_employee_counts total_employee_count
        end
      else validate_loop rest valid_employee_counts total_employee_count
  end.

(** [sum(d.values())] *)
Definition sum_values (d : dict Z) : Z := fold_left Z.add (values d) 0.

(** The validated counts as the state stores them. *)
Definition as_values (d : dict Z) : dict pyval :=
  map (fun kv => (fst kv, VInt (snd kv))) d.

Definition is_empty {V} (d : dict V) : bool :=
  match d with [] => true | _ => false end.

Definition counts_of {A B} (curated : option (dict A)) (raw : option (dict B))
  : CategoryCounts :=
  mkCategoryCounts (len (get_dict curated)) (len (get_dict raw)).

(** [build_enrichment_counts]: the state with the validated values written
    back, and the snapshot. An exception leaves the state as it was. *)
Definition build_enrichment_counts (h : heap) (s : ResearchState)
  : result (ResearchState * EnrichmentSnapshot) ResearchState :=
  let company_data := get_dict (company_data s) in
  let employee_count_dict := get_dict (employee_count s) in
  match validate_loop employee_count_dict [] 0 with
  | Raise e _ => Raise e s
  | Ok (valid_employee_counts, total_employee_count) =>
      match (if is_empty valid_employee_counts && negb (is_empty company_data)
             then match _extract_employee_count_from_company_data h company_data with
                  | Ok v => Ok (v, sum_values v)
                  | Raise e u => Raise e u
                  end
             else Ok (valid_employee_counts, total_employee_count)) with
      | Raise e _ => Raise e s
      | Ok (valid_employee_counts, total_employee_count) =>
          let s' :=
            if negb (is_empty valid_employee_counts)
            then set_Company_Count (Some (VInt (len valid_employee_counts)))
                   (set_employee_count (Some (as_values valid_employee_counts)) s)
            else set_Company_Count (Some (VInt 0))
                   (set_employee_count (Some []) s) in
          let enrichment_counts :=
            mkEnrichmentSnapshot
              (mkCategoryCounts (len (get_dict (curated_company_data s')))
                 (len company_data))
              (mkEmployeeCounts total_employee_count 1 valid_employee_counts
                 (negb (is_empty valid_employee_counts)
                  && (0 <? total_employee_count))
                 total_employee_count (len valid_employee_counts))
              (counts_of (curated_industry_data s') (industry_data s'))
              (counts_of (curated_financial_data s') (financial_data s'))
              (counts_of (curated_news_data s') (news_data s')) in
          Ok (s', enrichment_counts)
      end
  end.

(** [_send_enrichment_update]: the call is inside a [try]. *)
Definition _send_enrichment_update (s : ResearchState) (log : Log) : Log :=
  if attached s then
    match send_status_update env "enrichment_update" log with
    | Ok log => log
    | Raise _ log => log
    end
  else log.

(** What [_preserve_critical_state_data] copies. *)
Record Preserved : Type := mkPreserved {
  pr_employee_count : dict pyval;
  pr_Company_Count : pyval;
  pr_enrichment_counts : dict ProgressCounts
}.

Definition _preserve_critical_state_data (s : ResearchState) : Preserved :=
  mkPreserved (get_dict (employee_count s))
    (match Company_Count s with Some v => v | None => VInt 0 end)
    (get_dict (enrichment_counts s)).

Definition _restore_critical_state_data (s : ResearchState)
    (preserved_data : Preserved) : ResearchState :=
  let s :=
    if negb (is_empty (pr_employee_count preserved_data))
    then set_Company_Count (Some (pr_Company_Count preserved_data))
           (set_employee_count (Some (pr_employee_count preserved_data)) s)
    else s in
  if negb (is_empty (pr_enrichment_counts preserved_data)) then
    let current_counts := get_dict (enrichment_counts s) in
    match dict_get (pr_enrichment_counts preserved_data) "employeeCount" with
    | Some e =>
        set_enrichment_counts (Some (dict_set current_counts "employeeCount" e)) s
    | None => s
    end
  else s.

(** The four raw mappings, in the order of [data_types]. *)
Inductive Field : Type :=
| financial_data_field
| news_data_field
| industry_data_field
| company_data_field.

Definition field_name (f : Field) : string :=
  match f with
  | financial_data_field => "financial_data"
  | news_data_field => "news_data"
  | industry_data_field => "industry_data"
  | company_data_field => "company_data"
  end.

(** [state.get(data_field, {})] *)
Definition raw_data (f : Field) (s : ResearchState) : dict loc :=
  get_dict
    match f with
    | financial_data_field => financial_data s
    | news_data_field => news_data s
    | industry_data_field => industry_data s
    | company_data_field => company_data s
    end.

(** [state[f'curated_{data_field}'] = v] *)
Definition set_curated (f : Field) (v : dict Document) (s : ResearchState)
  : ResearchState :=
  match f with
  | financial_data_field => set_curated_financial_data (Some v) s
  | news_data_field => set_curated_news_data (Some v) s
  | industry_data_field => set_curated_industry_data (Some v) s
  | company_data_field => set_curated_company_data (Some v) s
  end.

(** [data_types], without the pictograms of the labels. *)
Definition data_types : list (Field * string * string) :=
  [(financial_data_field, "Financial", "financial");
   (news_data_field, "News", "news");
   (industry_data_field, "Industry", "industry");
   (company_data_field, "Company", "company")].

(** The normalized key of one raw URL, as the deduplication computes it. The
    string that [urljoin] gives for a URL without a scheme is bound to [url]
    and not parsed again: [clean_url] comes from the first parse. *)
Definition clean_url_of (url : string) : result string unit :=
  match Url.urlparse (bracketed_netloc_ok env) url with
  | Raise e u => Raise e u
  | Ok parsed =>
      match (if negb (Url.non_empty (Url.scheme parsed))
             then Url.urljoin (bracketed_netloc_ok env) "https://" url
             else Ok url) with
      | Raise e u => Raise e u
      | Ok url =>
          Ok (Url.geturl (Url.clear_query_fragment parsed))
      end
  end.

(** The deduplication loop of [curate_data] over [data.items()]. It writes
    [url] and [doc_type] into the first document seen under a key, through
    its reference; every exception skips the entry. *)
Fixpoint dedup (doc_type : string) (items : list (string * loc))
    (unique_docs : dict loc) (h : heap) : dict loc * heap :=
  match items with
  | [] => (unique_docs, h)
  | (url, doc) :: rest =>
      match clean_url_of url with
      | Raise _ _ => dedup doc_type rest unique_docs h
      | Ok clean_url =>
          if dict_mem unique_docs clean_url
          then dedup doc_type rest unique_docs h
          else
            let h := update h doc (set_url clean_url (deref h doc)) in
            let h := update h doc (set_doc_type doc_type (deref h doc)) in
            dedup doc_type rest (dict_set unique_docs clean_url doc) h
      end
  end.

(** One entry of [curation_tasks]. *)
Record Task : Type := mkTask {
  t_data_field : Field;
  t_emoji : string;
  t_doc_type : string;
  t_urls : list string;
  t_docs : list loc
}.

(** The first loop of [curate_data]: the tasks of the categories that have
    data, and the heap after the writes of the deduplication. *)
Fixpoint prepare (s : ResearchState) (types : list (Field * string * string))
    (h : heap) : list Task * heap :=
  match types with
  | [] => ([], h)
  | (data_field, emoji, doc_type) :: rest =>
      let data := raw_data data_field s in
      if is_empty data then prepare s rest h
      else
        let (unique_docs, h) := dedup doc_type data [] h in
        let (tasks, h) := prepare s rest h in
        (mkTask data_field emoji doc_type (keys unique_docs) (values unique_docs)
           :: tasks, h)
  end.

(** [{"initial": ..., "kept": ...}] *)
Record DocCount : Type := mkDocCount {
  initial : Z;
  kept : Z
}.

(** [zip(urls, evaluated_docs)], sorted, capped at 30 and made a [dict]. *)
Definition relevant_docs_of (urls : list string) (evaluated_docs : list Document)
  : dict Document :=
  let relevant_docs := dict_of_items (combine urls evaluated_docs) in
  let sorted_items := sort_desc (fun item => score_key (snd item)) relevant_docs in
  let sorted_items :=
    if (30 <? List.length sorted_items)%nat then firstn 30 sorted_items
    else sorted_items in
  dict_of_items sorted_items.

(** The second loop of [curate_data]. An exception carries the state and the
    log reached. *)
Fixpoint process (h : heap) (tasks : list Task) (s : ResearchState)
    (doc_counts : dict DocCount) (msg : Message) (log : Log)
  : result (ResearchState * dict DocCount * Message * Log) (ResearchState * Log) :=
  match tasks with
  | [] => Ok (s, doc_counts, msg, log)
  | t :: rest =>
      let n := Z.of_nat (List.length (t_docs t)) in
      let msg := (msg ++ [Found (t_emoji t) n])%list in
      match (if attached s
             then send_status_update env "category_start" log
             else Ok log) with
      | Raise e log => Raise e (s, log)
      | Ok log =>
          match evaluate_documents s h (t_docs t) log with
          | Raise e log => Raise e (s, log)
          | Ok ([], log) =>
              process h rest s
                (dict_set doc_counts (field_name (t_data_field t)) (mkDocCount n 0))
                (msg ++ [NoRelevantDocuments])%list log
          | Ok (evaluated_docs, log) =>
              let relevant_docs := relevant_docs_of (t_urls t) evaluated_docs in
              let doc_counts :=
                dict_set doc_counts (field_name (t_data_field t))
                  (mkDocCount n (len relevant_docs)) in
              let msg :=
                (msg ++ [if is_empty relevant_docs then NoneMetThreshold
                         else Kept (len relevant_docs)])%list in
              process h rest (set_curated (t_data_field t) relevant_docs s)
                doc_counts msg log
          end
      end
  end.

(** The references step: its failure is caught and empties the three
    fields. *)
Definition store_references (s : ResearchState) (h : heap) : ResearchState :=
  match process_references_from_search_results env s h with
  | Some (top_reference_urls, reference_titles, reference_info) =>
      set_reference_info (Some reference_info)
        (set_reference_titles (Some reference_titles)
           (set_references (Some top_reference_urls) s))
  | None =>
      set_reference_info (Some [])
        (set_reference_titles (Some []) (set_references (Some []) s))
  end.

(** [curate_data] *)
Definition curate_data (w : World) : result World World :=
  let s := state w in
  let company := get_str (company s) "Unknown Company" in
  let preserved_data := _preserve_critical_state_data s in
  match (if attached s
         then send_status_update env "processing" (sent w)
         else Ok (sent w)) with
  | Raise e log => Raise e (mkWorld s (objects w) log)
  | Ok log =>
      let msg := [Curating company] in
      let (curation_tasks, h) := prepare s data_types (objects w) in
      match process h curation_tasks s [] msg log with
      | Raise e (s, log) => Raise e (mkWorld s h log)
      | Ok (s, doc_counts, msg, log) =>
          let s := _restore_critical_state_data s preserved_data in
          let s := store_references s h in
          match build_enrichment_counts h s with
          | Raise e s => Raise e (mkWorld s h log)
          | Ok (s, enrichment_counts) =>
              let s := set_enrichmentCounts (Some enrichment_counts) s in
              let messages :=
                match messages s with Some l => l | None => [] end in
              let s := set_messages (Some (messages ++ [msg])%list) s in
              match (if attached s
                     then send_status_update env "curation_complete" log
                     else Ok log) with
              | Raise e log => Raise e (mkWorld s h log)
              | Ok log =>
                  Ok (mkWorld s h (_send_enrichment_update s log))
              end
          end
      end
  end.

(** [run]: the entry point. *)
Definition run (w : World) : result World World :=
  match curate_data w with
  | Ok w => Ok w
  | Raise _ w =>
      let s := state w in
      let s :=
        match employee_count s with
        | None => set_employee_count (Some []) s
        | Some _ => s
        end in
      let s :=
        match Company_Count s with
        | None => set_Company_Count (Some (VInt 0)) s
        | Some _ => s
        end in
      match build_enrichment_counts (objects w) s with
      | Raise e s => Raise e (mkWorld s (objects w) (sent w))
      | Ok (s, enrichment_counts) =>
          Ok (mkWorld (set_enrichmentCounts (Some enrichment_counts) s)
                (objects w) (sent w))
      end
  end.

End WithEnv.

End Curator.

(* ================================================================== *)
(** * The industry analyzer

    [backend/nodes/researchers/industry.py], class [IndustryAnalyzer]: the
    part of [analyze] that builds [industry_data] and [industry_report]
    (lines 52 to 132). The documents are values here: a search returns
    fresh documents, which this part writes once, before it stores them.
    What [search_documents] and the site scrape give is a parameter. *)

Module Industry.
Import Py State.

(** [s.startswith(p)] *)
Fixpoint starts_with (p s : string) : bool :=
  match p, s with
  | EmptyString, _ => true
  | String a p', String b s' => Ascii.eqb a b && starts_with p' s'
  | String _ _, EmptyString => false
  end.

(** [needle in s] *)
Fixpoint contains (needle s : string) : bool :=
  starts_with needle s
  || match s with
     | String _ s' => contains needle s'
     | EmptyString => false
     end.

(** [doc['query'] = query] *)
Definition set_query (v : string) (d : Document) : Document :=
  mkDocument (d_title d) (d_url d) (d_raw_content d) (d_score d) (Some v)
    (d_doc_type d) (d_employee_count d) (d_evaluation d).

(** One call of [search_documents]: the query, and the mapping returned
    ([None] when the call returned [None]) or the exception raised. *)
Definition Search : Type := string * result (option (dict Document)) unit.

(** The entry of the site scrape, when the state has a scrape that is not
    empty. *)
Definition site_scrape_entry (s : ResearchState) (site_scrape : option string)
  : dict Document :=
  match site_scrape with
  | Some (String _ _ as text) =>
      let company := get_str (company s) "Unknown Company" in
      [(get_str (company_url s) "company-website",
        mkDocument (Some company) None (Some text) None
          (Some ("Industry analysis on " ++ company)) None None None)]
  | _ => []
  end.

(** The inner loop: every document of a search gets the query and goes into
    [industry_data] under its URL. *)
Definition add_documents (query : string) (documents : dict Document)
    (industry_data : dict Document) : dict Document :=
  fold_left (fun data kv => dict_set data (fst kv) (set_query query (snd kv)))
    documents industry_data.

(** The loop over the queries. It is inside one [try]: an exception leaves
    the loop, and [industry_data] keeps what was found before. *)
Fixpoint search_loop (searches : list Search) (industry_data : dict Document)
  : result (dict Document) (dict Document) :=
  match searches with
  | [] => Ok industry_data
  | (query, Raise e _) :: _ => Raise e industry_data
  | (query, Ok None) :: rest => search_loop rest industry_data
  | (query, Ok (Some [])) :: rest => search_loop rest industry_data
  | (query, Ok (Some documents)) :: rest =>
      search_loop rest (add_documents query documents industry_data)
  end.

(** [industry_data] when the report is built: the handler of the [try] only
    adds a line to the message. *)
Definition industry_data_of (s : ResearchState) (site_scrape : option string)
    (searches : list Search) : dict Document :=
  match search_loop searches (site_scrape_entry s site_scrape) with
  | Ok industry_data => industry_data
  | Raise _ industry_data => industry_data
  end.

(** The sections of the structured report, in the order of the literal. *)
Inductive Bucket : Type :=
| MarketPosition
| Competitors
| TrendsAndChallenges
| MarketSizeAndGrowth
| RegulatoryEnvironment
| SupplyChain
| TechnologyAndInnovation
| CustomerSegments
| SustainabilityAndESG
| FinancialBenchmarks
| Other.

Definition bucket_name (b : Bucket) : string :=
  match b with
  | MarketPosition => "Market Position"
  | Competitors => "Competitors"
  | TrendsAndChallenges => "Trends and Challenges"
  | MarketSizeAndGrowth => "Market Size and Growth"
  | RegulatoryEnvironment => "Regulatory Environment"
  | SupplyChain => "Supply Chain"
  | TechnologyAndInnovation => "Technology and Innovation"
  | CustomerSegments => "Customer Segments"
  | SustainabilityAndESG => "Sustainability and ESG"
  | FinancialBenchmarks => "Financial Benchmarks"
  | Other => "Other"
  end.

Definition buckets : list Bucket :=
  [MarketPosition; Competitors; TrendsAndChallenges; MarketSizeAndGrowth;
   RegulatoryEnvironment; SupplyChain; TechnologyAndInnovation;
   CustomerSegments; SustainabilityAndESG; FinancialBenchmarks; Other].

(** The chain of tests on [doc.get('query', '').lower()]: the first one that
    holds names the section. *)
Definition bucket_of (doc : Document) : Bucket :=
  let query := lower (get_str (d_query doc) EmptyString) in
  if contains "market position" query then MarketPosition
  else if contains "competitor" query then Competitors
  else if contains "trend" query || contains "challenge" query
       then TrendsAndChallenges
  else if contains "market size" query || contains "growth" query
       then MarketSizeAndGrowth
  else if contains "regulatory" query || contains "compliance" query
       then RegulatoryEnvironment
  else if contains "supply chain" query || contains "logistics" query
       then SupplyChain
  else if contains "technology" query || contains "innovation" query
       then TechnologyAndInnovation
  else if contains "customer" query || contains "segment" query
       then CustomerSegments
  else if contains "sustainability" query || contains "esg" query
       then SustainabilityAndESG
  else if contains "financial" query || contains "benchmark" query
          || contains "average" query
       then FinancialBenchmarks
  else Other.

(** [structured_report[name].append(doc)] *)
Definition append_to (report : dict (list Document)) (name : string)
    (doc : Document) : dict (list Document) :=
  match dict_get report name with
  | Some docs => dict_set report name (docs ++ [doc])%list
  | None => report
  end.

(** [structured_report]: the sections, empty, then every document of
    [industry_data] appended to the section of its query. *)
Definition structured_report (industry_data : dict Document)
  : dict (list Document) :=
  fold_left (fun report kv =>
               append_to report (bucket_name (bucket_of (snd kv))) (snd kv))
    industry_data (map (fun b => (bucket_name b, [])) buckets).

End Industry.

(* ================================================================== *)
(** * Notions of the properties, and the states of their scenarios *)

Import Py State.

(** The digits that the validator parses: what precedes the first
    parenthesis, stripped, without its non-digits. *)
Definition clean_count_of (raw_count : string) : string :=
  remove_non_digits (strip (split_head "(" raw_count)).

(** A state of the scenarios below: no key but those given. *)
Definition blank_state : ResearchState :=
  mkState None None None None None false None None None None None None None None
    None None None None None None None None.

Definition with_observer (s : ResearchState) : ResearchState :=
  mkState (company s) (industry s) (hq_location s) (company_url s)
    (Some "job-1") true (company_data s) (industry_data s) (financial_data s)
    (news_data s) (curated_company_data s) (curated_industry_data s)
    (curated_financial_data s) (curated_news_data s) (employee_count s)
    (Company_Count s) (enrichment_counts s) (enrichmentCounts s)
    (references s) (reference_titles s) (reference_info s) (messages s).

Definition with_company (name : string) (s : ResearchState) : ResearchState :=
  mkState (Some name) (industry s) (hq_location s) (company_url s)
    (job_id s) (websocket_manager s) (company_data s) (industry_data s)
    (financial_data s) (news_data s) (curated_company_data s)
    (curated_industry_data s) (curated_financial_data s) (curated_news_data s)
    (employee_count s) (Company_Count s) (enrichment_counts s)
    (enrichmentCounts s) (references s) (reference_titles s) (reference_info s)
    (messages s).

(** An environment whose notifications all raise the given exception and
    whose model answers [text]. *)
Definition failing_env (e : exn) (text : option string) : Env :=
  mkEnv (fun _ => true) (fun _ => None) (fun _ => Some e)
    (fun _ _ => None) text.

(** An environment where every call of a collaborator succeeds. *)
Definition quiet_env (text : option string) : Env :=
  mkEnv (fun _ => true) (fun _ => None) (fun _ => None)
    (fun _ _ => Some ([], [], [])) text.

(** ** Notions of the accounting properties *)

(** Every count of a validated mapping lies in the range. *)
Definition all_in_range (d : dict Z) : Prop :=
  Forall (fun kv => 1 <= snd kv <= 10000000) d.

(** An entry of [employee_count] that holds a validated integer. *)
Definition valid_entry (kv : string * pyval) : Prop :=
  exists n, snd kv = VInt n /\ 1 <= n <= 10000000.



(** The keys of a mapping are pairwise distinct, as those of a [dict] are. *)
Fixpoint unique_keys {V} (d : dict V) : bool :=
  match d with
  | [] => true
  | (k, _) :: d' => negb (dict_mem d' k) && unique_keys d'
  end.

(** What [build_enrichment_counts] writes back for the validated mapping
    [valid]; for an empty one this is the empty structure of its last
    branch. *)
Definition write_back (valid : dict Z) (s : ResearchState) : ResearchState :=
  set_Company_Count (Some (VInt (len valid)))
    (set_employee_count (Some (Curator.as_values valid)) s).

(** The snapshot built from the state, the validated mapping and its total. *)
Definition snapshot_of (s : ResearchState) (valid : dict Z) (total : Z)
  : EnrichmentSnapshot :=
  mkEnrichmentSnapshot
    (Curator.counts_of (curated_company_data s) (company_data s))
    (mkEmployeeCounts total 1 valid
       (negb (Curator.is_empty valid) && (0 <? total)) total (len valid))
    (Curator.counts_of (curated_industry_data s) (industry_data s))
    (Curator.counts_of (curated_financial_data s) (financial_data s))
    (Curator.counts_of (curated_news_data s) (news_data s)).

(** ** States of the accounting scenarios *)

Definition with_employee_count (d : dict pyval) (s : ResearchState)
  : ResearchState := set_employee_count (Some d) s.

Definition with_company_data (d : dict loc) (s : ResearchState) : ResearchState :=
  mkState (company s) (industry s) (hq_location s) (company_url s)
    (job_id s) (websocket_manager s) (Some d) (industry_data s)
    (financial_data s) (news_data s) (curated_company_data s)
    (curated_industry_data s) (curated_financial_data s) (curated_news_data s)
    (employee_count s) (Company_Count s) (enrichment_counts s)
    (enrichmentCounts s) (references s) (reference_titles s) (reference_info s)
    (messages s).

(** A document that only carries a score. *)
Definition scored (score : pyval) : Document :=
  mkDocument None None None (Some score) None None None None.

(** The company entry that the analyzer writes, with its employee count. *)
Definition company_entry (count : pyval) : Document :=
  mkDocument (Some "Acme Corp") None (Some EmptyString) None
    (Some "Company overview and information about Acme Corp") None
    (Some count) None.

(** Counts as several stages may leave them: one valid, one a string, one
    zero, one beyond the cap, one a float. *)
Definition mixed_counts : dict pyval :=
  [("acme-corp", VInt 500); ("b", VStr "n/a"); ("c", VInt 0);
   ("d", VInt 50000000); ("e", VFloat (Fin (7 # 2)))].

Definition mixed_state : ResearchState :=
  with_employee_count mixed_counts blank_state.

(** No valid count in the state, one in the company document. *)
Definition fallback_state : ResearchState :=
  with_company_data [("acme-corp", 0%nat)]
    (with_employee_count [("acme-corp", VInt 0)] blank_state).

Definition fallback_heap : heap := [company_entry (VInt 250)].

(** ** Notions of the evaluation properties *)

(** The score of a document coerces to a float at or above the threshold. *)
Definition passes (env : Env) (doc : Document) : option pyfloat :=
  match Curator.float_of env (Curator.score_or_0 doc) with
  | Ok f => if float_ge f Curator.relevance_threshold then Some f else None
  | Raise _ _ => None
  end.

(** The documents of a batch that pass, in the order of the batch, each with
    its evaluation attached. *)
Definition retained (env : Env) (h : heap) (docs : list loc) : list Document :=
  flat_map (fun r => match passes env (deref h r) with
                     | Some f => [Curator.evaluated (deref h r) f]
                     | None => []
                     end) docs.


(** No score of the batch is an integer beyond the range of a float: the
    conversion gives a float, or raises the [ValueError] or [TypeError] of a
    score that is no number. *)
Definition scores_in_float_range (env : Env) (h : heap) (docs : list loc) : bool :=
  forallb (fun r => match Curator.float_of env (Curator.score_or_0 (deref h r)) with
                    | Ok _ | Raise ValueError _ | Raise TypeError _ => true
                    | Raise _ _ => false
                    end) docs.

(** ** A curation scenario: four categories, five documents *)

(** A score written as a decimal fraction. The scenarios name the rational
    itself; against the threshold it compares as the nearest binary64 number
    does. *)
Definition rat (n : Z) (d : positive) : pyval := VFloat (Fin (n # d)).

Definition scenario_heap : heap :=
  [scored (rat 9 10); scored (rat 8 10); scored (rat 2 10);
   scored (rat 7 10); scored (rat 6 10)].

Definition with_raw (financial news industry company : dict loc)
    (s : ResearchState) : ResearchState :=
  mkState (State.company s) (State.industry s) (hq_location s) (company_url s)
    (job_id s) (websocket_manager s) (Some company) (Some industry)
    (Some financial) (Some news) (curated_company_data s)
    (curated_industry_data s) (curated_financial_data s) (curated_news_data s)
    (employee_count s) (Company_Count s) (enrichment_counts s)
    (enrichmentCounts s) (references s) (reference_titles s) (reference_info s)
    (messages s).

Definition scenario_state : ResearchState :=
  with_observer
    (with_raw [("https://f.com/a", 0%nat)]
       [("https://n.com/a", 1%nat); ("https://n.com/b", 2%nat)]
       [("https://i.com/a", 3%nat)]
       [("https://c.com/a", 4%nat)]
       (with_company "Acme Corp" blank_state)).

(** Every collaborator answers, but the [n]-th notification raises [e]. *)
Definition env_failing_at (n : nat) (e : exn) : Env :=
  mkEnv (fun _ => true) (fun _ => None)
    (fun k => if Nat.eqb k n then Some e else None)
    (fun _ _ => Some ([], [], [])) None.



(** A batch with every kind of score: 0.9, a string, [None], no score at
    all, 0.3 and 0.5. *)
Definition mixed_batch : heap :=
  [scored (rat 9 10); scored (VStr "n/a"); scored VNone;
   company_entry (VInt 250); scored (rat 3 10); scored (rat 5 10)].

(** ** Notions of the properties of [run] *)



(** ** Notions of the aliasing property *)



(** ** Notions and scenarios of the deduplication *)

(** A string that may follow a URL without changing what it locates: nothing,
    a query string, or a fragment. *)
Definition starts_query_or_fragment (s : string) : bool :=
  match s with
  | EmptyString => true
  | String c _ => Ascii.eqb c "?" || Ascii.eqb c "#"
  end.

(** The mapping of the specification's scenario and its two documents. *)
Definition spec_scenario_data : dict loc :=
  [("http://a.com/x?ref=1", 0%nat); ("https://a.com/x", 1%nat)].

Definition spec_scenario_heap : heap :=
  [scored (rat 9 10); scored (rat 5 10)].

(** The same two documents under URLs that differ in the query string
    only. *)
Definition same_scheme_data : dict loc :=
  [("https://a.com/x?ref=1", 0%nat); ("https://a.com/x", 1%nat)].



(** ** Notions of the order of the curated documents *)

(** [a] does not rank below [b] under the key of the two sorts. *)
Definition ranks_before {A} (key : A -> pyfloat) (a b : A) : Prop :=
  float_ge (key a) (key b) = true.

(** The key [x] is tied with [k]. *)
Definition tied (k x : pyfloat) : bool := float_ge x k && float_ge k x.

(** A key that the comparison orders: any float but [nan]. *)
Definition ordered_key (x : pyfloat) : bool :=
  match x with NaN => false | _ => true end.

(** The key of the second sort, on the items of [relevant_docs]. *)
Definition item_key (item : string * Document) : pyfloat :=
  Curator.score_key (snd item).

(** The evaluation of a document holds a score at or above the threshold. *)
Definition above_threshold (d : Document) : Prop :=
  float_ge (Curator.score_key d) Curator.relevance_threshold = true.

(** [state.get(f'curated_{data_field}')] *)
Definition curated (f : Curator.Field) (s : ResearchState)
  : option (dict Document) :=
  match f with
  | Curator.financial_data_field => curated_financial_data s
  | Curator.news_data_field => curated_news_data s
  | Curator.industry_data_field => curated_industry_data s
  | Curator.company_data_field => curated_company_data s
  end.

(** A task as the first loop of [curate_data] builds them: the keys and the
    values of one [dict]. *)
Definition task_of_dict (t : Curator.Task) : Prop :=
  NoDup (Curator.t_urls t)
  /\ List.length (Curator.t_urls t) = List.length (Curator.t_docs t).

(** What holds of a mapping that the second loop of [curate_data] stores:
    at least one and at most 30 documents under distinct keys, in descending
    order of score, each one at or above the threshold. *)
Definition well_curated (d : dict Document) : Prop :=
  d <> [] /\ (List.length d <= 30)%nat /\ NoDup (keys d)
  /\ StronglySorted (ranks_before item_key) d
  /\ Forall (fun kv => above_threshold (snd kv)) d.

(** Two news documents, the second one with the higher score. *)
Definition rank_state : ResearchState :=
  with_raw [] [("https://n.com/a", 0%nat); ("https://n.com/b", 1%nat)] [] []
    blank_state.

Definition rank_heap : heap := [scored (rat 5 10); scored (rat 9 10)].

(** The heap of the two news documents after the deduplication. *)
Definition rank_prepared_heap : heap :=
  snd (Curator.prepare (quiet_env None) rank_state Curator.data_types
         rank_heap).

(** A document with a title and a score. *)
Definition titled (title : string) (score : pyval) : Document :=
  mkDocument (Some title) None None (Some score) None None None None.

(** A batch in which the first and the third document share a score. *)
Definition tie_batch : heap :=
  [titled "a" (rat 7 10); titled "b" (rat 9 10); titled "c" (rat 7 10)].

(** ** Notions of the validation of the counts *)

(** The count that the two validation loops accept for a value: that of a
    positive [int] or [float] whose integer part lies in the range. *)
Definition accepted (v : pyval) : option Z :=
  if is_int_or_float v && is_positive v then
    match int_of v with
    | Ok n => if in_range_b n then Some n else None
    | Raise _ _ => None
    end
  else None.

(** Some entry of the mapping holds an accepted count. *)
Definition holds_accepted (d : dict pyval) : bool :=
  existsb (fun kv => match accepted (snd kv) with
                     | Some _ => true
                     | None => false
                     end) d.

(** The accepted count of the document behind a reference. *)
Definition accepted_of_document (h : heap) (r : loc) : option Z :=
  match d_employee_count (deref h r) with
  | Some c => accepted c
  | None => None
  end.

(** ** Notions of the answer of the model *)

(** A string of decimal digits. *)
Fixpoint digits_only (s : string) : bool :=
  match s with
  | String c s' => is_digit c && digits_only s'
  | EmptyString => true
  end.

(** ** Notions of the evaluation when a call fails *)





(** ** Notions of the copies that the curated mappings hold *)


(** ** Notions of the industry report *)

Definition bucket_eqb (a b : Industry.Bucket) : bool :=
  String.eqb (Industry.bucket_name a) (Industry.bucket_name b).

(** Two searches of the industry analyzer and their documents. *)
Definition industry_searches : list Industry.Search :=
  [("Acme competitors and market position",
    Ok (Some [("https://a.com/1", titled "one" (rat 9 10))]));
   ("Widget industry TRENDS",
    Ok (Some [("https://a.com/2", titled "two" (rat 5 10));
              ("https://a.com/1", titled "three" (rat 7 10))]));
   ("Average margins", Raise OtherError tt);
   ("Customer segments",
    Ok (Some [("https://a.com/4", titled "four" (rat 8 10))]))].

(* ================================================================== *)
(** * Properties *)

Local Open Scope list_scope.

(** ** The fact validator *)

Section Validator.

Import Company.

Lemma validate_cases (raw_count company : string) :
  _validate_and_process_employee_count raw_count company =
  match int_of_digits (clean_count_of raw_count) with
  | Some n => if in_range_b n then n else 1
  | None => 1
  end.
Proof.
  unfold _validate_and_process_employee_count, clean_count_of.
  destruct (remove_non_digits (strip (split_head "(" raw_count))) as [|c d];
    reflexivity.
Qed.

(** C4. For every input string the fact validator returns an integer in
    [1, 10000000] (it is a total function: nothing is raised). It returns the
    parsed value when that lies in the range, and the fallback 1 in every
    other case: no digit before the first parenthesis, digits that [int]
    refuses, or a parsed value outside the range. The three answers of the
    scenario give 1200, 1 and 1. *)
Theorem validate_in_range_or_fallback_one :
  forall raw_count company : string,
    let r := _validate_and_process_employee_count raw_count company in
    1 <= r <= 10000000
    /\ (clean_count_of raw_count = EmptyString -> r = 1)
    /\ (int_of_digits (clean_count_of raw_count) = None -> r = 1)
    /\ (forall n, int_of_digits (clean_count_of raw_count) = Some n ->
                  ~ (1 <= n <= 10000000) -> r = 1)
    /\ (forall n, int_of_digits (clean_count_of raw_count) = Some n ->
                  1 <= n <= 10000000 -> r = n)
    /\ _validate_and_process_employee_count "1200 (2023)" company = 1200
    /\ _validate_and_process_employee_count "unknown" company = 1
    /\ _validate_and_process_employee_count "50000000" company = 1.
Proof.
  intros raw_count company r. subst r.
  rewrite validate_cases.
  repeat split.
  - destruct (int_of_digits _) as [n|]; [|lia].
    destruct (in_range_b n) eqn:E; [|lia].
    unfold in_range_b in E. lia.
  - destruct (int_of_digits _) as [n|]; [|lia].
    destruct (in_range_b n) eqn:E; [|lia].
    unfold in_range_b in E. lia.
  - intros ->. reflexivity.
  - intros ->. reflexivity.
  - intros n -> Hn.
    destruct (in_range_b n) eqn:E; [|reflexivity].
    unfold in_range_b in E. lia.
  - intros n -> Hn.
    destruct (in_range_b n) eqn:E; [reflexivity|].
    unfold in_range_b in E. lia.
Qed.

(** The scenario of C4 through the theorem: an answer without digits and an
    answer beyond the cap fall back to 1. *)
Lemma validate_in_range_or_fallback_one_witness :
  _validate_and_process_employee_count "unknown" "Acme" = 1
  /\ _validate_and_process_employee_count "50000000" "Acme" = 1
  /\ _validate_and_process_employee_count "12,500 (2023)" "Acme" = 12500.
Proof.
  split; [|split].
  - apply (proj1 (proj2 (validate_in_range_or_fallback_one "unknown" "Acme"))).
    reflexivity.
  - apply (proj1 (proj2 (proj2 (proj2
      (validate_in_range_or_fallback_one "50000000" "Acme")))) 50000000).
    + reflexivity.
    + lia.
  - apply (proj1 (proj2 (proj2 (proj2 (proj2
      (validate_in_range_or_fallback_one "12,500 (2023)" "Acme"))))) 12500).
    + reflexivity.
    + lia.
Defined.

End Validator.

(** ** Dictionaries *)

Lemma dict_get_set_same {V} (d : dict V) (k : string) (v : V) :
  dict_get (dict_set d k v) k = Some v.
Proof.
  induction d as [|[k' v'] d IH]; simpl.
  - now rewrite String.eqb_refl.
  - destruct (String.eqb k k') eqn:E; simpl; rewrite ?E; auto.
Qed.

Lemma dict_get_set_other {V} (d : dict V) (k k0 : string) (v : V) :
  k0 <> k -> dict_get (dict_set d k v) k0 = dict_get d k0.
Proof.
  intros Hk. induction d as [|[k' v'] d IH]; simpl.
  - destruct (String.eqb k0 k) eqn:E; [|reflexivity].
    apply String.eqb_eq in E. contradiction.
  - destruct (String.eqb k k') eqn:E; simpl.
    + apply String.eqb_eq in E. subst k'.
      destruct (String.eqb k0 k) eqn:E0; [|reflexivity].
      apply String.eqb_eq in E0. contradiction.
    + destruct (String.eqb k0 k'); auto.
Qed.

(** ** The fallback of the employee-count step *)

Section EmployeeCountStep.

Import Company.

Variable env : Env.

(** The [try] of the step lets an exception escape exactly when an observer
    is attached and the first notification raises; the state is then
    untouched. *)
Lemma employee_count_try_raises (w w1 : World) (e : exn) :
  employee_count_try env w = Raise e w1 <->
  attached (state w) = true
  /\ send_outcome env (List.length (sent w)) = Some e
  /\ w1 = mkWorld (state w) (objects w) (sent w ++ [("processing", false)])%list.
Proof.
  unfold employee_count_try, send_status_update.
  destruct (attached (state w)).
  - destruct (send_outcome env (List.length (sent w))) as [e'|].
    + split.
      * intros H. inversion H. auto.
      * intros (_ & H & ->). inversion H. reflexivity.
    + split; [discriminate|]. intros (_ & H & _). discriminate.
  - split; [discriminate|]. intros (H & _). discriminate.
Qed.

Lemma send_employee_count_update_keeps (w : World) (v : Z) (company : string) :
  employee_count (state (_send_employee_count_update env w v company))
    = employee_count (state w)
  /\ Company_Count (state (_send_employee_count_update env w v company))
    = Company_Count (state w).
Proof.
  unfold _send_employee_count_update.
  destruct (attached (state w)); split; reflexivity.
Qed.

(** C10. When an exception escapes the [try] of the employee-count step of
    [analyze] (the failure of a collaborator, not of the parse, which the
    validator answers by 1), the value stored under the company key in
    [employee_count] is the fallback 100 and [Company_Count] is 1. *)
Theorem analyze_fallback_stores_100 :
  forall (w w1 : World) (e : exn),
    employee_count_try env w = Raise e w1 ->
    let company := get_str (company (state w)) "Unknown Company" in
    let company_url := company_key (state w) company in
    let w' := fst (employee_count_step env w) in
    snd (employee_count_step env w) = 100
    /\ dict_get (get_dict (employee_count (state w'))) company_url
       = Some (VInt 100)
    /\ Company_Count (state w') = Some (VInt 1).
Proof.
  intros w w1 e H. cbv zeta.
  unfold employee_count_step. rewrite H. cbn [fst snd].
  apply employee_count_try_raises in H. destruct H as (_ & _ & ->).
  cbn [state objects sent].
  destruct (send_employee_count_update_keeps
              (mkWorld
                 (store_employee_count
                    (company_key (state w)
                       (get_str (company (state w)) "Unknown Company"))
                    100 1 (state w))
                 (objects w) (sent w ++ [("processing", false)])%list)
              100 (get_str (company (state w)) "Unknown Company")) as [He Hc].
  rewrite He, Hc. cbn [state].
  split; [reflexivity|]. split.
  - unfold store_employee_count.
    destruct (employee_count (state w));
      cbn [employee_count set_employee_count set_Company_Count get_dict];
      apply dict_get_set_same.
  - unfold store_employee_count.
    destruct (employee_count (state w)); reflexivity.
Qed.

End EmployeeCountStep.

(** C10 on a run: the observer of Acme Corp drops the connection, the model
    would have answered 182502; the state ends with 100 under [acme-corp]. *)
Lemma analyze_fallback_stores_100_witness :
  let w := mkWorld (with_observer (with_company "Acme Corp" blank_state)) [] [] in
  let w' := fst (Company.employee_count_step
                   (failing_env OtherError (Some "182502 (2023)")) w) in
  dict_get (get_dict (employee_count (state w'))) "acme-corp" = Some (VInt 100)
  /\ Company_Count (state w') = Some (VInt 1).
Proof.
  cbv zeta.
  refine (proj2 (analyze_fallback_stores_100
                   (failing_env OtherError (Some "182502 (2023)"))
                   (mkWorld (with_observer (with_company "Acme Corp" blank_state))
                      [] [])
                   (mkWorld (with_observer (with_company "Acme Corp" blank_state))
                      [] [("processing", false)])
                   OtherError _)).
  reflexivity.
Defined.

(** ** More on dictionaries *)

Lemma dict_mem_In {V} (d : dict V) (k : string) :
  dict_mem d k = true <-> In k (keys d).
Proof.
  unfold dict_mem. induction d as [|[k' v'] d IH]; simpl.
  - split; [discriminate|tauto].
  - destruct (String.eqb k k') eqn:E.
    + apply String.eqb_eq in E. subst. tauto.
    + apply String.eqb_neq in E. rewrite IH. split; [tauto|].
      intros [H|H]; [congruence|exact H].
Qed.

Lemma dict_mem_false {V} (d : dict V) (k : string) :
  dict_mem d k = false <-> ~ In k (keys d).
Proof.
  rewrite <- dict_mem_In. destruct (dict_mem d k); split; congruence.
Qed.

Lemma dict_set_fresh {V} (d : dict V) (k : string) (v : V) :
  ~ In k (keys d) -> dict_set d k v = (d ++ [(k, v)])%list.
Proof.
  induction d as [|[k' v'] d IH]; simpl; intros H; [reflexivity|].
  destruct (String.eqb k k') eqn:E.
  - apply String.eqb_eq in E. subst. tauto.
  - rewrite IH; tauto.
Qed.

Lemma keys_dict_set_present {V} (d : dict V) (k : string) (v : V) :
  In k (keys d) -> keys (dict_set d k v) = keys d.
Proof.
  induction d as [|[k' v'] d IH]; simpl; intros H; [tauto|].
  destruct (String.eqb k k') eqn:E; simpl; [reflexivity|].
  apply String.eqb_neq in E. f_equal. apply IH.
  destruct H as [H|H]; [congruence|exact H].
Qed.

Lemma NoDup_keys_dict_set {V} (d : dict V) (k : string) (v : V) :
  NoDup (keys d) -> NoDup (keys (dict_set d k v)).
Proof.
  intros H. destruct (in_dec string_dec k (keys d)) as [Hin|Hout].
  - now rewrite keys_dict_set_present.
  - rewrite dict_set_fresh by exact Hout. unfold keys. rewrite map_app. simpl.
    apply NoDup_app.
    + exact H.
    + constructor; [simpl; tauto|constructor].
    + intros a Ha [<-|[]]. exact (Hout Ha).
Qed.

Lemma In_dict_set {V} (d : dict V) (k : string) (v : V) (kv : string * V) :
  In kv (dict_set d k v) -> kv = (k, v) \/ In kv d.
Proof.
  induction d as [|[k' v'] d IH]; simpl.
  - intros [H|[]]. now left.
  - destruct (String.eqb k k') eqn:E; simpl.
    + apply String.eqb_eq in E. subst. intros [H|H]; auto.
    + intros [H|H]; auto. destruct (IH H); auto.
Qed.

(** ** Enrichment accounting *)

Lemma unique_keys_NoDup {V} (d : dict V) :
  unique_keys d = true <-> NoDup (keys d).
Proof.
  induction d as [|[k v] d IH]; simpl.
  - split; [constructor|reflexivity].
  - rewrite andb_true_iff, negb_true_iff, dict_mem_false, IH.
    split.
    + intros [H1 H2]. now constructor.
    + intros H. inversion H. tauto.
Qed.

Lemma sum_values_app (d : dict Z) (k : string) (v : Z) :
  Curator.sum_values (d ++ [(k, v)]) = Curator.sum_values d + v.
Proof.
  unfold Curator.sum_values, values. rewrite map_app, fold_left_app.
  reflexivity.
Qed.

Lemma all_in_range_dict_set (d : dict Z) (k : string) (v : Z) :
  all_in_range d -> 1 <= v <= 10000000 -> all_in_range (dict_set d k v).
Proof.
  unfold all_in_range. intros Hd Hv. apply Forall_forall. intros kv Hin.
  apply In_dict_set in Hin. destruct Hin as [->|Hin]; [exact Hv|].
  rewrite Forall_forall in Hd. auto.
Qed.

Lemma in_range_b_true (n : Z) : in_range_b n = true <-> 1 <= n <= 10000000.
Proof. unfold in_range_b. lia. Qed.

(** The loop over [employee_count] keeps distinct keys and in-range values. *)
Lemma validate_loop_range (items : dict pyval) :
  forall (acc : dict Z) (t : Z) (v' : dict Z) (t' : Z),
    NoDup (keys acc) -> all_in_range acc ->
    Curator.validate_loop items acc t = Ok (v', t') ->
    NoDup (keys v') /\ all_in_range v'.
Proof.
  induction items as [|[url count] items IH]; simpl; intros acc t v' t' Hn Hr H.
  - inversion H. subst. auto.
  - destruct (is_int_or_float count && is_positive count); [|eauto].
    destruct (int_of count) as [c|]; [|discriminate].
    destruct (in_range_b c) eqn:E; [|eauto].
    apply in_range_b_true in E.
    eapply IH; [| |exact H].
    + now apply NoDup_keys_dict_set.
    + now apply all_in_range_dict_set.
Qed.

(** On a mapping with distinct keys the running total is the sum of the
    validated counts. *)
Lemma validate_loop_total (items : dict pyval) :
  forall (acc : dict Z) (t : Z) (v' : dict Z) (t' : Z),
    NoDup (keys items) ->
    (forall k, In k (keys items) -> ~ In k (keys acc)) ->
    t = Curator.sum_values acc ->
    Curator.validate_loop items acc t = Ok (v', t') ->
    t' = Curator.sum_values v'.
Proof.
  induction items as [|[url count] items IH]; simpl; intros acc t v' t' Hn Hd Ht H.
  - inversion H. subst. reflexivity.
  - inversion Hn as [|? ? Hurl Hn']. subst.
    destruct (is_int_or_float count && is_positive count); [|eauto].
    destruct (int_of count) as [c|]; [|discriminate].
    destruct (in_range_b c) eqn:E; [|eauto].
    eapply IH; [exact Hn'| | |exact H].
    + intros k Hk. rewrite dict_set_fresh by auto.
      unfold keys. rewrite map_app, in_app_iff. simpl.
      intros [Hin|[<-|[]]]; [exact (Hd k (or_intror Hk) Hin)|exact (Hurl Hk)].
    + rewrite dict_set_fresh by auto. now rewrite sum_values_app.
Qed.

(** The same loop on an already validated mapping gives it back. *)
Lemma validate_loop_fixed (d : dict Z) :
  forall acc : dict Z,
    all_in_range d -> NoDup (keys (acc ++ d)) ->
    Curator.validate_loop (Curator.as_values d) acc (Curator.sum_values acc)
    = Ok ((acc ++ d)%list, Curator.sum_values (acc ++ d)).
Proof.
  induction d as [|[k v] d IH]; simpl; intros acc Hr Hn.
  - now rewrite app_nil_r.
  - inversion Hr as [|? ? Hv Hr']. subst. simpl in Hv.
    assert (Hpos : (0 <? v) = true) by lia.
    rewrite Hpos. simpl.
    assert (E : in_range_b v = true) by now apply in_range_b_true.
    rewrite E.
    assert (Hfresh : ~ In k (keys acc)).
    { unfold keys in *. rewrite map_app in Hn. simpl in Hn.
      apply NoDup_remove_2 in Hn. rewrite in_app_iff in Hn. tauto. }
    rewrite dict_set_fresh by exact Hfresh.
    rewrite <- sum_values_app with (k := k).
    replace (acc ++ (k, v) :: d)%list with ((acc ++ [(k, v)]) ++ d)%list
      by (rewrite <- app_assoc; reflexivity).
    apply IH; [exact Hr'|].
    rewrite <- app_assoc. exact Hn.
Qed.

Lemma extract_loop_range (h : heap) (items : dict loc) :
  forall (acc v' : dict Z),
    NoDup (keys acc) -> all_in_range acc ->
    Curator.extract_loop h items acc = Ok v' ->
    NoDup (keys v') /\ all_in_range v'.
Proof.
  induction items as [|[url r] items IH]; simpl; intros acc v' Hn Hr H.
  - inversion H. subst. auto.
  - destruct (d_employee_count (deref h r)) as [emp|]; [|eauto].
    destruct (is_int_or_float emp && is_positive emp); [|eauto].
    destruct (int_of emp) as [c|]; [|discriminate].
    destruct (in_range_b c) eqn:E; [|eauto].
    apply in_range_b_true in E.
    eapply IH; [| |exact H].
    + now apply NoDup_keys_dict_set.
    + now apply all_in_range_dict_set.
Qed.

Section Accounting.

Import Curator.

Variable h : heap.

(** The shape of a successful accounting: a validated mapping with distinct
    keys and in-range counts is written back and reported. *)
Lemma build_shape (s s' : ResearchState) (snap : EnrichmentSnapshot) :
  build_enrichment_counts h s = Ok (s', snap) ->
  exists (valid : dict Z) (total : Z),
    NoDup (keys valid) /\ all_in_range valid
    /\ s' = write_back valid s
    /\ snap = snapshot_of s valid total
    /\ (unique_keys (get_dict (employee_count s)) = true ->
        total = sum_values valid)
    /\ (is_empty valid = true ->
        is_empty (get_dict (company_data s)) = false ->
        _extract_employee_count_from_company_data h (get_dict (company_data s))
        = Ok []).
Proof.
  unfold build_enrichment_counts. intros H.
  destruct (validate_loop (get_dict (employee_count s)) [] 0)
    as [[v t]|] eqn:E1; [|discriminate].
  destruct (validate_loop_range _ [] _ _ _ (NoDup_nil _) (Forall_nil _) E1)
    as [Hn Hr].
  assert (Ht : unique_keys (get_dict (employee_count s)) = true ->
               t = sum_values v).
  { intros Hu. apply unique_keys_NoDup in Hu.
    eapply validate_loop_total; [exact Hu| |reflexivity|exact E1].
    intros k _ []. }
  destruct (is_empty v && negb (is_empty (get_dict (company_data s)))) eqn:E2.
  - destruct (_extract_employee_count_from_company_data h
                (get_dict (company_data s))) as [v2|] eqn:E3; [|discriminate].
    unfold _extract_employee_count_from_company_data in E3.
    destruct (extract_loop_range _ _ [] _ (NoDup_nil _) (Forall_nil _) E3)
      as [Hn2 Hr2].
    exists v2, (sum_values v2).
    destruct v2 as [|kv v2]; inversion H; subst; clear H;
      (repeat split; auto).
    discriminate.
  - exists v, t.
    destruct v as [|kv v]; inversion H; subst; clear H;
      (repeat split; auto).
    + intros _ Hc. simpl in E2. rewrite Hc in E2. discriminate.
    + discriminate.
Qed.




End Accounting.

Section AccountingClaims.

Import Curator.

(** C7. After [build_enrichment_counts] has run on a state, the state holds
    an [employee_count] mapping whose every value is an integer of
    [1, 10000000], and [Company_Count] is the number of its entries. *)
Theorem accounting_leaves_validated_counts :
  forall (h : heap) (s s' : ResearchState) (snap : EnrichmentSnapshot),
    build_enrichment_counts h s = Ok (s', snap) ->
    exists d : dict pyval,
      employee_count s' = Some d
      /\ Company_Count s' = Some (VInt (len d))
      /\ Forall valid_entry d.
Proof.
  intros h s s' snap H.
  destruct (build_shape h s s' snap H) as (valid & total & _ & Hr & -> & _).
  exists (as_values valid). repeat split.
  - cbn. unfold len, as_values. now rewrite length_map.
  - unfold as_values. apply Forall_map. unfold all_in_range in Hr.
    eapply Forall_impl; [|exact Hr].
    intros [k n] Hn. exists n. auto.
Qed.

(** C7 on the mixed counts: of five entries two survive, 500 and the
    truncated 3, and [Company_Count] is 2. *)
Lemma accounting_leaves_validated_counts_witness :
  exists (s' : ResearchState) (snap : EnrichmentSnapshot),
    build_enrichment_counts [] mixed_state = Ok (s', snap)
    /\ employee_count s' = Some [("acme-corp", VInt 500); ("e", VInt 3)]
    /\ exists d : dict pyval,
         employee_count s' = Some d
         /\ Company_Count s' = Some (VInt (len d))
         /\ Forall valid_entry d.
Proof.
  eexists. eexists. split; [reflexivity|]. split; [reflexivity|].
  eapply (accounting_leaves_validated_counts [] mixed_state).
  reflexivity.
Defined.

(** C6. A second call of [build_enrichment_counts], right after a first one
    that returned, returns the same snapshot and leaves the state as the
    first call left it: whether the first call filtered entries out, took the
    counts from the company documents, or wrote the validated values back. *)
Theorem accounting_idempotent :
  forall (h : heap) (s s1 : ResearchState) (snap1 : EnrichmentSnapshot),
    unique_keys (get_dict (employee_count s)) = true ->
    build_enrichment_counts h s = Ok (s1, snap1) ->
    build_enrichment_counts h s1 = Ok (s1, snap1).
Proof.
  intros h s s1 snap1 Hu H.
  destruct (build_shape h s s1 snap1 H)
    as (valid & total & Hn & Hr & -> & -> & Ht & Hf).
  specialize (Ht Hu). subst total.
  pose proof (validate_loop_fixed valid [] Hr Hn) as Hfix.
  change (sum_values []) with 0 in Hfix. simpl app in Hfix.
  unfold build_enrichment_counts.
  change (get_dict (employee_count (write_back valid s)))
    with (as_values valid).
  change (get_dict (company_data (write_back valid s)))
    with (get_dict (company_data s)).
  rewrite Hfix.
  destruct valid as [|kv valid].
  - destruct (is_empty (get_dict (company_data s))) eqn:Ec.
    + reflexivity.
    + simpl andb. cbv iota. rewrite (Hf eq_refl eq_refl). reflexivity.
  - reflexivity.
Qed.

(** C6 on three runs: entries filtered out, counts recovered from the company
    document, and a state that only needs the write-back. *)
Lemma accounting_idempotent_witness :
  (exists s1 snap1,
      build_enrichment_counts [] mixed_state = Ok (s1, snap1)
      /\ data (sn_employeeCount snap1) = [("acme-corp", 500); ("e", 3)]
      /\ build_enrichment_counts [] s1 = Ok (s1, snap1))
  /\ (exists s1 snap1,
         build_enrichment_counts fallback_heap fallback_state = Ok (s1, snap1)
         /\ data (sn_employeeCount snap1) = [("acme-corp", 250)]
         /\ build_enrichment_counts fallback_heap s1 = Ok (s1, snap1))
  /\ (exists s1 snap1,
         build_enrichment_counts [] blank_state = Ok (s1, snap1)
         /\ employee_count s1 = Some []
         /\ build_enrichment_counts [] s1 = Ok (s1, snap1)).
Proof.
  split; [|split].
  - eexists. eexists. split; [reflexivity|]. split; [reflexivity|].
    apply (accounting_idempotent [] mixed_state); reflexivity.
  - eexists. eexists. split; [reflexivity|]. split; [reflexivity|].
    apply (accounting_idempotent fallback_heap fallback_state); reflexivity.
  - eexists. eexists. split; [reflexivity|]. split; [reflexivity|].
    apply (accounting_idempotent [] blank_state); reflexivity.
Defined.

End AccountingClaims.

(** ** Document evaluation *)

Section Evaluation.

Import Curator.

Lemma insert_desc_perm {A} (key : A -> pyfloat) (x : A) (l : list A) :
  Permutation (insert_desc key x l) (x :: l).
Proof.
  induction l as [|y l IH]; simpl.
  - apply Permutation_refl.
  - destruct (float_ge (key x) (key y)).
    + apply Permutation_refl.
    + eapply Permutation_trans; [apply perm_skip, IH|apply perm_swap].
Qed.

Lemma sort_desc_perm {A} (key : A -> pyfloat) (l : list A) :
  Permutation (sort_desc key l) l.
Proof.
  induction l as [|x l IH]; simpl.
  - apply Permutation_refl.
  - eapply Permutation_trans; [apply insert_desc_perm|apply perm_skip, IH].
Qed.

Variable env : Env.



(** Under no hypothesis at all: whenever the loop finishes, what it has
    appended is exactly the documents that pass. A document that is dropped,
    and a notification that raises [ValueError] or [TypeError], never cost
    another document. *)
Lemma evaluate_loop_finishes_with_retained (s : ResearchState) (h : heap)
    (docs : list loc) :
  forall (acc out : list Document) (log log' : Log),
    evaluate_loop env s h docs acc log = Ok (out, log') ->
    out = acc ++ retained env h docs.
Proof.
  induction docs as [|r docs IH]; simpl; intros acc out log log' H.
  - inversion H. now rewrite app_nil_r.
  - unfold passes.
    destruct (float_of env (score_or_0 (deref h r))) as [f|e u].
    + destruct (float_ge f relevance_threshold); [|now apply IH with (log := log) (log' := log')].
      simpl.
      replace (acc ++ evaluated (deref h r) f :: retained env h docs)
        with ((acc ++ [evaluated (deref h r) f]) ++ retained env h docs)
        by (rewrite <- app_assoc; reflexivity).
      destruct (attached s).
      * destruct (send_status_update env "document_kept" log) as [l|e l];
          [eapply IH; exact H|].
        destruct e; try discriminate; eapply IH; exact H.
      * eapply IH; exact H.
    + simpl. destruct e; try discriminate; eapply IH; exact H.
Qed.


Lemma In_retained (h : heap) (docs : list loc) (d : Document) :
  In d (retained env h docs) <->
  exists r f,
    In r docs
    /\ float_of env (score_or_0 (deref h r)) = Ok f
    /\ float_ge f relevance_threshold = true
    /\ d = evaluated (deref h r) f.
Proof.
  unfold retained. rewrite in_flat_map. split.
  - intros (r & Hr & Hin). unfold passes in Hin.
    destruct (float_of env (score_or_0 (deref h r))) as [f|e u] eqn:Ef;
      [|destruct Hin].
    destruct (float_ge f relevance_threshold) eqn:Eg; [|destruct Hin].
    destruct Hin as [<-|[]]. exists r, f. auto.
  - intros (r & f & Hr & Ef & Eg & ->). exists r. split; [exact Hr|].
    unfold passes. rewrite Ef, Eg. now left.
Qed.

End Evaluation.

(** ** The heap under the writes of the deduplication *)





Section HeapFrame.

Import Curator.

Variable env : Env.

(** A field that the two writes of the deduplication leave alone. *)
Variable A : Type.
Variable f : Document -> A.
Hypothesis f_set_url : forall c d, f (set_url c d) = f d.
Hypothesis f_set_doc_type : forall t d, f (set_doc_type t d) = f d.



End HeapFrame.

(** ** The entry point *)

Section Run.

Import Curator.

Variable env : Env.


(** The second loop of [curate_data] only stores curated sets: what does not
    depend on them is the same after it, whether it finishes or raises. *)
Lemma process_keeps {X} (g : ResearchState -> X) (h : heap) (tasks : list Task) :
  (forall f v s, g (set_curated f v s) = g s) ->
  forall (s : ResearchState) (doc_counts : dict DocCount) (msg : Message)
         (log : Log),
    match process env h tasks s doc_counts msg log with
    | Ok (s', _, _, _) => g s' = g s
    | Raise _ (s', _) => g s' = g s
    end.
Proof.
  intros Hg.
  induction tasks as [|t tasks IH]; simpl; intros s doc_counts msg log.
  - reflexivity.
  - destruct (if attached s then send_status_update env "category_start" log
              else Ok log) as [log0|e log0]; [|reflexivity].
    destruct (evaluate_documents env s h (t_docs t) log0)
      as [[[|d ev] log1]|e log1]; [| |reflexivity].
    + apply IH.
    + match goal with
      | |- context [process env h tasks ?s' ?dc ?m ?l] =>
          specialize (IH s' dc m l);
          destruct (process env h tasks s' dc m l) as [[[[s2 dc2] m2] l2]|e2 [s2 l2]]
      end; rewrite IH; apply Hg.
Qed.




End Run.

(** ** Deduplication *)

Section Dedup.

Import Curator.

Variable env : Env.

Lemma dedup_app (doc_type : string) (pre rest : dict loc) :
  forall (acc : dict loc) (h : heap),
    dedup env doc_type (pre ++ rest) acc h
    = dedup env doc_type rest (fst (dedup env doc_type pre acc h))
        (snd (dedup env doc_type pre acc h)).
Proof.
  induction pre as [|[url doc] pre IH]; simpl; intros acc h.
  - reflexivity.
  - destruct (clean_url_of env url) as [c|]; [|apply IH].
    destruct (dict_mem acc c); apply IH.
Qed.



(** A key, once bound, stays bound to the same reference. *)
Lemma dedup_keeps_binding (doc_type : string) (items : dict loc) :
  forall (acc : dict loc) (h : heap) (c : string) (r : loc),
    dict_get acc c = Some r ->
    dict_get (fst (dedup env doc_type items acc h)) c = Some r.
Proof.
  induction items as [|[url doc] items IH]; simpl; intros acc h c r Hc.
  - exact Hc.
  - destruct (clean_url_of env url) as [c'|]; [|now apply IH].
    destruct (dict_mem acc c') eqn:Em; [now apply IH|].
    apply IH. rewrite dict_get_set_other; [exact Hc|].
    intros ->. unfold dict_mem in Em. now rewrite Hc in Em.
Qed.

(** Entries with other normalized URLs do not bind the key [c]. *)
Lemma dedup_no_binding (doc_type : string) (items : dict loc) (c : string) :
  forall (acc : dict loc) (h : heap),
    (forall k r, In (k, r) items -> clean_url_of env k <> Ok c) ->
    dict_mem acc c = false ->
    dict_mem (fst (dedup env doc_type items acc h)) c = false.
Proof.
  induction items as [|[url doc] items IH]; simpl; intros acc h Hk Hc.
  - exact Hc.
  - assert (Hk' : forall k r, In (k, r) items -> clean_url_of env k <> Ok c)
      by (intros k r Hin; apply (Hk k r); now right).
    pose proof (Hk url doc (or_introl eq_refl)) as Hurl.
    destruct (clean_url_of env url) as [c'|]; [|now apply IH].
    destruct (dict_mem acc c') eqn:Em; [now apply IH|].
    apply IH; [exact Hk'|].
    unfold dict_mem in *. rewrite dict_get_set_other; [exact Hc|].
    intros ->. now apply Hurl.
Qed.


End Dedup.

(** ** Writes through aliases *)

Section Aliasing.

Import Curator.

Variable env : Env.



End Aliasing.

Section RawMappings.

Import Curator.

Variable env : Env.






End RawMappings.

(** ** URLs that differ in query string or fragment *)

Section QueryFragment.

Import Url.
Local Open Scope string_scope.

Lemma append_empty_r (s : string) : (s ++ EmptyString)%string = s.
Proof. induction s as [|c s IH]; simpl; congruence. Qed.

Lemma append_assoc (a b c : string) :
  ((a ++ b) ++ c)%string = (a ++ (b ++ c))%string.
Proof. induction a as [|x a IH]; simpl; congruence. Qed.

Lemma contains_append (c : ascii) (a b : string) :
  contains c (a ++ b)%string = contains c a || contains c b.
Proof.
  induction a as [|x a IH]; simpl; [reflexivity|].
  rewrite IH. now rewrite orb_assoc.
Qed.

Lemma split_once_absent (c : ascii) (s : string) :
  contains c s = false -> split_once c s = (s, EmptyString).
Proof.
  induction s as [|x s IH]; simpl; intros H; [reflexivity|].
  apply orb_false_iff in H. destruct H as [Hx Hs].
  rewrite Hx, (IH Hs). reflexivity.
Qed.

(** Without [c] in [a], the split of [a ++ b] happens in [b]. *)
Lemma split_once_append_absent (c : ascii) (a b : string) :
  contains c a = false ->
  split_once c (a ++ b)%string
  = ((a ++ fst (split_once c b))%string, snd (split_once c b)).
Proof.
  induction a as [|x a IH]; simpl; intros H.
  - now destruct (split_once c b).
  - apply orb_false_iff in H. destruct H as [Hx Ha].
    rewrite Hx, (IH Ha). reflexivity.
Qed.

(** With [c] in [a], the split of [a ++ b] happens in [a]. *)
Lemma split_once_append_present (c : ascii) (a b : string) :
  contains c a = true ->
  split_once c (a ++ b)%string
  = (fst (split_once c a), (snd (split_once c a) ++ b)%string).
Proof.
  induction a as [|x a IH]; simpl; intros H; [discriminate|].
  destruct (Ascii.eqb x c) eqn:Ex; [reflexivity|].
  simpl in H. rewrite (IH H).
  destruct (split_once c a). reflexivity.
Qed.

Lemma split_once_keeps_absent (c x : ascii) (s : string) :
  contains x s = false ->
  contains x (fst (split_once c s)) = false
  /\ contains x (snd (split_once c s)) = false.
Proof.
  induction s as [|y s IH]; simpl; intros H; [auto|].
  apply orb_false_iff in H. destruct H as [Hy Hs].
  destruct (Ascii.eqb y c); simpl; [auto|].
  destruct (IH Hs) as [H1 H2]. destruct (split_once c s). simpl in *.
  now rewrite Hy.
Qed.

Lemma all_chars_append (p : ascii -> bool) (a b : string) :
  all_chars p (a ++ b)%string = all_chars p a && all_chars p b.
Proof.
  induction a as [|x a IH]; simpl; [reflexivity|].
  rewrite IH. now rewrite andb_assoc.
Qed.

Lemma starts_cases (s : string) :
  starts_query_or_fragment s = true ->
  s = EmptyString
  \/ (exists s', s = String "?" s') \/ (exists s', s = String "#" s').
Proof.
  destruct s as [|c s]; simpl; intros H; [now left|right].
  apply orb_true_iff in H. destruct H as [H|H]; apply Ascii.eqb_eq in H;
    subst; eauto.
Qed.

Lemma lstrip_c0_suffix (u s : string) :
  starts_query_or_fragment s = true ->
  lstrip_c0 (u ++ s)%string = (lstrip_c0 u ++ s)%string.
Proof.
  intros Hs. induction u as [|x u IH]; simpl.
  - destruct (starts_cases s Hs) as [->|[[s' ->]|[s' ->]]]; reflexivity.
  - destruct (nat_of_ascii x <=? 32)%nat; [exact IH|reflexivity].
Qed.

Lemma remove_unsafe_append (a b : string) :
  remove_unsafe (a ++ b)%string = (remove_unsafe a ++ remove_unsafe b)%string.
Proof.
  induction a as [|x a IH]; simpl; [reflexivity|].
  destruct ((nat_of_ascii x =? 9) || (nat_of_ascii x =? 13)
            || (nat_of_ascii x =? 10))%nat; simpl; congruence.
Qed.

Lemma starts_remove_unsafe (s : string) :
  starts_query_or_fragment s = true ->
  starts_query_or_fragment (remove_unsafe s) = true.
Proof.
  intros Hs.
  destruct (starts_cases s Hs) as [->|[[s' ->]|[s' ->]]]; reflexivity.
Qed.

Lemma contains_lstrip_c0 (x : ascii) (u : string) :
  contains x u = false -> contains x (lstrip_c0 u) = false.
Proof.
  induction u as [|y u IH]; simpl; intros H; [reflexivity|].
  apply orb_false_iff in H. destruct H as [Hy Hu].
  destruct (nat_of_ascii y <=? 32)%nat; [auto|].
  simpl. now rewrite Hy, Hu.
Qed.

Lemma contains_remove_unsafe (x : ascii) (u : string) :
  contains x u = false -> contains x (remove_unsafe u) = false.
Proof.
  induction u as [|y u IH]; simpl; intros H; [reflexivity|].
  apply orb_false_iff in H. destruct H as [Hy Hu].
  destruct ((nat_of_ascii y =? 9) || (nat_of_ascii y =? 13)
            || (nat_of_ascii y =? 10))%nat; [auto|].
  simpl. rewrite Hy. auto.
Qed.

(** The scheme is found in the part before the query string and the
    fragment. *)
Lemma split_scheme_suffix (default u s : string) :
  contains "?" u = false -> contains "#" u = false ->
  starts_query_or_fragment s = true ->
  split_scheme default (u ++ s)%string
  = (fst (split_scheme default u), (snd (split_scheme default u) ++ s)%string).
Proof.
  intros Hq Hf Hs. unfold split_scheme.
  rewrite contains_append.
  destruct (contains ":" u) eqn:Ec.
  - simpl orb. rewrite split_once_append_present by exact Ec.
    destruct (split_once ":" u) as [pre rest]. simpl fst. simpl snd.
    destruct pre as [|c0 pre]; [reflexivity|].
    destruct (is_ascii_alpha c0 && all_chars is_scheme_char (String c0 pre));
      reflexivity.
  - simpl orb. destruct (contains ":" s) eqn:Es; [|reflexivity].
    rewrite split_once_append_absent by exact Ec.
    destruct (starts_cases s Hs) as [->|[[s' ->]|[s' ->]]];
      [discriminate| |].
    + simpl split_once. destruct (split_once ":" s') as [a b]. simpl fst.
      destruct u as [|c0 u]; [reflexivity|].
      simpl append. simpl snd.
      replace (all_chars is_scheme_char (String c0 (u ++ String "?" a)))
        with false; [now rewrite andb_false_r|].
      change (String c0 (u ++ String "?" a))
        with (String c0 u ++ String "?" a)%string.
      rewrite all_chars_append. simpl. now rewrite andb_false_r.
    + simpl split_once. destruct (split_once ":" s') as [a b]. simpl fst.
      destruct u as [|c0 u]; [reflexivity|].
      simpl append. simpl snd.
      replace (all_chars is_scheme_char (String c0 (u ++ String "#" a)))
        with false; [now rewrite andb_false_r|].
      change (String c0 (u ++ String "#" a))
        with (String c0 u ++ String "#" a)%string.
      rewrite all_chars_append. simpl. now rewrite andb_false_r.
Qed.

Lemma split_scheme_keeps_absent (x : ascii) (default u : string) :
  contains x u = false -> contains x (snd (split_scheme default u)) = false.
Proof.
  intros H. unfold split_scheme.
  destruct (contains ":" u); [|exact H].
  destruct (split_once_keeps_absent ":" x u H) as [_ H2].
  destruct (split_once ":" u) as [pre rest]. simpl in H2.
  destruct pre as [|c0 pre]; [exact H|].
  destruct (is_ascii_alpha c0 && all_chars is_scheme_char (String c0 pre));
    simpl; assumption.
Qed.

Lemma split_scheme_rest_default (d d' u : string) :
  snd (split_scheme d u) = snd (split_scheme d' u).
Proof.
  unfold split_scheme. destruct (contains ":" u); [|reflexivity].
  destruct (split_once ":" u) as [pre rest].
  destruct pre as [|c0 pre]; [reflexivity|].
  destruct (is_ascii_alpha c0 && all_chars is_scheme_char (String c0 pre));
    reflexivity.
Qed.

Lemma _splitnetloc_suffix (r s : string) :
  starts_query_or_fragment s = true ->
  _splitnetloc (r ++ s)%string
  = (fst (_splitnetloc r), (snd (_splitnetloc r) ++ s)%string).
Proof.
  intros Hs. induction r as [|x r IH]; simpl.
  - destruct (starts_cases s Hs) as [->|[[s' ->]|[s' ->]]]; reflexivity.
  - destruct (Ascii.eqb x "/" || Ascii.eqb x "?" || Ascii.eqb x "#");
      [reflexivity|].
    rewrite IH. destruct (_splitnetloc r). reflexivity.
Qed.

Lemma _splitnetloc_keeps_absent (x : ascii) (r : string) :
  contains x r = false -> contains x (snd (_splitnetloc r)) = false.
Proof.
  induction r as [|y r IH]; simpl; intros H; [reflexivity|].
  destruct (Ascii.eqb y "/" || Ascii.eqb y "?" || Ascii.eqb y "#");
    [exact H|].
  apply orb_false_iff in H. destruct H as [_ Hr].
  specialize (IH Hr). destruct (_splitnetloc r). exact IH.
Qed.

Section WithOracle.

Variable ok : string -> bool.

(** The netloc is found in the part before the query string and the
    fragment. *)
Lemma split_netloc_suffix (u s : string) :
  contains "?" u = false -> contains "#" u = false ->
  starts_query_or_fragment s = true ->
  split_netloc ok (u ++ s)%string
  = (fst (fst (split_netloc ok u)),
     (snd (fst (split_netloc ok u)) ++ s)%string,
     snd (split_netloc ok u)).
Proof.
  intros Hq Hf Hs. unfold split_netloc.
  destruct u as [|c1 [|c2 rest]].
  - simpl append.
    destruct (starts_cases s Hs) as [->|[[s' ->]|[s' ->]]];
      [reflexivity| |]; destruct s'; reflexivity.
  - simpl append.
    destruct (starts_cases s Hs) as [->|[[s' ->]|[s' ->]]];
      [reflexivity| |]; simpl; now rewrite andb_false_r.
  - simpl append. cbv iota beta.
    destruct (Ascii.eqb c1 "/" && Ascii.eqb c2 "/"); [|reflexivity].
    rewrite _splitnetloc_suffix by exact Hs.
    destruct (_splitnetloc rest). reflexivity.
Qed.

Lemma split_netloc_keeps_absent (x : ascii) (u : string) :
  contains x u = false ->
  contains x (snd (fst (split_netloc ok u))) = false.
Proof.
  intros H. unfold split_netloc.
  destruct u as [|c1 [|c2 rest]]; [exact H|exact H|].
  destruct (Ascii.eqb c1 "/" && Ascii.eqb c2 "/"); [|exact H].
  simpl in H. apply orb_false_iff in H. destruct H as [_ H].
  apply orb_false_iff in H. destruct H as [_ H].
  pose proof (_splitnetloc_keeps_absent x rest H) as Hk.
  destruct (_splitnetloc rest). exact Hk.
Qed.

(** The path is what precedes the query string and the fragment. *)
Lemma split_fragment_query_suffix (u s : string) :
  contains "?" u = false -> contains "#" u = false ->
  starts_query_or_fragment s = true ->
  fst (fst (split_fragment_query (u ++ s)%string)) = u.
Proof.
  intros Hq Hf Hs. unfold split_fragment_query.
  destruct (starts_cases s Hs) as [->|[[s' ->]|[s' ->]]].
  - rewrite append_empty_r, Hf, Hq. reflexivity.
  - rewrite contains_append, Hf.
    change (contains "#" (String "?" s')) with (contains "#" s').
    simpl orb.
    rewrite split_once_append_absent by exact Hf.
    change (split_once "#" (String "?" s'))
      with (let (a, b) := split_once "#" s' in (String "?" a, b)).
    destruct (contains "#" s') eqn:Es.
    + destruct (split_once "#" s') as [a b]. cbv iota beta. simpl fst. simpl snd.
      rewrite contains_append, Hq.
      change (contains "?" (String "?" a)) with true. simpl orb. cbv iota.
      rewrite split_once_append_absent by exact Hq.
      simpl. now rewrite append_empty_r.
    + rewrite contains_append, Hq.
      change (contains "?" (String "?" s')) with true. simpl orb. cbv iota.
      rewrite split_once_append_absent by exact Hq.
      simpl. now rewrite append_empty_r.
  - rewrite contains_append, Hf.
    change (contains "#" (String "#" s')) with true.
    rewrite orb_true_r.
    rewrite split_once_append_absent by exact Hf.
    simpl. rewrite append_empty_r, Hq. reflexivity.
Qed.

Lemma split_fragment_query_plain (u : string) :
  contains "?" u = false -> contains "#" u = false ->
  split_fragment_query u = (u, EmptyString, EmptyString).
Proof.
  intros Hq Hf. unfold split_fragment_query. now rewrite Hf, Hq.
Qed.

(** [urlsplit] on a URL and on the same URL followed by a query string or
    a fragment: the same exception, or results that differ in query and
    fragment only. *)
Lemma urlsplit_suffix (default u s : string) :
  contains "?" u = false -> contains "#" u = false ->
  starts_query_or_fragment s = true ->
  match urlsplit ok u default with
  | Ok r =>
      exists q f,
        urlsplit ok (u ++ s)%string default
        = Ok (mkParseResult (scheme r) (netloc r) (path r) (params r) q f)
  | Raise e x => urlsplit ok (u ++ s)%string default = Raise e x
  end.
Proof.
  intros Hq Hf Hs. unfold urlsplit.
  rewrite lstrip_c0_suffix by exact Hs.
  rewrite remove_unsafe_append.
  set (u1 := remove_unsafe (lstrip_c0 u)).
  set (s1 := remove_unsafe s).
  assert (Hq1 : contains "?" u1 = false)
    by (apply contains_remove_unsafe, contains_lstrip_c0, Hq).
  assert (Hf1 : contains "#" u1 = false)
    by (apply contains_remove_unsafe, contains_lstrip_c0, Hf).
  assert (Hs1 : starts_query_or_fragment s1 = true)
    by (apply starts_remove_unsafe, Hs).
  rewrite (split_scheme_suffix default u1 s1 Hq1 Hf1 Hs1).
  pose proof (split_scheme_keeps_absent "?" default u1 Hq1) as Hq2.
  pose proof (split_scheme_keeps_absent "#" default u1 Hf1) as Hf2.
  destruct (split_scheme default u1) as [sch u2]. simpl fst in *. simpl snd in *.
  rewrite (split_netloc_suffix u2 s1 Hq2 Hf2 Hs1).
  pose proof (split_netloc_keeps_absent "?" u2 Hq2) as Hq3.
  pose proof (split_netloc_keeps_absent "#" u2 Hf2) as Hf3.
  destruct (split_netloc ok u2) as [[nl u3] bad]. simpl fst in *. simpl snd in *.
  destruct bad; [reflexivity|].
  rewrite (split_fragment_query_plain u3 Hq3 Hf3).
  pose proof (split_fragment_query_suffix u3 s1 Hq3 Hf3 Hs1) as Hp.
  destruct (split_fragment_query (u3 ++ s1)%string) as [[p q] f].
  simpl in Hp. subst p. simpl. eauto.
Qed.

Lemma urlparse_with_suffix (default u s : string) :
  contains "?" u = false -> contains "#" u = false ->
  starts_query_or_fragment s = true ->
  match urlparse_with ok u default with
  | Ok r =>
      exists q f,
        urlparse_with ok (u ++ s)%string default
        = Ok (mkParseResult (scheme r) (netloc r) (path r) (params r) q f)
  | Raise e x => urlparse_with ok (u ++ s)%string default = Raise e x
  end.
Proof.
  intros Hq Hf Hs. unfold urlparse_with.
  pose proof (urlsplit_suffix default u s Hq Hf Hs) as H.
  destruct (urlsplit ok u default) as [r|e x].
  - destruct H as (q & f & ->). cbn [scheme path netloc query fragment].
    destruct (str_in (scheme r) uses_params && contains ";" (path r)).
    + destruct (_splitparams (path r)) as [p ps]. simpl. eauto.
    + eauto.
  - now rewrite H.
Qed.

(** Whether [urlsplit] raises does not depend on the default scheme. *)
Lemma urlparse_with_returns_default (d d' url : string) (r : ParseResult) :
  urlparse_with ok url d = Ok r ->
  exists r', urlparse_with ok url d' = Ok r'.
Proof.
  unfold urlparse_with, urlsplit.
  pose proof (split_scheme_rest_default d d' (remove_unsafe (lstrip_c0 url)))
    as Hd.
  destruct (split_scheme d (remove_unsafe (lstrip_c0 url))) as [sch u2].
  destruct (split_scheme d' (remove_unsafe (lstrip_c0 url))) as [sch' u2'].
  simpl in Hd. subst u2'.
  destruct (split_netloc ok u2) as [[nl u3] bad].
  destruct bad; [discriminate|].
  destruct (split_fragment_query u3) as [[p q] f]. intros _.
  cbn [scheme path].
  destruct (str_in sch' uses_params && contains ";" p); [|eauto].
  destruct (_splitparams p). eauto.
Qed.

(** [urljoin] from [https://] returns on every URL that [urlparse]
    accepts. *)
Lemma urljoin_returns (url : string) (r : ParseResult) :
  urlparse ok url = Ok r ->
  exists j, urljoin ok "https://" url = Ok j.
Proof.
  intros H. unfold urljoin.
  change (negb (non_empty "https://")) with false. cbv iota.
  destruct (negb (non_empty url)); [eauto|].
  change (urlparse_with ok "https://" EmptyString)
    with (Ok (mkParseResult "https" EmptyString EmptyString EmptyString
                EmptyString EmptyString) : result ParseResult unit).
  cbv iota. cbn [scheme].
  destruct (urlparse_with_returns_default EmptyString "https" url r H)
    as [r' ->].
  destruct (negb (String.eqb (scheme r') "https")
            || negb (str_in (scheme r') uses_relative)); [eauto|].
  destruct (str_in (scheme r') uses_netloc && non_empty (netloc r')); [eauto|].
  destruct (negb (non_empty (path r')) && negb (non_empty (params r'))); eauto.
Qed.

End WithOracle.

(** The key of a raw URL is the first parse put together again without its
    query and fragment; a URL that [urlparse] refuses has none. *)
Lemma clean_url_of_parse (env : Env) (url : string) :
  Curator.clean_url_of env url
  = match urlparse (bracketed_netloc_ok env) url with
    | Ok parsed => Ok (geturl (clear_query_fragment parsed))
    | Raise e u => Raise e u
    end.
Proof.
  unfold Curator.clean_url_of.
  destruct (urlparse (bracketed_netloc_ok env) url) as [parsed|e u] eqn:E;
    [|reflexivity].
  destruct (negb (non_empty (scheme parsed))); [|reflexivity].
  destruct (urljoin_returns (bracketed_netloc_ok env) url parsed E) as [j ->].
  reflexivity.
Qed.

(** Query string and fragment do not reach the key. *)
Lemma clean_url_of_suffix (env : Env) (u s : string) :
  contains "?" u = false -> contains "#" u = false ->
  starts_query_or_fragment s = true ->
  Curator.clean_url_of env (u ++ s)%string = Curator.clean_url_of env u.
Proof.
  intros Hq Hf Hs. rewrite !clean_url_of_parse. unfold urlparse.
  pose proof (urlparse_with_suffix (bracketed_netloc_ok env) EmptyString u s
                Hq Hf Hs) as H.
  destruct (urlparse_with (bracketed_netloc_ok env) u EmptyString) as [r|e x].
  - destruct H as (q & f & ->). reflexivity.
  - now rewrite H.
Qed.

(** *** The key holds neither query string nor fragment *)

Lemma contains_split_once_fst (c : ascii) (s : string) :
  contains c (fst (split_once c s)) = false.
Proof.
  induction s as [|y s IH]; simpl; [reflexivity|].
  destruct (Ascii.eqb y c) eqn:E; [reflexivity|].
  destruct (split_once c s). simpl in *. now rewrite E.
Qed.

Lemma contains_rsplit_keep (c x : ascii) (s h t : string) :
  rsplit_keep c s = Some (h, t) -> contains x s = false ->
  contains x h = false /\ contains x t = false.
Proof.
  revert h t. induction s as [|y s IH]; simpl; intros h t H Hx; [discriminate|].
  apply orb_false_iff in Hx. destruct Hx as [Hy Hs].
  destruct (rsplit_keep c s) as [[h' t']|].
  - inversion H. subst. destruct (IH h' t eq_refl Hs) as [H1 H2].
    simpl. now rewrite Hy.
  - destruct (Ascii.eqb y c); [|discriminate].
    inversion H. subst. simpl. now rewrite Hy.
Qed.

Lemma contains_splitparams (x : ascii) (p : string) :
  contains x p = false ->
  contains x (fst (_splitparams p)) = false
  /\ contains x (snd (_splitparams p)) = false.
Proof.
  intros H. unfold _splitparams.
  destruct (rsplit_keep "/" p) as [[h t]|] eqn:E.
  - destruct (contains_rsplit_keep "/" x p h t E H) as [Hh Ht].
    destruct (contains ";" t); [|now split].
    destruct (split_once_keeps_absent ";" x t Ht) as [Ha Hb].
    destruct (split_once ";" t) as [a b]. simpl in *.
    now rewrite contains_append, Hh, Ha.
  - apply split_once_keeps_absent. exact H.
Qed.

Lemma scheme_char_lower (c : ascii) :
  is_scheme_char c = true ->
  Ascii.eqb (lower_char c) "?" = false /\ Ascii.eqb (lower_char c) "#" = false.
Proof.
  destruct c as [[] [] [] [] [] [] [] []]; vm_compute; intros H;
    try discriminate; split; reflexivity.
Qed.

Lemma contains_lower_scheme (pre : string) :
  all_chars is_scheme_char pre = true ->
  contains "?" (lower pre) = false /\ contains "#" (lower pre) = false.
Proof.
  induction pre as [|c pre IH]; simpl; intros H; [auto|].
  apply andb_true_iff in H. destruct H as [Hc Hp].
  destruct (scheme_char_lower c Hc) as [-> ->]. auto.
Qed.

Lemma scheme_plain (u : string) :
  contains "?" (fst (split_scheme EmptyString u)) = false
  /\ contains "#" (fst (split_scheme EmptyString u)) = false.
Proof.
  unfold split_scheme. destruct (contains ":" u); [|auto].
  destruct (split_once ":" u) as [pre rest].
  destruct pre as [|c0 pre]; [auto|].
  destruct (is_ascii_alpha c0 && all_chars is_scheme_char (String c0 pre))
    eqn:E; [|auto].
  apply andb_true_iff in E. destruct E as [_ E].
  now apply contains_lower_scheme.
Qed.

Lemma contains_splitnetloc_fst (r : string) :
  contains "?" (fst (_splitnetloc r)) = false
  /\ contains "#" (fst (_splitnetloc r)) = false.
Proof.
  induction r as [|y r IH]; simpl; [auto|].
  destruct (Ascii.eqb y "/" || Ascii.eqb y "?" || Ascii.eqb y "#") eqn:E;
    [auto|].
  apply orb_false_iff in E. destruct E as [E E3].
  apply orb_false_iff in E. destruct E as [_ E2].
  destruct (_splitnetloc r). simpl in *. now rewrite E2, E3.
Qed.

Lemma contains_netloc (ok : string -> bool) (u : string) :
  contains "?" (fst (fst (split_netloc ok u))) = false
  /\ contains "#" (fst (fst (split_netloc ok u))) = false.
Proof.
  unfold split_netloc. destruct u as [|c1 [|c2 rest]]; [auto|auto|].
  destruct (Ascii.eqb c1 "/" && Ascii.eqb c2 "/"); [|auto].
  pose proof (contains_splitnetloc_fst rest) as H.
  destruct (_splitnetloc rest). exact H.
Qed.

Lemma contains_path (u : string) :
  contains "?" (fst (fst (split_fragment_query u))) = false
  /\ contains "#" (fst (fst (split_fragment_query u))) = false.
Proof.
  unfold split_fragment_query.
  assert (H : exists u1 f, (if contains "#" u then split_once "#" u
                            else (u, EmptyString)) = (u1, f)
                           /\ contains "#" u1 = false).
  { destruct (contains "#" u) eqn:E.
    - pose proof (contains_split_once_fst "#" u) as Hc.
      destruct (split_once "#" u) as [u1 f]. eauto.
    - eauto. }
  destruct H as (u1 & f & -> & Hf).
  destruct (contains "?" u1) eqn:E.
  - pose proof (contains_split_once_fst "?" u1) as Hc.
    destruct (split_once_keeps_absent "?" "#" u1 Hf) as [Hk _].
    destruct (split_once "?" u1) as [p q]. simpl in *. auto.
  - simpl. auto.
Qed.

(** Neither [?] nor [#] occurs in the parts that [geturl] puts together. *)
Lemma urlparse_parts_plain (ok : string -> bool) (url : string)
    (r : ParseResult) (x : ascii) :
  x = "?"%char \/ x = "#"%char ->
  urlparse ok url = Ok r ->
  contains x (scheme r) = false /\ contains x (netloc r) = false
  /\ contains x (path r) = false /\ contains x (params r) = false.
Proof.
  intros Hx. unfold urlparse, urlparse_with, urlsplit.
  pose proof (scheme_plain (remove_unsafe (lstrip_c0 url))) as Hs.
  destruct (split_scheme EmptyString (remove_unsafe (lstrip_c0 url)))
    as [sch u2]. simpl in Hs.
  pose proof (contains_netloc ok u2) as Hn.
  destruct (split_netloc ok u2) as [[nl u3] bad]. simpl in Hn.
  destruct bad; [discriminate|].
  pose proof (contains_path u3) as Hp.
  destruct (split_fragment_query u3) as [[p q] f]. simpl in Hp.
  cbn [scheme path netloc query fragment].
  assert (Hall : contains x sch = false /\ contains x nl = false
                 /\ contains x p = false)
    by (destruct Hx as [-> | ->]; tauto).
  destruct Hall as (H1 & H2 & H3).
  destruct (str_in sch uses_params && contains ";" p).
  - destruct (contains_splitparams x p H3) as [Ha Hb].
    destruct (_splitparams p) as [p' ps]. simpl in *.
    intros H. inversion H. subst. simpl. auto.
  - intros H. inversion H. subst. simpl. auto.
Qed.

Lemma contains_urlunsplit (x : ascii) (sch nl url : string) :
  x = "?"%char \/ x = "#"%char ->
  contains x sch = false -> contains x nl = false -> contains x url = false ->
  contains x (urlunsplit sch nl url EmptyString EmptyString) = false.
Proof.
  intros Hx H1 H2 H3. unfold urlunsplit.
  change (non_empty EmptyString) with false. cbv iota.
  assert (Hs : contains x "/" = false)
    by (destruct Hx as [-> | ->]; reflexivity).
  assert (Hss : contains x "//" = false)
    by (destruct Hx as [-> | ->]; reflexivity).
  assert (Hc : contains x ":" = false)
    by (destruct Hx as [-> | ->]; reflexivity).
  assert (Hu : contains x
                 (if non_empty nl
                     || non_empty sch && str_in sch uses_netloc
                        && negb (starts_with_two_slashes url)
                  then
                    ("//" ++ nl ++
                     (if non_empty url && negb (starts_with_slash url)
                      then "/" ++ url else url))%string
                  else url) = false).
  { destruct (non_empty nl
              || non_empty sch && str_in sch uses_netloc
                 && negb (starts_with_two_slashes url)); [|exact H3].
    rewrite !contains_append, Hss, H2. simpl orb.
    destruct (non_empty url && negb (starts_with_slash url)); [|exact H3].
    change (String "/" url) with ("/" ++ url)%string.
    now rewrite contains_append, Hs, H3. }
  destruct (non_empty sch); [|exact Hu].
  now rewrite !contains_append, H1, Hc, Hu.
Qed.

(** The key of every raw URL is free of query string and fragment. *)
Lemma clean_url_of_plain (env : Env) (url c : string) :
  Curator.clean_url_of env url = Ok c ->
  contains "?" c = false /\ contains "#" c = false.
Proof.
  rewrite clean_url_of_parse.
  destruct (urlparse (bracketed_netloc_ok env) url) as [r|] eqn:E;
    [|discriminate].
  intros H. inversion H. subst c. clear H.
  assert (Hg : forall x, x = "?"%char \/ x = "#"%char ->
                         contains x (geturl (clear_query_fragment r)) = false).
  { intros x Hx.
    destruct (urlparse_parts_plain _ url r x Hx E) as (H1 & H2 & H3 & H4).
    unfold geturl, urlunparse, clear_query_fragment.
    cbn [scheme netloc path params query fragment].
    apply contains_urlunsplit; auto.
    destruct (non_empty (params r)); [|exact H3].
    rewrite !contains_append, H3, H4.
    destruct Hx as [-> | ->]; reflexivity. }
  split; apply Hg; auto.
Qed.

End QueryFragment.

(** ** The normalized key *)

(** C2. The key of every raw URL is free of query string and fragment, but
    a scheme is not guaranteed: at the failing input, a URL without a scheme,
    the key is the URL without its query string and no scheme is added. The
    string that [urljoin] builds from it does begin with [https:], but it is
    bound to [url] and never parsed: [clean_url] comes from the first
    parse. *)
Theorem scheme_less_url_keeps_no_scheme :
  forall env : Env,
    (forall url : string,
        match Curator.clean_url_of env url with
        | Ok c => Url.contains "?" c = false /\ Url.contains "#" c = false
        | Raise _ _ => True
        end)
    /\ Curator.clean_url_of env "a.com/x?q=1" = Ok "a.com/x"
    /\ Url.urljoin (bracketed_netloc_ok env) "https://" "a.com/x?q=1"
       = Ok "https:///a.com/x?q=1"
    /\ fst (Curator.dedup env "company" [("a.com/x?q=1", 0%nat)] []
              [scored (rat 9 10)])
       = [("a.com/x", 0%nat)]
    /\ (exists parsed,
          Url.urlparse (bracketed_netloc_ok env) "a.com/x" = Ok parsed
          /\ Url.scheme parsed = EmptyString).
Proof.
  intros env. split.
  { intros url. destruct (Curator.clean_url_of env url) as [c|] eqn:E;
      [|exact I].
    now apply clean_url_of_plain with (env := env) (url := url). }
  split; [reflexivity|]. split; [reflexivity|].
  split; [reflexivity|]. eexists. split; reflexivity.
Qed.

(** C1 as stated fails: in the scenario of the specification no single
    candidate keyed [https://a.com/x] comes out of the deduplication. *)
Lemma spec_scenario_keeps_two_candidates :
  ~ (exists r : loc,
        fst (Curator.dedup (quiet_env None) "company" spec_scenario_data []
               spec_scenario_heap)
        = [("https://a.com/x", r)]).
Proof.
  intros [r H]. vm_compute in H. discriminate.
Qed.

(** C1, amended. The scheme belongs to the normalized URL. In the scenario
    of the specification both documents survive, keyed [http://a.com/x] and
    [https://a.com/x] in iteration order. Two entries collapse when their
    normalized URLs are equal, as for [https://a.com/x?ref=1] and
    [https://a.com/x]: one candidate survives, keyed by the normalized URL,
    and it is the first entry by iteration order. This is the case of any
    two URLs that differ in query string and fragment only. *)
Theorem dedup_collapses_equal_normalized_urls :
  forall env : Env,
    fst (Curator.dedup env "company" spec_scenario_data [] spec_scenario_heap)
    = [("http://a.com/x", 0%nat); ("https://a.com/x", 1%nat)]
    /\ fst (Curator.dedup env "company" same_scheme_data [] spec_scenario_heap)
       = [("https://a.com/x", 0%nat)]
    /\ (forall (doc_type u1 u2 c : string) (r1 r2 : loc) (h : heap),
          Curator.clean_url_of env u1 = Ok c ->
          Curator.clean_url_of env u2 = Ok c ->
          fst (Curator.dedup env doc_type [(u1, r1); (u2, r2)] [] h)
          = [(c, r1)])
    /\ (forall (doc_type u s1 s2 c : string) (r1 r2 : loc) (h : heap),
          Url.contains "?" u = false -> Url.contains "#" u = false ->
          starts_query_or_fragment s1 = true ->
          starts_query_or_fragment s2 = true ->
          Curator.clean_url_of env u = Ok c ->
          fst (Curator.dedup env doc_type
                 [((u ++ s1)%string, r1); ((u ++ s2)%string, r2)] [] h)
          = [(c, r1)]).
Proof.
  intros env.
  assert (Hsame : forall (doc_type u1 u2 c : string) (r1 r2 : loc) (h : heap),
             Curator.clean_url_of env u1 = Ok c ->
             Curator.clean_url_of env u2 = Ok c ->
             fst (Curator.dedup env doc_type [(u1, r1); (u2, r2)] [] h)
             = [(c, r1)]).
  { intros doc_type u1 u2 c r1 r2 h H1 H2. simpl.
    rewrite H1. simpl. rewrite H2.
    unfold dict_mem. simpl. rewrite String.eqb_refl. reflexivity. }
  split; [reflexivity|]. split; [reflexivity|]. split; [exact Hsame|].
  intros doc_type u s1 s2 c r1 r2 h Hq Hf Hs1 Hs2 Hc.
  apply Hsame; rewrite clean_url_of_suffix; assumption.
Qed.

(** The amended C1 on two URLs that differ in query string and fragment:
    the first document is the candidate, under the common URL. *)
Lemma dedup_collapses_equal_normalized_urls_witness :
  fst (Curator.dedup (quiet_env None) "news"
         [(("https://a.com/x" ++ "?ref=1")%string, 0%nat);
          (("https://a.com/x" ++ "#top")%string, 1%nat)] []
         spec_scenario_heap)
  = [("https://a.com/x", 0%nat)].
Proof.
  apply (proj2 (proj2 (proj2
           (dedup_collapses_equal_normalized_urls (quiet_env None)))));
    reflexivity.
Defined.

(* ================================================================== *)
(** * Further properties of the code *)

(** ** The order of the evaluated documents *)

Section SortOrder.

Import Curator.

Lemma float_ge_trans (x y z : pyfloat) :
  float_ge x y = true -> float_ge y z = true -> float_ge x z = true.
Proof.
  destruct x as [a| | |], y as [b| | |], z as [c| | |]; simpl;
    try discriminate; try reflexivity.
  rewrite !Qle_bool_iff. intros H1 H2. eapply Qle_trans; eassumption.
Qed.

Lemma float_ge_total (x y : pyfloat) :
  ordered_key x = true -> ordered_key y = true ->
  float_ge x y = false -> float_ge y x = true.
Proof.
  destruct x as [a| | |], y as [b| | |]; simpl;
    try discriminate; try reflexivity.
  intros _ _ H. apply Qle_bool_iff.
  destruct (Qlt_le_dec a b) as [Hlt|Hle].
  - now apply Qlt_le_weak.
  - apply Qle_bool_iff in Hle. congruence.
Qed.

Lemma float_ge_ordered (x y : pyfloat) :
  float_ge x y = true -> ordered_key x = true.
Proof. destruct x, y; simpl; congruence. Qed.

Section Generic.

Variable A : Type.
Variable key : A -> pyfloat.

Lemma insert_desc_sorted (x : A) (l : list A) :
  ordered_key (key x) = true ->
  Forall (fun y => ordered_key (key y) = true) l ->
  Sorted (ranks_before key) l ->
  Sorted (ranks_before key) (insert_desc key x l).
Proof.
  intros Hx Hl Hs. induction l as [|y l IH]; simpl.
  - repeat constructor.
  - destruct (float_ge (key x) (key y)) eqn:E.
    + constructor; [exact Hs|]. constructor. exact E.
    + inversion Hl as [|? ? Hy Hl']. inversion Hs as [|? ? Hs' Hhd]. subst.
      constructor; [now apply IH|].
      destruct l as [|z l]; simpl.
      * constructor. now apply float_ge_total.
      * destruct (float_ge (key x) (key z)).
        -- constructor. now apply float_ge_total.
        -- constructor. now inversion Hhd.
Qed.

Lemma sort_desc_sorted (l : list A) :
  Forall (fun y => ordered_key (key y) = true) l ->
  Sorted (ranks_before key) (sort_desc key l).
Proof.
  induction l as [|x l IH]; simpl; intros H.
  - constructor.
  - inversion H as [|? ? Hx Hl]. subst.
    apply insert_desc_sorted; [exact Hx| |now apply IH].
    eapply Permutation_Forall; [|exact Hl].
    apply Permutation_sym, sort_desc_perm.
Qed.

Lemma ranks_before_strongly (l : list A) :
  Sorted (ranks_before key) l -> StronglySorted (ranks_before key) l.
Proof.
  apply Sorted_StronglySorted. intros x y z. apply float_ge_trans.
Qed.

(** An insertion moves the element past elements of a strictly greater key
    only: among the elements tied with a key, it stays first. *)
Lemma insert_desc_tied (k : pyfloat) (x : A) (l : list A) :
  filter (fun y => tied k (key y)) (insert_desc key x l)
  = filter (fun y => tied k (key y)) (x :: l).
Proof.
  induction l as [|y l IH]; simpl; [reflexivity|].
  destruct (float_ge (key x) (key y)) eqn:E; [reflexivity|].
  simpl. rewrite IH. simpl.
  destruct (tied k (key x)) eqn:Tx; [|reflexivity].
  destruct (tied k (key y)) eqn:Ty; [|reflexivity].
  unfold tied in Tx, Ty.
  apply andb_true_iff in Tx. destruct Tx as [Tx _].
  apply andb_true_iff in Ty. destruct Ty as [_ Ty].
  rewrite (float_ge_trans _ _ _ Tx Ty) in E. discriminate.
Qed.

Lemma sort_desc_tied (k : pyfloat) (l : list A) :
  filter (fun y => tied k (key y)) (sort_desc key l)
  = filter (fun y => tied k (key y)) l.
Proof.
  induction l as [|x l IH]; simpl; [reflexivity|].
  rewrite insert_desc_tied. simpl. now rewrite IH.
Qed.

(** A list that is in order already is left as it is. *)
Lemma sort_desc_sorted_id (l : list A) :
  Sorted (ranks_before key) l -> sort_desc key l = l.
Proof.
  induction l as [|x l IH]; simpl; intros H; [reflexivity|].
  inversion H as [|? ? Hs Hhd]. subst. rewrite (IH Hs).
  destruct l as [|y l]; [reflexivity|].
  inversion Hhd as [|? ? Hxy]. subst. simpl.
  unfold ranks_before in Hxy. now rewrite Hxy.
Qed.

End Generic.

Variable env : Env.

Lemma retained_above (h : heap) (docs : list loc) (d : Document) :
  In d (retained env h docs) -> above_threshold d.
Proof.
  intros H. apply In_retained in H.
  destruct H as (r & f & _ & _ & Hge & ->). exact Hge.
Qed.

(** What [evaluate_documents] returns: nothing, or the passing documents of
    the batch, sorted. *)
Lemma evaluate_documents_out (s : ResearchState) (h : heap) (docs : list loc)
    (log log' : Log) (out : list Document) :
  evaluate_documents env s h docs log = Ok (out, log') ->
  out = [] \/ out = sort_desc score_key (retained env h docs).
Proof.
  unfold evaluate_documents.
  destruct (if attached s then send_status_update env "processing" log
            else Ok log) as [l|e l]; [|discriminate].
  destruct docs as [|r rest]; [intros H; inversion H; now left|].
  destruct (evaluate_loop env s h (r :: rest) [] l) as [[o l']|e l'] eqn:E;
    intros H; inversion H; subst.
  - right. apply evaluate_loop_finishes_with_retained in E. now rewrite E.
  - now left.
Qed.

Lemma evaluate_documents_above (s : ResearchState) (h : heap) (docs : list loc)
    (log log' : Log) (out : list Document) :
  evaluate_documents env s h docs log = Ok (out, log') ->
  Forall above_threshold out.
Proof.
  intros H. apply evaluate_documents_out in H. destruct H as [->| ->].
  - constructor.
  - apply Forall_forall. intros d Hd. apply (retained_above h docs).
    eapply Permutation_in; [apply sort_desc_perm|exact Hd].
Qed.

Lemma above_ordered (d : Document) :
  above_threshold d -> ordered_key (score_key d) = true.
Proof. apply float_ge_ordered. Qed.

Lemma evaluate_documents_in_order (s : ResearchState) (h : heap)
    (docs : list loc) (log log' : Log) (out : list Document) :
  evaluate_documents env s h docs log = Ok (out, log') ->
  Sorted (ranks_before score_key) out.
Proof.
  intros H. apply evaluate_documents_out in H. destruct H as [->| ->].
  - constructor.
  - apply sort_desc_sorted. apply Forall_forall. intros d Hd.
    apply above_ordered, (retained_above h docs), Hd.
Qed.

Lemma evaluate_documents_length (s : ResearchState) (h : heap)
    (docs : list loc) (log log' : Log) (out : list Document) :
  evaluate_documents env s h docs log = Ok (out, log') ->
  (List.length out <= List.length docs)%nat.
Proof.
  intros H. apply evaluate_documents_out in H. destruct H as [->| ->].
  - simpl. lia.
  - rewrite (Permutation_length (sort_desc_perm _ _)).
    unfold retained. induction docs as [|r docs IH]; simpl; [lia|].
    rewrite length_app.
    destruct (passes env (deref h r)); simpl; lia.
Qed.

(** X1. The documents that [evaluate_documents] returns are in descending
    order of their score: no document comes before one of a higher score,
    and every one of them holds a score at or above the threshold. *)
Theorem evaluated_documents_ranked :
  forall (s : ResearchState) (h : heap) (docs : list loc) (log log' : Log)
         (out : list Document),
    evaluate_documents env s h docs log = Ok (out, log') ->
    StronglySorted (ranks_before score_key) out
    /\ Forall above_threshold out.
Proof.
  intros s h docs log log' out H. split.
  - apply ranks_before_strongly. eapply evaluate_documents_in_order, H.
  - eapply evaluate_documents_above, H.
Qed.

(** X2. The sort of [evaluate_documents] is stable: the documents that share
    a score come out in the order in which the batch holds them. *)
Theorem evaluated_documents_keep_batch_order_among_ties :
  forall (s : ResearchState) (h : heap) (docs : list loc) (log log' : Log)
         (out : list Document) (k : pyfloat),
    evaluate_documents env s h docs log = Ok (out, log') ->
    out <> [] ->
    filter (fun d => tied k (score_key d)) out
    = filter (fun d => tied k (score_key d)) (retained env h docs).
Proof.
  intros s h docs log log' out k H Hne.
  apply evaluate_documents_out in H. destruct H as [->| ->]; [congruence|].
  apply sort_desc_tied.
Qed.

End SortOrder.

(** X1 on the batch of mixed scores. *)
Lemma evaluated_documents_ranked_witness :
  exists (out : list Document) (log' : Log),
    Curator.evaluate_documents (quiet_env None) (with_observer blank_state)
      mixed_batch [5; 4; 3; 2; 1; 0]%nat [] = Ok (out, log')
    /\ map d_score out = [Some (rat 9 10); Some (rat 5 10)]
    /\ StronglySorted (ranks_before Curator.score_key) out
    /\ Forall above_threshold out.
Proof.
  match eval vm_compute in
    (Curator.evaluate_documents (quiet_env None) (with_observer blank_state)
       mixed_batch [5; 4; 3; 2; 1; 0]%nat []) with
  | Ok (?o, ?l) =>
      exists o, l; split; [vm_compute; reflexivity|];
      split; [vm_compute; reflexivity|];
      apply (evaluated_documents_ranked (quiet_env None)
               (with_observer blank_state) mixed_batch [5; 4; 3; 2; 1; 0]%nat
               [] l o);
      vm_compute; reflexivity
  end.
Defined.

(** X2 on a batch with a tie: the two documents of score 0.7 keep their
    order behind the document of score 0.9. *)
Lemma evaluated_documents_keep_batch_order_among_ties_witness :
  exists (out : list Document) (log' : Log),
    Curator.evaluate_documents (quiet_env None) blank_state tie_batch
      [0; 1; 2]%nat [] = Ok (out, log')
    /\ map d_title out = [Some "b"; Some "a"; Some "c"]
    /\ filter (fun d => tied (Fin (7 # 10)) (Curator.score_key d)) out
       = filter (fun d => tied (Fin (7 # 10)) (Curator.score_key d))
           (retained (quiet_env None) tie_batch [0; 1; 2]%nat).
Proof.
  match eval vm_compute in
    (Curator.evaluate_documents (quiet_env None) blank_state tie_batch
       [0; 1; 2]%nat []) with
  | Ok (?o, ?l) =>
      exists o, l; split; [vm_compute; reflexivity|];
      split; [vm_compute; reflexivity|];
      apply (evaluated_documents_keep_batch_order_among_ties (quiet_env None)
               blank_state tie_batch [0; 1; 2]%nat [] l o (Fin (7 # 10)));
      [vm_compute; reflexivity|discriminate]
  end.
Defined.

(** ** The curated mappings *)

Lemma dict_of_items_from {V} (l acc : dict V) :
  NoDup (keys (acc ++ l)) ->
  fold_left (fun d kv => dict_set d (fst kv) (snd kv)) l acc = acc ++ l.
Proof.
  revert acc. induction l as [|[k v] l IH]; intros acc H; simpl.
  - now rewrite app_nil_r.
  - rewrite dict_set_fresh.
    + rewrite IH; rewrite <- app_assoc; [reflexivity|exact H].
    + unfold keys in *. rewrite map_app in H. simpl in H.
      apply NoDup_remove_2 in H. intros Hin. apply H.
      apply in_or_app. now left.
Qed.

(** A list of items with distinct keys is the [dict] it makes. *)
Lemma dict_of_items_distinct {V} (l : dict V) :
  NoDup (keys l) -> dict_of_items l = l.
Proof. intros H. unfold dict_of_items. now rewrite dict_of_items_from. Qed.

Lemma dict_set_length {V} (d : dict V) (k : string) (v : V) :
  (List.length d <= List.length (dict_set d k v) <= S (List.length d))%nat.
Proof.
  induction d as [|[k' v'] d IH]; simpl; [lia|].
  destruct (String.eqb k k'); simpl; lia.
Qed.

Lemma dict_set_nonempty {V} (d : dict V) (k : string) (v : V) :
  dict_set d k v <> [].
Proof.
  destruct d as [|[k' v'] d]; simpl; [discriminate|].
  destruct (String.eqb k k'); discriminate.
Qed.

Lemma keys_combine_distinct {V} (urls : list string) (out : list V) :
  NoDup urls -> NoDup (keys (combine urls out)).
Proof.
  intros H. revert out. induction H as [|u urls Hu H IH]; intros out; simpl.
  - constructor.
  - destruct out as [|d out]; simpl; constructor; [|apply IH].
    intros Hin. apply Hu. unfold keys in Hin. apply in_map_iff in Hin.
    destruct Hin as ([u' d'] & <- & Hin). simpl.
    eapply in_combine_l, Hin.
Qed.

Lemma In_firstn {A} (n : nat) (l : list A) (x : A) :
  In x (firstn n l) -> In x l.
Proof.
  revert l. induction n as [|n IH]; intros l H; simpl in H; [contradiction|].
  destruct l as [|y l]; [contradiction|].
  destruct H as [->|H]; [now left|right; now apply IH].
Qed.

Lemma keys_firstn_distinct {V} (n : nat) (l : dict V) :
  NoDup (keys l) -> NoDup (keys (firstn n l)).
Proof.
  revert l. induction n as [|n IH]; intros l H; simpl; [constructor|].
  destruct l as [|[k v] l]; simpl; [constructor|].
  simpl in H. inversion H as [|? ? Hk Hl]. subst. constructor; [|now apply IH].
  intros Hin. apply Hk. unfold keys in *. apply in_map_iff in Hin.
  destruct Hin as (kv & <- & Hin). apply in_map. eapply In_firstn, Hin.
Qed.

Lemma combine_in_order (urls : list string) (out : list Document) :
  Sorted (ranks_before Curator.score_key) out ->
  Sorted (ranks_before item_key) (combine urls out).
Proof.
  intros H. revert urls. induction H as [|d out Hs IH Hhd]; intros urls.
  - destruct urls; constructor.
  - destruct urls as [|u urls]; simpl; [constructor|].
    constructor; [apply IH|].
    destruct urls as [|u' urls]; simpl; [constructor|].
    destruct out as [|d' out]; simpl; constructor.
    inversion Hhd. assumption.
Qed.

Lemma firstn_in_order {A} (R : A -> A -> Prop) (n : nat) (l : list A) :
  Sorted R l -> Sorted R (firstn n l).
Proof.
  revert l. induction n as [|n IH]; intros l H; simpl; [constructor|].
  destruct l as [|x l]; [constructor|].
  inversion H as [|? ? Hs Hhd]. subst. constructor; [now apply IH|].
  destruct n, l; simpl; constructor. now inversion Hhd.
Qed.

Lemma firstn_cap {A} (l : list A) :
  (if (30 <? List.length l)%nat then firstn 30 l else l) = firstn 30 l.
Proof.
  destruct (30 <? List.length l)%nat eqn:E; [reflexivity|].
  apply Nat.ltb_ge in E. symmetry. now apply firstn_all2.
Qed.

Section CuratedMappings.

Import Curator.

Variable env : Env.

(** The mapping that the second loop stores, when the URLs are distinct and
    the documents in order. *)
Lemma relevant_docs_of_ranked (urls : list string) (out : list Document) :
  NoDup urls -> Sorted (ranks_before score_key) out ->
  relevant_docs_of urls out = firstn 30 (combine urls out).
Proof.
  intros Hu Hs. unfold relevant_docs_of.
  rewrite (dict_of_items_distinct (combine urls out))
    by now apply keys_combine_distinct.
  change (fun item : string * Document => score_key (snd item)) with item_key.
  rewrite (sort_desc_sorted_id _ item_key) by now apply combine_in_order.
  rewrite firstn_cap. apply dict_of_items_distinct.
  now apply keys_firstn_distinct, keys_combine_distinct.
Qed.

(** X3. The curated mapping of a category pairs the candidate URLs with the
    evaluated documents by position: the i-th URL of the deduplication with
    the i-th document in descending order of score, for the first 30. *)
Theorem curated_mapping_pairs_by_rank :
  forall (s : ResearchState) (h : heap) (urls : list string) (docs : list loc)
         (log log' : Log) (out : list Document),
    NoDup urls ->
    evaluate_documents env s h docs log = Ok (out, log') ->
    relevant_docs_of urls out = firstn 30 (combine urls out).
Proof.
  intros s h urls docs log log' out Hu H.
  apply relevant_docs_of_ranked; [exact Hu|].
  eapply evaluate_documents_in_order, H.
Qed.

Lemma relevant_docs_well_curated (s : ResearchState) (h : heap)
    (urls : list string) (docs : list loc) (log log' : Log)
    (out : list Document) :
  NoDup urls -> List.length urls = List.length docs ->
  evaluate_documents env s h docs log = Ok (out, log') -> out <> [] ->
  well_curated (relevant_docs_of urls out).
Proof.
  intros Hu Hlen H Hne.
  pose proof (evaluate_documents_in_order env _ _ _ _ _ _ H) as Hs.
  pose proof (evaluate_documents_above env _ _ _ _ _ _ H) as Ha.
  pose proof (evaluate_documents_length env _ _ _ _ _ _ H) as Hl.
  rewrite relevant_docs_of_ranked by assumption.
  repeat split.
  - destruct out as [|d out]; [congruence|].
    destruct urls as [|u urls]; [simpl in *; lia|]. discriminate.
  - rewrite length_firstn. lia.
  - now apply keys_firstn_distinct, keys_combine_distinct.
  - apply ranks_before_strongly, firstn_in_order, combine_in_order, Hs.
  - apply Forall_forall. intros [u d] Hin. simpl.
    apply In_firstn, in_combine_r in Hin.
    eapply Forall_forall in Ha; eassumption.
Qed.

Lemma field_eq_dec (f f' : Field) : {f = f'} + {f <> f'}.
Proof. decide equality. Qed.

Lemma curated_set_same (f : Field) (v : dict Document) (s : ResearchState) :
  curated f (set_curated f v s) = Some v.
Proof. destruct f; reflexivity. Qed.

Lemma curated_set_other (f f' : Field) (v : dict Document) (s : ResearchState) :
  f <> f' -> curated f (set_curated f' v s) = curated f s.
Proof. destruct f, f'; intros H; try reflexivity; congruence. Qed.

(** The second loop leaves a curated mapping as it was, or stores one made
    of what the evaluation of its task returned. *)
Lemma process_stores (P : Field -> dict Document -> Prop) (h : heap)
    (tasks : list Task) :
  (forall t s log out log',
      In t tasks ->
      evaluate_documents env s h (t_docs t) log = Ok (out, log') ->
      out <> [] ->
      P (t_data_field t) (relevant_docs_of (t_urls t) out)) ->
  forall (s : ResearchState) (doc_counts : dict DocCount) (msg : Message)
         (log : Log) (f : Field),
    let goal s' :=
      curated f s' = curated f s
      \/ exists d, curated f s' = Some d /\ P f d in
    match process env h tasks s doc_counts msg log with
    | Ok (s', _, _, _) => goal s'
    | Raise _ (s', _) => goal s'
    end.
Proof.
  induction tasks as [|t tasks IH]; intros HP s doc_counts msg log f; simpl.
  - now left.
  - assert (HP' : forall t0 s0 log0 out log',
               In t0 tasks ->
               evaluate_documents env s0 h (t_docs t0) log0 = Ok (out, log') ->
               out <> [] ->
               P (t_data_field t0) (relevant_docs_of (t_urls t0) out))
      by (intros; eapply HP; eauto; now right).
    specialize (IH HP').
    destruct (if attached s then send_status_update env "category_start" log
              else Ok log) as [log0|e log0]; [|now left].
    destruct (evaluate_documents env s h (t_docs t) log0)
      as [[out log1]|e log1] eqn:E; [|now left].
    destruct out as [|d out].
    + apply IH.
    + match goal with
      | |- context [process env h tasks ?s1 ?dc ?m ?l] =>
          specialize (IH s1 dc m l f); simpl in IH;
          destruct (process env h tasks s1 dc m l) as [[[[s' ?] ?] ?]|? [s' ?]]
      end.
      all: destruct (field_eq_dec f (t_data_field t)) as [->|Hf];
        [ rewrite curated_set_same in IH;
          destruct IH as [IH|IH]; [|now right];
          right; eexists; split; [exact IH|];
          eapply HP; [now left|exact E|discriminate]
        | rewrite curated_set_other in IH by exact Hf; exact IH ].
Qed.

Lemma dedup_distinct_keys (doc_type : string) (items : dict loc) :
  forall (acc : dict loc) (h : heap),
    NoDup (keys acc) -> NoDup (keys (fst (dedup env doc_type items acc h))).
Proof.
  induction items as [|[url doc] items IH]; intros acc h Hacc; simpl.
  - exact Hacc.
  - destruct (clean_url_of env url) as [c|e u]; [|now apply IH].
    destruct (dict_mem acc c); [now apply IH|].
    apply IH. now apply NoDup_keys_dict_set.
Qed.

Lemma prepare_tasks_of_dict (s : ResearchState)
    (types : list (Field * string * string)) :
  forall h : heap, Forall task_of_dict (fst (prepare env s types h)).
Proof.
  induction types as [|[[f emoji] doc_type] types IH]; intros h; simpl.
  - constructor.
  - destruct (is_empty (raw_data f s)); [apply IH|].
    pose proof (dedup_distinct_keys doc_type (raw_data f s) [] h) as Hd.
    destruct (dedup env doc_type (raw_data f s) [] h) as [u h1].
    specialize (IH h1). destruct (prepare env s types h1) as [tasks h2].
    simpl in *. constructor; [|exact IH].
    split; simpl; [apply Hd; constructor|].
    unfold keys, values. now rewrite !length_map.
Qed.

Lemma restore_curated (f : Field) (s : ResearchState) (p : Preserved) :
  curated f (_restore_critical_state_data s p) = curated f s.
Proof.
  unfold _restore_critical_state_data.
  destruct (negb (is_empty (pr_employee_count p)));
    destruct (negb (is_empty (pr_enrichment_counts p)));
    try destruct (dict_get (pr_enrichment_counts p) "employeeCount");
    destruct f; reflexivity.
Qed.

Lemma store_references_curated (f : Field) (s : ResearchState) (h : heap) :
  curated f (store_references env s h) = curated f s.
Proof.
  unfold store_references.
  destruct (process_references_from_search_results env s h) as [[[? ?] ?]|];
    destruct f; reflexivity.
Qed.

Lemma build_curated (f : Field) (h : heap) (s : ResearchState) :
  match build_enrichment_counts h s with
  | Ok (s', _) => curated f s' = curated f s
  | Raise _ s' => s' = s
  end.
Proof.
  unfold build_enrichment_counts.
  destruct (validate_loop (get_dict (employee_count s)) [] 0)
    as [[valid t]|e u]; [|reflexivity].
  destruct (is_empty valid && negb (is_empty (get_dict (company_data s)))).
  - destruct (_extract_employee_count_from_company_data h
                (get_dict (company_data s))) as [v|e u]; [|reflexivity].
    destruct (negb (is_empty v)); destruct f; reflexivity.
  - destruct (negb (is_empty valid)); destruct f; reflexivity.
Qed.

(** [curate_data], however it ends, leaves a curated mapping as it was or
    stores one made of what the evaluation of its task returned. *)
Lemma curate_data_stores (P : Field -> dict Document -> Prop) (w : World)
    (f : Field) :
  (forall t s log out log',
      In t (fst (prepare env (state w) data_types (objects w))) ->
      evaluate_documents env s
        (snd (prepare env (state w) data_types (objects w))) (t_docs t) log
      = Ok (out, log') ->
      out <> [] ->
      P (t_data_field t) (relevant_docs_of (t_urls t) out)) ->
  match curate_data env w with
  | Ok w' | Raise _ w' =>
      curated f (state w') = curated f (state w)
      \/ exists d, curated f (state w') = Some d /\ P f d
  end.
Proof.
  unfold curate_data. intros HP.
  destruct (if attached (state w)
            then send_status_update env "processing" (sent w)
            else Ok (sent w)) as [log|e log]; [|now left].
  destruct (prepare env (state w) data_types (objects w)) as [tasks h].
  simpl in HP.
  pose proof (process_stores P h tasks HP (state w) []
                [Curating (get_str (company (state w)) "Unknown Company")]
                log f) as Hp.
  simpl in Hp.
  destruct (process env h tasks (state w) []
              [Curating (get_str (company (state w)) "Unknown Company")] log)
    as [[[[s1 dc] msg] log1]|e [s1 log1]]; [|exact Hp].
  set (s3 := store_references env
               (_restore_critical_state_data s1
                  (_preserve_critical_state_data (state w))) h).
  assert (H3 : curated f s3 = curated f s1).
  { unfold s3. now rewrite store_references_curated, restore_curated. }
  pose proof (build_curated f h s3) as Hb.
  destruct (build_enrichment_counts h s3) as [[s4 snap]|e s4].
  - assert (H4 : forall m,
               curated f (set_messages m (set_enrichmentCounts (Some snap) s4))
               = curated f s1).
    { intros m. rewrite <- H3, <- Hb. destruct f; reflexivity. }
    match goal with
    | |- context [if ?c then _ else _] => destruct c
    end.
    + match goal with
      | |- context [send_status_update env "curation_complete" ?l] =>
          destruct (send_status_update env "curation_complete" l)
      end; simpl; rewrite H4; exact Hp.
    + simpl. rewrite H4. exact Hp.
  - simpl. subst s4. rewrite H3. exact Hp.
Qed.

(** The handler of [run] does not touch the curated mappings. *)
Lemma run_keeps_curated_of_curate_data (w w' : World) (f : Field) :
  run env w = Ok w' ->
  match curate_data env w with
  | Ok w1 | Raise _ w1 => curated f (state w') = curated f (state w1)
  end.
Proof.
  unfold run.
  destruct (curate_data env w) as [w1|e w1].
  - intros H. inversion H. reflexivity.
  - set (s1 := match Company_Count _ with None => _ | Some _ => _ end).
    assert (H1 : curated f s1 = curated f (state w1)).
    { unfold s1. destruct (employee_count (state w1));
        destruct (Company_Count _); destruct f; reflexivity. }
    pose proof (build_curated f (objects w1) s1) as Hb.
    destruct (build_enrichment_counts (objects w1) s1) as [[s2 snap]|e2 s2];
      [|discriminate].
    intros H. inversion H. subst. simpl.
    rewrite <- H1, <- Hb. destruct f; reflexivity.
Qed.

Lemma prepared_tasks_well_curated (w : World) :
  forall t s log out log',
    In t (fst (prepare env (state w) data_types (objects w))) ->
    evaluate_documents env s
      (snd (prepare env (state w) data_types (objects w))) (t_docs t) log
    = Ok (out, log') ->
    out <> [] ->
    well_curated (relevant_docs_of (t_urls t) out).
Proof.
  intros t s log out log' Hin He Hne.
  pose proof (prepare_tasks_of_dict (state w) data_types (objects w)) as Ht.
  rewrite Forall_forall in Ht. destruct (Ht t Hin) as [Hu Hlen].
  eapply relevant_docs_well_curated; eauto.
Qed.

(** [run] leaves a curated mapping as it was, or stores one that is well
    curated. *)
Lemma run_curated (w w' : World) (f : Field) :
  run env w = Ok w' ->
  curated f (state w') = curated f (state w)
  \/ exists d, curated f (state w') = Some d /\ well_curated d.
Proof.
  intros H.
  pose proof (run_keeps_curated_of_curate_data w w' f H) as Hk.
  pose proof (curate_data_stores (fun _ => well_curated) w f
                (prepared_tasks_well_curated w)) as Hc.
  destruct (curate_data env w) as [w1|e w1]; rewrite Hk; exact Hc.
Qed.

(** X4. A curated mapping that [run] stores holds at least one and at most
    30 documents, under distinct keys; a mapping that it does not store is
    left as it was. *)
Theorem run_caps_each_category_at_30 :
  forall (w w' : World) (f : Field),
    run env w = Ok w' ->
    curated f (state w') = curated f (state w)
    \/ exists d,
         curated f (state w') = Some d
         /\ (1 <= List.length d <= 30)%nat /\ NoDup (keys d).
Proof.
  intros w w' f H. destruct (run_curated w w' f H) as [Hc|(d & Hd & Hw)].
  - now left.
  - right. exists d. destruct Hw as (Hne & Hlen & Hk & _).
    repeat split; try assumption. destruct d; [congruence|simpl; lia].
Qed.

(** X5. Every document of a curated mapping that [run] stores carries a
    score at or above the threshold, and the mapping holds them in
    descending order of that score. *)
Theorem run_stores_ranked_documents_above_threshold :
  forall (w w' : World) (f : Field),
    run env w = Ok w' ->
    curated f (state w') = curated f (state w)
    \/ exists d,
         curated f (state w') = Some d
         /\ StronglySorted (ranks_before item_key) d
         /\ Forall (fun kv => above_threshold (snd kv)) d.
Proof.
  intros w w' f H. destruct (run_curated w w' f H) as [Hc|(d & Hd & Hw)].
  - now left.
  - right. exists d. destruct Hw as (_ & _ & _ & Hs & Ha). now repeat split.
Qed.

End CuratedMappings.

(** X3 on two news documents of which the second has the higher score: the
    first URL is paired with the second document. *)
Lemma curated_mapping_pairs_by_rank_witness :
  exists (out : list Document) (log' : Log),
    Curator.evaluate_documents (quiet_env None) rank_state rank_prepared_heap
      [0; 1]%nat [] = Ok (out, log')
    /\ Curator.relevant_docs_of ["https://n.com/a"; "https://n.com/b"] out
       = firstn 30 (combine ["https://n.com/a"; "https://n.com/b"] out)
    /\ map (fun kv => (fst kv, d_url (snd kv)))
         (Curator.relevant_docs_of ["https://n.com/a"; "https://n.com/b"] out)
       = [("https://n.com/a", Some "https://n.com/b");
          ("https://n.com/b", Some "https://n.com/a")].
Proof.
  match eval vm_compute in
    (Curator.evaluate_documents (quiet_env None) rank_state rank_prepared_heap
       [0; 1]%nat []) with
  | Ok (?o, ?l) =>
      exists o, l; split; [vm_compute; reflexivity|];
      split;
      [ apply (curated_mapping_pairs_by_rank (quiet_env None) rank_state
                 rank_prepared_heap ["https://n.com/a"; "https://n.com/b"]
                 [0; 1]%nat [] l o);
        [ repeat constructor; simpl; intuition discriminate
        | vm_compute; reflexivity ]
      | vm_compute; reflexivity ]
  end.
Defined.

(** X4 on the scenario of four categories: the news mapping is stored, with
    one document. *)
Lemma run_caps_each_category_at_30_witness :
  exists w' : World,
    Curator.run (quiet_env None) (mkWorld scenario_state scenario_heap [])
    = Ok w'
    /\ keys (get_dict (curated_news_data (state w'))) = ["https://n.com/a"]
    /\ (curated Curator.news_data_field (state w')
        = curated Curator.news_data_field scenario_state
        \/ exists d,
             curated Curator.news_data_field (state w') = Some d
             /\ (1 <= List.length d <= 30)%nat /\ NoDup (keys d)).
Proof.
  match eval vm_compute in
    (Curator.run (quiet_env None) (mkWorld scenario_state scenario_heap []))
  with
  | Ok ?w1 =>
      exists w1; split; [vm_compute; reflexivity|];
      split; [vm_compute; reflexivity|];
      apply (run_caps_each_category_at_30 (quiet_env None)
               (mkWorld scenario_state scenario_heap []) w1
               Curator.news_data_field);
      vm_compute; reflexivity
  end.
Defined.

(** X5 on the two news documents: both are kept, the higher score first. *)
Lemma run_stores_ranked_documents_above_threshold_witness :
  exists w' : World,
    Curator.run (quiet_env None) (mkWorld rank_state rank_heap []) = Ok w'
    /\ map (fun kv => d_score (snd kv))
         (get_dict (curated_news_data (state w')))
       = [Some (rat 9 10); Some (rat 5 10)]
    /\ (curated Curator.news_data_field (state w')
        = curated Curator.news_data_field rank_state
        \/ exists d,
             curated Curator.news_data_field (state w') = Some d
             /\ StronglySorted (ranks_before item_key) d
             /\ Forall (fun kv => above_threshold (snd kv)) d).
Proof.
  match eval vm_compute in
    (Curator.run (quiet_env None) (mkWorld rank_state rank_heap []))
  with
  | Ok ?w1 =>
      exists w1; split; [vm_compute; reflexivity|];
      split; [vm_compute; reflexivity|];
      apply (run_stores_ranked_documents_above_threshold (quiet_env None)
               (mkWorld rank_state rank_heap []) w1 Curator.news_data_field);
      vm_compute; reflexivity
  end.
Defined.

(** ** The candidates of the deduplication *)

Section Candidates.

Import Curator.

Variable env : Env.

Lemma dedup_sound (doc_type : string) (items : dict loc) :
  forall (acc : dict loc) (h : heap) (c : string) (r : loc),
    In (c, r) (fst (dedup env doc_type items acc h)) ->
    In (c, r) acc \/ exists k, In (k, r) items /\ clean_url_of env k = Ok c.
Proof.
  induction items as [|[url doc] items IH]; intros acc h c r H; simpl in H.
  - now left.
  - destruct (clean_url_of env url) as [cu|e u] eqn:E.
    + destruct (dict_mem acc cu).
      * apply IH in H. destruct H as [H|(k & Hk & Hc)]; [now left|].
        right. exists k. split; [now right|exact Hc].
      * apply IH in H. destruct H as [H|(k & Hk & Hc)].
        -- apply In_dict_set in H. destruct H as [H|H]; [|now left].
           inversion H. subst. right. exists url. split; [now left|exact E].
        -- right. exists k. split; [now right|exact Hc].
    + apply IH in H. destruct H as [H|(k & Hk & Hc)]; [now left|].
      right. exists k. split; [now right|exact Hc].
Qed.

Lemma dedup_complete (doc_type : string) (items : dict loc) :
  forall (acc : dict loc) (h : heap) (k c : string) (r : loc),
    In (k, r) items -> clean_url_of env k = Ok c ->
    dict_mem (fst (dedup env doc_type items acc h)) c = true.
Proof.
  induction items as [|[url doc] items IH]; intros acc h k c r Hin Hc;
    [contradiction|].
  simpl. destruct Hin as [Heq|Hin].
  - inversion Heq. subst. rewrite Hc.
    destruct (dict_mem acc c) eqn:M.
    + unfold dict_mem in M. destruct (dict_get acc c) as [r0|] eqn:G;
        [|discriminate].
      unfold dict_mem.
      now rewrite (dedup_keeps_binding env doc_type items acc h c r0 G).
    + unfold dict_mem.
      rewrite (dedup_keeps_binding env doc_type items _ _ c r
                 (dict_get_set_same acc c r)).
      reflexivity.
  - destruct (clean_url_of env url) as [cu|e u].
    + destruct (dict_mem acc cu); eapply IH; eassumption.
    + eapply IH; eassumption.
Qed.

Lemma dedup_size (doc_type : string) (items : dict loc) :
  forall (acc : dict loc) (h : heap),
    (List.length (fst (dedup env doc_type items acc h))
     <= List.length acc + List.length items)%nat.
Proof.
  induction items as [|[url doc] items IH]; intros acc h; simpl; [lia|].
  destruct (clean_url_of env url) as [cu|e u].
  - destruct (dict_mem acc cu).
    + specialize (IH acc h). lia.
    + match goal with
      | |- context [dedup env doc_type items ?a ?h1] =>
          specialize (IH a h1)
      end.
      pose proof (dict_set_length acc cu doc). lia.
  - specialize (IH acc h). lia.
Qed.

Lemma dedup_first_wins (doc_type : string) (pre post : dict loc)
    (k c : string) (r : loc) (h : heap) :
  clean_url_of env k = Ok c ->
  (forall k' r', In (k', r') pre -> clean_url_of env k' <> Ok c) ->
  dict_get (fst (dedup env doc_type (pre ++ (k, r) :: post) [] h)) c = Some r.
Proof.
  intros Hc Hpre. rewrite dedup_app.
  pose proof (dedup_no_binding env doc_type pre c [] h Hpre eq_refl) as Hno.
  simpl. rewrite Hc, Hno.
  apply dedup_keeps_binding, dict_get_set_same.
Qed.

(** X6. The candidates of a category are documents of its raw mapping, one
    for each normalized URL: distinct keys, each the normalized URL of a raw
    URL of its document; every raw URL that parses has its key among them;
    and the document under a key is the first one of the mapping that
    normalizes to it. *)
Theorem deduplication_keeps_first_document_per_normalized_url :
  forall (doc_type : string) (items : dict loc) (h : heap),
    let unique_docs := fst (dedup env doc_type items [] h) in
    NoDup (keys unique_docs)
    /\ (List.length unique_docs <= List.length items)%nat
    /\ (forall c r, In (c, r) unique_docs ->
                    exists k, In (k, r) items /\ clean_url_of env k = Ok c)
    /\ (forall k r c, In (k, r) items -> clean_url_of env k = Ok c ->
                      dict_mem unique_docs c = true)
    /\ (forall pre post k r c,
          items = pre ++ (k, r) :: post ->
          clean_url_of env k = Ok c ->
          (forall k' r', In (k', r') pre -> clean_url_of env k' <> Ok c) ->
          dict_get unique_docs c = Some r).
Proof.
  intros doc_type items h unique_docs. unfold unique_docs.
  split; [apply dedup_distinct_keys; constructor|].
  split; [apply (dedup_size doc_type items [] h)|].
  split.
  { intros c r H. apply dedup_sound in H. destruct H as [[]|H]. exact H. }
  split.
  { intros k r c. apply dedup_complete. }
  intros pre post k r c -> Hc Hpre. now apply dedup_first_wins.
Qed.

End Candidates.

(** ** The employee-count section of the snapshot *)

Section EmployeeSection.

Import Curator.

Lemma sum_values_bounds (d : dict Z) :
  all_in_range d -> len d <= sum_values d <= 10000000 * len d.
Proof.
  induction d as [|[k v] d IH] using rev_ind; intros H.
  - unfold len, sum_values. simpl. lia.
  - unfold all_in_range in H. apply Forall_app in H. destruct H as [Hd Hv].
    inversion Hv as [|? ? Hr _]. subst. simpl in Hr.
    rewrite sum_values_app. specialize (IH Hd).
    unfold len in *. rewrite length_app.
    change (List.length [(k, v)]) with 1%nat. lia.
Qed.

(** X7. The employee-count section of the snapshot is consistent with
    itself and with the state: [total] is 1, [validCounts] is the number of
    entries of [data], [enriched] and [totalCount] are the sum of its values,
    [hasData] tells whether it has an entry, and the state holds the same
    entries under [employee_count] and their number under
    [Company_Count]. *)
Theorem snapshot_employee_section_is_consistent :
  forall (h : heap) (s s' : ResearchState) (snap : EnrichmentSnapshot),
    unique_keys (get_dict (employee_count s)) = true ->
    build_enrichment_counts h s = Ok (s', snap) ->
    let e := sn_employeeCount snap in
    e_total e = 1
    /\ validCounts e = len (data e)
    /\ e_enriched e = sum_values (data e)
    /\ totalCount e = sum_values (data e)
    /\ hasData e = negb (is_empty (data e))
    /\ validCounts e <= totalCount e <= 10000000 * validCounts e
    /\ employee_count s' = Some (as_values (data e))
    /\ Company_Count s' = Some (VInt (validCounts e)).
Proof.
  intros h s s' snap Hu H.
  destruct (build_shape h s s' snap H)
    as (valid & total & Hk & Hr & -> & -> & Ht & _).
  specialize (Ht Hu). subst total.
  unfold write_back, snapshot_of.
  cbn -[Z.mul len sum_values as_values is_empty].
  pose proof (sum_values_bounds valid Hr) as Hb.
  repeat split; try reflexivity; try lia.
  destruct valid as [|kv valid]; [reflexivity|].
  cbn -[Z.mul len sum_values]. apply Z.ltb_lt.
  unfold len in Hb. cbn [List.length] in Hb. lia.
Qed.

Lemma validate_loop_keeps_entries (items : dict pyval) :
  forall (acc : dict Z) (t : Z) (v : dict Z) (t' : Z),
    validate_loop items acc t = Ok (v, t') -> acc <> [] -> v <> [].
Proof.
  induction items as [|[url count] items IH]; intros acc t v t' H Hacc;
    simpl in H.
  - inversion H. now subst.
  - destruct (is_int_or_float count && is_positive count);
      [|eapply IH; eassumption].
    destruct (int_of count) as [n|e u]; [|discriminate].
    destruct (in_range_b n); [|eapply IH; eassumption].
    eapply IH; [exact H|apply dict_set_nonempty].
Qed.

Lemma validate_loop_finds_accepted (items : dict pyval) :
  forall (acc : dict Z) (t : Z) (v : dict Z) (t' : Z),
    validate_loop items acc t = Ok (v, t') ->
    holds_accepted items = true -> v <> [].
Proof.
  induction items as [|[url count] items IH]; intros acc t v t' H Hex;
    [discriminate|].
  simpl in H, Hex. unfold accepted in Hex.
  destruct (is_int_or_float count && is_positive count);
    [|eapply IH; eassumption].
  destruct (int_of count) as [n|e u]; [|discriminate].
  destruct (in_range_b n); [|eapply IH; eassumption].
  eapply validate_loop_keeps_entries; [exact H|apply dict_set_nonempty].
Qed.

(** X8. The counts of the state take precedence: when [employee_count]
    holds an accepted count, the accounting does not read the company
    documents, whatever they hold. *)
Theorem state_counts_take_precedence_over_documents :
  forall (h1 h2 : heap) (s : ResearchState),
    holds_accepted (get_dict (employee_count s)) = true ->
    build_enrichment_counts h1 s = build_enrichment_counts h2 s.
Proof.
  intros h1 h2 s Hex. unfold build_enrichment_counts.
  destruct (validate_loop (get_dict (employee_count s)) [] 0)
    as [[valid total]|e u] eqn:E; [|reflexivity].
  pose proof (validate_loop_finds_accepted _ _ _ _ _ E Hex) as Hne.
  destruct valid as [|kv valid]; [congruence|]. reflexivity.
Qed.

(** X9. Without an entry under [employee_count], the data of the snapshot
    are what [_extract_employee_count_from_company_data] finds in the
    company documents, and the total is their sum. *)
Theorem empty_state_counts_fall_back_to_documents :
  forall (h : heap) (s s' : ResearchState) (snap : EnrichmentSnapshot),
    get_dict (employee_count s) = [] ->
    build_enrichment_counts h s = Ok (s', snap) ->
    _extract_employee_count_from_company_data h (get_dict (company_data s))
    = Ok (data (sn_employeeCount snap))
    /\ totalCount (sn_employeeCount snap)
       = sum_values (data (sn_employeeCount snap)).
Proof.
  intros h s s' snap He. unfold build_enrichment_counts. rewrite He. simpl.
  destruct (get_dict (company_data s)) as [|kv cd] eqn:Ecd; simpl.
  - intros H. inversion H. subst. simpl. split; reflexivity.
  - destruct (_extract_employee_count_from_company_data h (kv :: cd))
      as [v|e u]; [|discriminate].
    intros H. inversion H. subst. simpl. split; reflexivity.
Qed.

Lemma extract_loop_lookup (h : heap) (items : dict loc) :
  forall (acc v : dict Z) (url : string),
    NoDup (keys items) ->
    extract_loop h items acc = Ok v ->
    dict_get v url
    = match dict_get items url with
      | Some r =>
          match accepted_of_document h r with
          | Some n => Some n
          | None => dict_get acc url
          end
      | None => dict_get acc url
      end.
Proof.
  induction items as [|[k r] items IH]; intros acc v url Hk H; simpl in H.
  - inversion H. now subst.
  - simpl in Hk. inversion Hk as [|? ? Hnot Hk']. subst.
    assert (Hrest : forall acc',
               extract_loop h items acc' = Ok v ->
               dict_get v k = dict_get acc' k).
    { intros acc' H'. rewrite (IH acc' v k Hk' H').
      destruct (dict_get items k) eqn:G; [|reflexivity].
      exfalso. apply Hnot. apply dict_mem_In. unfold dict_mem. now rewrite G. }
    simpl. destruct (String.eqb url k) eqn:Ek.
    + apply String.eqb_eq in Ek. subst url.
      unfold accepted_of_document, accepted.
      destruct (d_employee_count (deref h r)) as [c|]; [|now apply Hrest].
      destruct (is_int_or_float c && is_positive c); [|now apply Hrest].
      destruct (int_of c) as [n|e u]; [|discriminate].
      destruct (in_range_b n); [|now apply Hrest].
      rewrite (Hrest _ H). apply dict_get_set_same.
    + assert (Hne : url <> k) by now apply String.eqb_neq.
      destruct (d_employee_count (deref h r)) as [c|]; [|now apply IH].
      destruct (is_int_or_float c && is_positive c); [|now apply IH].
      destruct (int_of c) as [n|e u]; [|discriminate].
      destruct (in_range_b n); [|now apply IH].
      rewrite (IH _ v url Hk' H).
      rewrite (dict_get_set_other acc k url n Hne). reflexivity.
Qed.

(** X10. [_extract_employee_count_from_company_data] maps a URL to a count
    exactly when the company document under that URL holds an accepted
    count, and to that count. *)
Theorem extraction_maps_documents_with_accepted_count :
  forall (h : heap) (company_data : dict loc) (v : dict Z) (url : string),
    NoDup (keys company_data) ->
    _extract_employee_count_from_company_data h company_data = Ok v ->
    dict_get v url
    = match dict_get company_data url with
      | Some r => accepted_of_document h r
      | None => None
      end.
Proof.
  intros h company_data v url Hk H.
  rewrite (extract_loop_lookup h company_data [] v url Hk H). simpl.
  destruct (dict_get company_data url) as [r|]; [|reflexivity].
  now destruct (accepted_of_document h r).
Qed.

Lemma validate_loop_lookup (items : dict pyval) :
  forall (acc : dict Z) (t : Z) (v : dict Z) (t' : Z) (url : string),
    NoDup (keys items) ->
    validate_loop items acc t = Ok (v, t') ->
    dict_get v url
    = match dict_get items url with
      | Some c =>
          match accepted c with
          | Some n => Some n
          | None => dict_get acc url
          end
      | None => dict_get acc url
      end.
Proof.
  induction items as [|[k c] items IH]; intros acc t v t' url Hk H;
    simpl in H.
  - inversion H. now subst.
  - simpl in Hk. inversion Hk as [|? ? Hnot Hk']. subst.
    assert (Hrest : forall acc' t0,
               validate_loop items acc' t0 = Ok (v, t') ->
               dict_get v k = dict_get acc' k).
    { intros acc' t0 H'. rewrite (IH acc' t0 v t' k Hk' H').
      destruct (dict_get items k) eqn:G; [|reflexivity].
      exfalso. apply Hnot. apply dict_mem_In. unfold dict_mem. now rewrite G. }
    simpl. destruct (String.eqb url k) eqn:Ek.
    + apply String.eqb_eq in Ek. subst url. unfold accepted.
      destruct (is_int_or_float c && is_positive c);
        [|exact (Hrest _ _ H)].
      destruct (int_of c) as [n|e u]; [|discriminate].
      destruct (in_range_b n); [|exact (Hrest _ _ H)].
      rewrite (Hrest _ _ H). apply dict_get_set_same.
    + assert (Hne : url <> k) by now apply String.eqb_neq.
      destruct (is_int_or_float c && is_positive c);
        [|exact (IH _ _ _ _ url Hk' H)].
      destruct (int_of c) as [n|e u]; [|discriminate].
      destruct (in_range_b n); [|exact (IH _ _ _ _ url Hk' H)].
      rewrite (IH _ _ v t' url Hk' H).
      rewrite (dict_get_set_other acc k url n Hne). reflexivity.
Qed.

(** With an accepted count in the state, the accounting reports what the
    validation of [employee_count] gives. *)
Lemma build_reads_state (h : heap) (s s' : ResearchState)
    (snap : EnrichmentSnapshot) :
  holds_accepted (get_dict (employee_count s)) = true ->
  build_enrichment_counts h s = Ok (s', snap) ->
  exists (valid : dict Z) (t : Z),
    validate_loop (get_dict (employee_count s)) [] 0 = Ok (valid, t)
    /\ valid <> [] /\ s' = write_back valid s /\ snap = snapshot_of s valid t.
Proof.
  intros Hex. unfold build_enrichment_counts.
  destruct (validate_loop (get_dict (employee_count s)) [] 0)
    as [[valid t]|e u] eqn:E; [|discriminate].
  pose proof (validate_loop_finds_accepted _ _ _ _ _ E Hex) as Hne.
  destruct valid as [|kv valid]; [congruence|]. simpl.
  intros H. inversion H. subst. exists (kv :: valid), t.
  split; [reflexivity|]. split; [discriminate|]. split; reflexivity.
Qed.

(** X11. With an accepted count in the state, the data of the snapshot map
    a key to a count exactly when [employee_count] holds an accepted count
    under that key, and to that count. *)
Theorem snapshot_data_are_the_accepted_counts_of_the_state :
  forall (h : heap) (s s' : ResearchState) (snap : EnrichmentSnapshot)
         (url : string),
    unique_keys (get_dict (employee_count s)) = true ->
    holds_accepted (get_dict (employee_count s)) = true ->
    build_enrichment_counts h s = Ok (s', snap) ->
    dict_get (data (sn_employeeCount snap)) url
    = match dict_get (get_dict (employee_count s)) url with
      | Some c => accepted c
      | None => None
      end.
Proof.
  intros h s s' snap url Hu Hex H.
  destruct (build_reads_state h s s' snap Hex H)
    as (valid & t & Hv & _ & _ & ->).
  apply unique_keys_NoDup in Hu. simpl.
  rewrite (validate_loop_lookup _ _ _ _ _ url Hu Hv). simpl.
  destruct (dict_get (get_dict (employee_count s)) url) as [c|];
    [|reflexivity].
  now destruct (accepted c).
Qed.

End EmployeeSection.

(** X7 on the mixed counts: two entries are reported, 500 and 3. *)
Lemma snapshot_employee_section_is_consistent_witness :
  exists (s' : ResearchState) (snap : EnrichmentSnapshot),
    Curator.build_enrichment_counts [] mixed_state = Ok (s', snap)
    /\ totalCount (sn_employeeCount snap) = 503
    /\ validCounts (sn_employeeCount snap) = 2
    /\ hasData (sn_employeeCount snap)
       = negb (Curator.is_empty (data (sn_employeeCount snap)))
    /\ employee_count s'
       = Some (Curator.as_values (data (sn_employeeCount snap))).
Proof.
  match eval vm_compute in (Curator.build_enrichment_counts [] mixed_state) with
  | Ok (?s1, ?sn) =>
      exists s1, sn; split; [vm_compute; reflexivity|];
      split; [vm_compute; reflexivity|];
      split; [vm_compute; reflexivity|];
      pose proof (snapshot_employee_section_is_consistent [] mixed_state s1 sn
                    ltac:(vm_compute; reflexivity)
                    ltac:(vm_compute; reflexivity)) as H;
      cbv zeta in H;
      exact (conj (proj1 (proj2 (proj2 (proj2 (proj2 H)))))
               (proj1 (proj2 (proj2 (proj2 (proj2 (proj2 (proj2 H))))))))
  end.
Defined.

(** X8 on the mixed counts: a company document that holds another count
    changes nothing. *)
Lemma state_counts_take_precedence_over_documents_witness :
  Curator.build_enrichment_counts []
    (with_company_data [("acme-corp", 0%nat)] mixed_state)
  = Curator.build_enrichment_counts fallback_heap
      (with_company_data [("acme-corp", 0%nat)] mixed_state).
Proof.
  apply (state_counts_take_precedence_over_documents [] fallback_heap
           (with_company_data [("acme-corp", 0%nat)] mixed_state)).
  vm_compute. reflexivity.
Defined.

(** X9 on a state without counts whose company document holds 250. *)
Lemma empty_state_counts_fall_back_to_documents_witness :
  exists (s' : ResearchState) (snap : EnrichmentSnapshot),
    Curator.build_enrichment_counts fallback_heap
      (with_company_data [("acme-corp", 0%nat)] blank_state) = Ok (s', snap)
    /\ data (sn_employeeCount snap) = [("acme-corp", 250)]
    /\ Curator._extract_employee_count_from_company_data fallback_heap
         [("acme-corp", 0%nat)]
       = Ok (data (sn_employeeCount snap)).
Proof.
  match eval vm_compute in
    (Curator.build_enrichment_counts fallback_heap
       (with_company_data [("acme-corp", 0%nat)] blank_state)) with
  | Ok (?s1, ?sn) =>
      exists s1, sn; split; [vm_compute; reflexivity|];
      split; [vm_compute; reflexivity|];
      exact (proj1 (empty_state_counts_fall_back_to_documents fallback_heap
                      (with_company_data [("acme-corp", 0%nat)] blank_state)
                      s1 sn eq_refl ltac:(vm_compute; reflexivity)))
  end.
Defined.

(** X10 on the company document that holds 250. *)
Lemma extraction_maps_documents_with_accepted_count_witness :
  dict_get [("acme-corp", 250)] "acme-corp"
  = match dict_get [("acme-corp", 0%nat)] "acme-corp" with
    | Some r => accepted_of_document fallback_heap r
    | None => None
    end.
Proof.
  apply (extraction_maps_documents_with_accepted_count fallback_heap
           [("acme-corp", 0%nat)] [("acme-corp", 250)] "acme-corp").
  - repeat constructor. simpl. intuition.
  - vm_compute. reflexivity.
Defined.

(** X11 on the mixed counts: the float 3.5 under [e] is reported as 3, the
    string under [b] is not reported. *)
Lemma snapshot_data_are_the_accepted_counts_of_the_state_witness :
  exists (s' : ResearchState) (snap : EnrichmentSnapshot),
    Curator.build_enrichment_counts [] mixed_state = Ok (s', snap)
    /\ dict_get (data (sn_employeeCount snap)) "e" = Some 3
    /\ dict_get (data (sn_employeeCount snap)) "b"
       = match dict_get (get_dict (employee_count mixed_state)) "b" with
         | Some c => accepted c
         | None => None
         end.
Proof.
  match eval vm_compute in (Curator.build_enrichment_counts [] mixed_state) with
  | Ok (?s1, ?sn) =>
      exists s1, sn; split; [vm_compute; reflexivity|];
      split; [vm_compute; reflexivity|];
      apply (snapshot_data_are_the_accepted_counts_of_the_state [] mixed_state
               s1 sn "b");
      vm_compute; reflexivity
  end.
Defined.

(** ** From the analyzer to the snapshot *)

Section AnalyzerToSnapshot.

Import Company Curator.

Variable env : Env.

Lemma send_enrichment_counts_update_keeps (w : World) :
  employee_count (state (_send_enrichment_counts_update env w))
    = employee_count (state w)
  /\ Company_Count (state (_send_enrichment_counts_update env w))
     = Company_Count (state w).
Proof.
  unfold _send_enrichment_counts_update.
  destruct (attached (state w)); [|split; reflexivity].
  destruct (add_int _ _); [|split; reflexivity].
  destruct (first_employee_count (state w)); split; reflexivity.
Qed.

Lemma store_employee_count_stores (key : string) (v c : Z) (s : ResearchState) :
  employee_count (store_employee_count key v c s)
  = Some (dict_set (get_dict (employee_count s)) key (VInt v))
  /\ Company_Count (store_employee_count key v c s) = Some (VInt c).
Proof.
  unfold store_employee_count.
  destruct (employee_count s) eqn:E; cbn; rewrite ?E; split; reflexivity.
Qed.

Lemma validated_in_range (raw_count company : string) :
  1 <= _validate_and_process_employee_count raw_count company <= 10000000.
Proof.
  rewrite validate_cases.
  destruct (int_of_digits (clean_count_of raw_count)) as [n|]; [|lia].
  destruct (in_range_b n) eqn:E; [|lia]. now apply in_range_b_true.
Qed.

(** What the step leaves, on both of its paths. *)
Lemma employee_count_step_stores (w : World) :
  let key := company_key (state w)
               (get_str (company (state w)) "Unknown Company") in
  let v := snd (employee_count_step env w) in
  1 <= v <= 10000000
  /\ employee_count (state (fst (employee_count_step env w)))
     = Some (dict_set (get_dict (employee_count (state w))) key (VInt v))
  /\ Company_Count (state (fst (employee_count_step env w))) = Some (VInt 1).
Proof.
  cbv zeta. unfold employee_count_step, employee_count_try.
  destruct (if attached (state w)
            then send_status_update env "processing" (sent w)
            else Ok (sent w)) as [log|e log]; cbn [fst snd state objects sent].
  - pose proof (validated_in_range (get_employee_count_via_llm env)
                  (get_str (company (state w)) "Unknown Company")) as Hr.
    split; [exact Hr|].
    destruct (send_enrichment_counts_update_keeps
                (_send_employee_count_update env
                   (mkWorld
                      (store_employee_count
                         (company_key (state w)
                            (get_str (company (state w)) "Unknown Company"))
                         (_validate_and_process_employee_count
                            (get_employee_count_via_llm env)
                            (get_str (company (state w)) "Unknown Company"))
                         (if 0 <? _validate_and_process_employee_count
                                    (get_employee_count_via_llm env)
                                    (get_str (company (state w))
                                       "Unknown Company")
                          then 1 else 0) (state w))
                      (objects w) log)
                   (_validate_and_process_employee_count
                      (get_employee_count_via_llm env)
                      (get_str (company (state w)) "Unknown Company"))
                   (get_str (company (state w)) "Unknown Company")))
      as [He Hc].
    rewrite He, Hc.
    match goal with
    | |- context [_send_employee_count_update env ?w0 ?v0 ?c0] =>
        destruct (send_employee_count_update_keeps env w0 v0 c0) as [He2 Hc2]
    end.
    rewrite He2, Hc2. cbn [state].
    match goal with
    | |- context [store_employee_count ?k ?v0 ?c0 ?s0] =>
        destruct (store_employee_count_stores k v0 c0 s0) as [He3 Hc3]
    end.
    rewrite He3, Hc3. split; [reflexivity|].
    assert (Hp : (0 <? _validate_and_process_employee_count
                         (get_employee_count_via_llm env)
                         (get_str (company (state w)) "Unknown Company"))
                 = true) by (apply Z.ltb_lt; lia).
    now rewrite Hp.
  - split; [lia|].
    match goal with
    | |- context [_send_employee_count_update env ?w0 ?v0 ?c0] =>
        destruct (send_employee_count_update_keeps env w0 v0 c0) as [He2 Hc2]
    end.
    rewrite He2, Hc2. cbn [state].
    match goal with
    | |- context [store_employee_count ?k ?v0 ?c0 ?s0] =>
        destruct (store_employee_count_stores k v0 c0 s0) as [He3 Hc3]
    end.
    rewrite He3, Hc3. split; reflexivity.
Qed.

(** X12. Whatever the model answers and whichever notification fails, the
    employee-count step of [analyze] stores a count between 1 and 10,000,000
    under the company key, returns that count, and sets [Company_Count]
    to 1. *)
Theorem employee_count_step_always_stores_a_count_in_range :
  forall w : World,
    let key := company_key (state w)
                 (get_str (company (state w)) "Unknown Company") in
    let v := snd (employee_count_step env w) in
    let s' := state (fst (employee_count_step env w)) in
    1 <= v <= 10000000
    /\ dict_get (get_dict (employee_count s')) key = Some (VInt v)
    /\ Company_Count s' = Some (VInt 1).
Proof.
  intros w. cbv zeta.
  destruct (employee_count_step_stores w) as (Hr & He & Hc).
  split; [exact Hr|]. split; [|exact Hc].
  rewrite He. apply dict_get_set_same.
Qed.

Lemma holds_accepted_entry (d : dict pyval) (k : string) (c : pyval) (n : Z) :
  dict_get d k = Some c -> accepted c = Some n -> holds_accepted d = true.
Proof.
  induction d as [|[k' c'] d IH]; simpl; [discriminate|].
  destruct (String.eqb k k').
  - intros H Ha. inversion H. subst. now rewrite Ha.
  - intros H Ha. rewrite (IH H Ha). apply orb_true_r.
Qed.

Lemma accepted_in_range (n : Z) :
  1 <= n <= 10000000 -> accepted (VInt n) = Some n.
Proof.
  intros H. unfold accepted. simpl.
  assert (Hp : (0 <? n) = true) by (apply Z.ltb_lt; lia).
  rewrite Hp. apply in_range_b_true in H. now rewrite H.
Qed.

(** X13. The count that the employee-count step of the analyzer stores is
    the count that the accounting of the curator reports under the company
    key, with [hasData] set. *)
Theorem analyzer_count_reaches_the_snapshot :
  forall (w : World) (h : heap) (s' : ResearchState)
         (snap : EnrichmentSnapshot),
    unique_keys (get_dict (employee_count (state w))) = true ->
    build_enrichment_counts h (state (fst (employee_count_step env w)))
    = Ok (s', snap) ->
    dict_get (data (sn_employeeCount snap))
      (company_key (state w) (get_str (company (state w)) "Unknown Company"))
    = Some (snd (employee_count_step env w))
    /\ hasData (sn_employeeCount snap) = true.
Proof.
  intros w h s' snap Hu H.
  destruct (employee_count_step_stores w) as (Hr & He & Hc).
  set (key := company_key (state w)
                (get_str (company (state w)) "Unknown Company")) in *.
  set (v := snd (employee_count_step env w)) in *.
  set (s1 := state (fst (employee_count_step env w))) in *.
  assert (Hd : get_dict (employee_count s1)
               = dict_set (get_dict (employee_count (state w))) key (VInt v))
    by now rewrite He.
  assert (Hk : NoDup (keys (get_dict (employee_count s1)))).
  { rewrite Hd. apply NoDup_keys_dict_set. now apply unique_keys_NoDup. }
  assert (Hex : holds_accepted (get_dict (employee_count s1)) = true).
  { apply (holds_accepted_entry _ key (VInt v) v).
    - rewrite Hd. apply dict_get_set_same.
    - now apply accepted_in_range. }
  destruct (build_reads_state h s1 s' snap Hex H)
    as (valid & t & Hv & Hne & _ & ->).
  split.
  - simpl. rewrite (validate_loop_lookup _ _ _ _ _ key Hk Hv).
    rewrite Hd, dict_get_set_same. now rewrite accepted_in_range.
  - simpl.
    destruct (validate_loop_range _ [] _ _ _ (NoDup_nil _) (Forall_nil _) Hv)
      as [_ Hrange].
    assert (Ht : t = sum_values valid).
    { eapply validate_loop_total; [exact Hk| |reflexivity|exact Hv].
      intros k _ []. }
    pose proof (sum_values_bounds valid Hrange) as Hb.
    destruct valid as [|kv valid]; [congruence|].
    cbn [is_empty negb andb]. apply Z.ltb_lt.
    unfold len in Hb. cbn [List.length] in Hb. lia.
Qed.

End AnalyzerToSnapshot.

(** X12 on a model that answers with a count beyond the cap. *)
Lemma employee_count_step_always_stores_a_count_in_range_witness :
  let w := mkWorld (with_company "Acme Corp" blank_state) [] [] in
  let w' := fst (Company.employee_count_step (quiet_env (Some "50000000")) w) in
  dict_get (get_dict (employee_count (state w'))) "acme-corp" = Some (VInt 1)
  /\ Company_Count (state w') = Some (VInt 1).
Proof.
  exact (proj2 (employee_count_step_always_stores_a_count_in_range
                  (quiet_env (Some "50000000"))
                  (mkWorld (with_company "Acme Corp" blank_state) [] []))).
Defined.

(** X13 on a model that answers 182,502 (2023). *)
Lemma analyzer_count_reaches_the_snapshot_witness :
  let w := mkWorld (with_company "Acme Corp" blank_state) [] [] in
  let w' := fst (Company.employee_count_step
                   (quiet_env (Some "182,502 (2023)")) w) in
  exists (s' : ResearchState) (snap : EnrichmentSnapshot),
    Curator.build_enrichment_counts [] (state w') = Ok (s', snap)
    /\ dict_get (data (sn_employeeCount snap)) "acme-corp" = Some 182502
    /\ hasData (sn_employeeCount snap) = true.
Proof.
  cbv zeta.
  match eval vm_compute in
    (Curator.build_enrichment_counts []
       (state (fst (Company.employee_count_step
                      (quiet_env (Some "182,502 (2023)"))
                      (mkWorld (with_company "Acme Corp" blank_state) [] [])))))
  with
  | Ok (?s1, ?sn) =>
      exists s1, sn; split; [vm_compute; reflexivity|];
      exact (analyzer_count_reaches_the_snapshot
               (quiet_env (Some "182,502 (2023)"))
               (mkWorld (with_company "Acme Corp" blank_state) [] [])
               [] s1 sn eq_refl ltac:(vm_compute; reflexivity))
  end.
Defined.

(** ** The counts across the curation *)

Section CountsAcrossCuration.

Import Curator.

Variable env : Env.



End CountsAcrossCuration.

(** ** The notifications *)

Section Notifications.

Import Curator.

Variable env : Env.

Lemma evaluate_loop_silent (s : ResearchState) (h : heap) (docs : list loc) :
  attached s = false ->
  forall (acc : list Document) (log : Log),
    match evaluate_loop env s h docs acc log with
    | Ok (_, log') => log' = log
    | Raise _ log' => log' = log
    end.
Proof.
  intros Ha. induction docs as [|r docs IH]; intros acc log; simpl.
  - reflexivity.
  - destruct (float_of env (score_or_0 (deref h r))) as [f|[| | |] u].
    + destruct (float_ge f relevance_threshold); [rewrite Ha|]; apply IH.
    + apply IH.
    + apply IH.
    + reflexivity.
    + reflexivity.
Qed.

Lemma evaluate_documents_silent (s : ResearchState) (h : heap)
    (docs : list loc) (log : Log) :
  attached s = false ->
  match evaluate_documents env s h docs log with
  | Ok (_, log') => log' = log
  | Raise _ log' => log' = log
  end.
Proof.
  intros Ha. unfold evaluate_documents. rewrite Ha.
  destruct docs as [|r docs]; [reflexivity|].
  pose proof (evaluate_loop_silent s h (r :: docs) Ha [] log) as H.
  destruct (evaluate_loop env s h (r :: docs) [] log) as [[o l]|e l]; exact H.
Qed.

Lemma attached_set_curated (f : Field) (v : dict Document) (s : ResearchState) :
  attached (set_curated f v s) = attached s.
Proof. destruct f; reflexivity. Qed.

Lemma process_silent (h : heap) (tasks : list Task) :
  forall (s : ResearchState) (doc_counts : dict DocCount) (msg : Message)
         (log : Log),
    attached s = false ->
    match process env h tasks s doc_counts msg log with
    | Ok (_, _, _, log') => log' = log
    | Raise _ (_, log') => log' = log
    end.
Proof.
  induction tasks as [|t tasks IH]; intros s doc_counts msg log Ha; simpl.
  - reflexivity.
  - rewrite Ha.
    pose proof (evaluate_documents_silent s h (t_docs t) log Ha) as He.
    destruct (evaluate_documents env s h (t_docs t) log) as [[out l]|e l];
      subst l; [|reflexivity].
    destruct out as [|d out]; apply IH; [exact Ha|].
    now rewrite attached_set_curated.
Qed.

Lemma attached_restore (s : ResearchState) (p : Preserved) :
  attached (_restore_critical_state_data s p) = attached s.
Proof.
  unfold _restore_critical_state_data.
  destruct (negb (is_empty (pr_employee_count p)));
    destruct (negb (is_empty (pr_enrichment_counts p)));
    try destruct (dict_get (pr_enrichment_counts p) "employeeCount");
    reflexivity.
Qed.

Lemma attached_store_references (s : ResearchState) (h : heap) :
  attached (store_references env s h) = attached s.
Proof.
  unfold store_references.
  destruct (process_references_from_search_results env s h) as [[[? ?] ?]|];
    reflexivity.
Qed.

Lemma attached_build (h : heap) (s s' : ResearchState)
    (snap : EnrichmentSnapshot) :
  build_enrichment_counts h s = Ok (s', snap) -> attached s' = attached s.
Proof.
  intros H. apply build_shape in H.
  destruct H as (valid & total & _ & _ & -> & _). reflexivity.
Qed.

Lemma curate_data_silent (w : World) :
  attached (state w) = false ->
  match curate_data env w with
  | Ok w' | Raise _ w' => sent w' = sent w
  end.
Proof.
  intros Ha. unfold curate_data. rewrite Ha.
  destruct (prepare env (state w) data_types (objects w)) as [tasks h].
  match goal with
  | |- context [process env h tasks ?s ?dc ?m ?l] =>
      pose proof (process_silent h tasks s dc m l Ha) as Hl;
      pose proof (process_keeps env attached h tasks attached_set_curated
                    s dc m l) as Hk;
      destruct (process env h tasks s dc m l)
        as [[[[s1 dc1] msg] log1]|e1 [s1 log1]]
  end; subst log1; [|reflexivity].
  destruct (build_enrichment_counts h _) as [[s2 snap]|e s2] eqn:Eb;
    [|reflexivity].
  apply attached_build in Eb.
  rewrite attached_store_references, attached_restore, Hk, Ha in Eb.
  change (attached (set_messages
                      (Some
                         (match messages (set_enrichmentCounts (Some snap) s2)
                          with Some l => l | None => [] end ++ [msg]))
                      (set_enrichmentCounts (Some snap) s2)))
    with (attached s2).
  unfold _send_enrichment_update.
  change (attached (set_messages
                      (Some
                         (match messages (set_enrichmentCounts (Some snap) s2)
                          with Some l => l | None => [] end ++ [msg]))
                      (set_enrichmentCounts (Some snap) s2)))
    with (attached s2).
  rewrite Eb. reflexivity.
Qed.

(** X14. Without an observer (no manager or no job id in the state), [run]
    attempts no notification, however it ends. *)
Theorem run_without_observer_sends_nothing :
  forall w : World,
    attached (state w) = false ->
    match run env w with
    | Ok w' | Raise _ w' => sent w' = sent w
    end.
Proof.
  intros w Ha. unfold run.
  pose proof (curate_data_silent w Ha) as Hc.
  destruct (curate_data env w) as [w1|e w1]; [exact Hc|].
  destruct (build_enrichment_counts (objects w1) _) as [[s2 snap]|e2 s2];
    exact Hc.
Qed.

End Notifications.

(** X14 on the scenario of four categories without its observer. *)
Lemma run_without_observer_sends_nothing_witness :
  exists w' : World,
    Curator.run (env_failing_at 0 OtherError)
      (mkWorld (with_raw [("https://f.com/a", 0%nat)]
                  [("https://n.com/a", 1%nat); ("https://n.com/b", 2%nat)]
                  [("https://i.com/a", 3%nat)] [("https://c.com/a", 4%nat)]
                  blank_state) scenario_heap []) = Ok w'
    /\ keys (get_dict (curated_news_data (state w'))) = ["https://n.com/a"]
    /\ sent w' = [].
Proof.
  pose proof (run_without_observer_sends_nothing (env_failing_at 0 OtherError)
                (mkWorld (with_raw [("https://f.com/a", 0%nat)]
                            [("https://n.com/a", 1%nat);
                             ("https://n.com/b", 2%nat)]
                            [("https://i.com/a", 3%nat)]
                            [("https://c.com/a", 4%nat)]
                            blank_state) scenario_heap []) eq_refl) as H.
  match eval vm_compute in
    (Curator.run (env_failing_at 0 OtherError)
       (mkWorld (with_raw [("https://f.com/a", 0%nat)]
                   [("https://n.com/a", 1%nat); ("https://n.com/b", 2%nat)]
                   [("https://i.com/a", 3%nat)] [("https://c.com/a", 4%nat)]
                   blank_state) scenario_heap [])) with
  | Ok ?w1 =>
      assert (E : Curator.run (env_failing_at 0 OtherError)
                    (mkWorld (with_raw [("https://f.com/a", 0%nat)]
                                [("https://n.com/a", 1%nat);
                                 ("https://n.com/b", 2%nat)]
                                [("https://i.com/a", 3%nat)]
                                [("https://c.com/a", 4%nat)]
                                blank_state) scenario_heap []) = Ok w1)
        by (vm_compute; reflexivity);
      rewrite E in H; exists w1; split; [exact E|];
      split; [vm_compute; reflexivity|exact H]
  end.
Defined.

Section KeptNotifications.

Import Curator.

Variable env : Env.

Lemma evaluate_loop_log (s : ResearchState) (h : heap) (docs : list loc) :
  attached s = true ->
  (forall n, send_outcome env n = None) ->
  scores_in_float_range env h docs = true ->
  forall (acc : list Document) (log : Log),
    evaluate_loop env s h docs acc log
    = Ok (acc ++ retained env h docs,
          log ++ repeat ("document_kept", true)
                   (List.length (retained env h docs))).
Proof.
  intros Ha Hs. induction docs as [|r docs IH]; intros Hr acc log; simpl.
  - now rewrite !app_nil_r.
  - simpl in Hr. apply andb_true_iff in Hr. destruct Hr as [Hr1 Hr].
    unfold passes.
    destruct (float_of env (score_or_0 (deref h r))) as [f|[| | |] u];
      try discriminate.
    + destruct (float_ge f relevance_threshold).
      * rewrite Ha. unfold send_status_update. rewrite Hs.
        rewrite (IH Hr). simpl. now rewrite <- !app_assoc.
      * now rewrite (IH Hr).
    + now rewrite (IH Hr).
    + now rewrite (IH Hr).
Qed.

(** X15. With an observer whose calls all return, the evaluation of a batch
    whose scores convert sends one notification that it starts and then one
    [document_kept] for each document that it keeps, and nothing else. *)
Theorem evaluation_notifies_once_per_kept_document :
  forall (s : ResearchState) (h : heap) (docs : list loc) (log : Log),
    attached s = true ->
    (forall n, send_outcome env n = None) ->
    scores_in_float_range env h docs = true ->
    evaluate_documents env s h docs log
    = Ok (sort_desc score_key (retained env h docs),
          log ++ ("processing", true)
                 :: repeat ("document_kept", true)
                      (List.length (retained env h docs))).
Proof.
  intros s h docs log Ha Hs Hr. unfold evaluate_documents.
  rewrite Ha. unfold send_status_update at 1. rewrite Hs.
  destruct docs as [|r docs]; [reflexivity|].
  rewrite (evaluate_loop_log s h (r :: docs) Ha Hs Hr). simpl.
  now rewrite <- app_assoc.
Qed.

End KeptNotifications.

(** X15 on the batch of mixed scores: two documents are kept. *)
Lemma evaluation_notifies_once_per_kept_document_witness :
  exists out : list Document,
    Curator.evaluate_documents (quiet_env None) (with_observer blank_state)
      mixed_batch [0; 1; 2; 3; 4; 5]%nat []
    = Ok (out, [("processing", true); ("document_kept", true);
                ("document_kept", true)]).
Proof.
  eexists.
  rewrite (evaluation_notifies_once_per_kept_document (quiet_env None)
             (with_observer blank_state) mixed_batch [0; 1; 2; 3; 4; 5]%nat []
             eq_refl (fun _ => eq_refl) ltac:(vm_compute; reflexivity)).
  vm_compute. reflexivity.
Defined.

(** ** The answer of the model *)

Section ModelAnswer.

Import Company.

Lemma digit_no_space (c : ascii) : is_digit c = true -> is_space c = false.
Proof.
  destruct c as [[] [] [] [] [] [] [] []]; vm_compute; congruence.
Qed.

Lemma digit_no_comma (c : ascii) : is_digit c = true -> Ascii.eqb c "," = false.
Proof.
  destruct c as [[] [] [] [] [] [] [] []]; vm_compute; congruence.
Qed.

Lemma digit_no_parenthesis (c : ascii) :
  is_digit c = true -> Ascii.eqb c "(" = false.
Proof.
  destruct c as [[] [] [] [] [] [] [] []]; vm_compute; congruence.
Qed.

Lemma remove_commas_digits (s : string) :
  digits_only
    (remove_commas (take_while (fun x => is_digit x || Ascii.eqb x ",") s))
  = true.
Proof.
  induction s as [|c s IH]; simpl; [reflexivity|].
  destruct (is_digit c) eqn:D; simpl.
  - rewrite (digit_no_comma c D). simpl. now rewrite D, IH.
  - destruct (Ascii.eqb c ",") eqn:C; simpl; [|reflexivity].
    rewrite C. exact IH.
Qed.

Lemma search_count_digits (s m : string) :
  search_count s = Some m ->
  digits_only (remove_commas m) = true /\ remove_commas m <> EmptyString.
Proof.
  revert m. induction s as [|c s IH]; intros m; simpl; [discriminate|].
  destruct (is_digit c) eqn:D; [|apply IH].
  intros H. inversion H. subst. clear H. simpl.
  rewrite (digit_no_comma c D). simpl. rewrite D. split.
  - apply remove_commas_digits.
  - discriminate.
Qed.

Lemma split_head_digits (s : string) :
  digits_only s = true -> split_head "(" s = s.
Proof.
  induction s as [|c s IH]; simpl; [reflexivity|].
  intros H. apply andb_true_iff in H. destruct H as [D H].
  rewrite (digit_no_parenthesis c D). now rewrite IH.
Qed.

Lemma lstrip_digits (s : string) : digits_only s = true -> lstrip s = s.
Proof.
  destruct s as [|c s]; simpl; [reflexivity|].
  intros H. apply andb_true_iff in H. destruct H as [D _].
  now rewrite (digit_no_space c D).
Qed.

Lemma rstrip_digits (s : string) : digits_only s = true -> rstrip s = s.
Proof.
  induction s as [|c s IH]; simpl; [reflexivity|].
  intros H. apply andb_true_iff in H. destruct H as [D H].
  rewrite (IH H). destruct s; [|reflexivity].
  now rewrite (digit_no_space c D).
Qed.

Lemma remove_non_digits_digits (s : string) :
  digits_only s = true -> remove_non_digits s = s.
Proof.
  induction s as [|c s IH]; simpl; [reflexivity|].
  intros H. apply andb_true_iff in H. destruct H as [D H].
  now rewrite D, IH.
Qed.

Lemma clean_count_of_digits (s : string) :
  digits_only s = true -> clean_count_of s = s.
Proof.
  intros H. unfold clean_count_of, strip.
  now rewrite split_head_digits, lstrip_digits, rstrip_digits,
    remove_non_digits_digits.
Qed.

(** X16. Whatever the model answers, and also when the call fails,
    [get_employee_count_via_llm] returns a string of decimal digits that is
    not empty; the cleaning of the validator leaves such a string as it is,
    so that the value of the step is the number it denotes when that number
    lies in the range, and 1 otherwise. *)
Theorem model_answer_is_reduced_to_digits :
  forall (env : Env) (company : string),
    let raw := get_employee_count_via_llm env in
    digits_only raw = true
    /\ raw <> EmptyString
    /\ clean_count_of raw = raw
    /\ _validate_and_process_employee_count raw company
       = match int_of_digits raw with
         | Some n => if in_range_b n then n else 1
         | None => 1
         end.
Proof.
  intros env company raw.
  assert (H : digits_only raw = true /\ raw <> EmptyString).
  { unfold raw, get_employee_count_via_llm.
    destruct (gemini_response env) as [text|]; [|split; [reflexivity|discriminate]].
    destruct (search_count (strip text)) as [m|] eqn:E;
      [|split; [reflexivity|discriminate]].
    now apply (search_count_digits (strip text)). }
  destruct H as [Hd Hne]. split; [exact Hd|]. split; [exact Hne|].
  pose proof (clean_count_of_digits raw Hd) as Hc. split; [exact Hc|].
  rewrite validate_cases. now rewrite Hc.
Qed.

End ModelAnswer.

(** X16 on an answer in words. *)
Lemma model_answer_is_reduced_to_digits_witness :
  Company.get_employee_count_via_llm
    (quiet_env (Some "  About 12,500 employees (2023). ")) = "12500"
  /\ Company._validate_and_process_employee_count
       (Company.get_employee_count_via_llm
          (quiet_env (Some "  About 12,500 employees (2023). "))) "Acme"
     = 12500.
Proof.
  split; [reflexivity|].
  rewrite (proj2 (proj2 (proj2
             (model_answer_is_reduced_to_digits
                (quiet_env (Some "  About 12,500 employees (2023). "))
                "Acme")))).
  reflexivity.
Defined.

(** ** The progress structure after the employee-count step *)

Section ProgressStructure.

Import Company.

Variable env : Env.

(** X17. With an observer attached, the two senders of the employee-count
    step compose as follows. When the [try] of the step completes,
    [_send_enrichment_counts_update] replaces the whole progress structure:
    its employee-count section holds the first value of [employee_count]
    and no [data] nor [hasData], and the total of its company section is one
    more than the number of company documents. When the step falls back,
    the section that [_send_employee_count_update] wrote stays: the count
    100 with its [data]. *)
Theorem progress_structure_after_the_step :
  forall w : World,
    attached (state w) = true ->
    let s := state w in
    let company := get_str (State.company s) "Unknown Company" in
    let s' := state (fst (employee_count_step env w)) in
    match employee_count_try env w with
    | Ok (_, v) =>
        exists first : pyval,
          first_employee_count
            (store_employee_count (company_key s company) v 1 s) = Some first
          /\ enrichment_counts s'
             = Some [("company",
                      plain (VInt (len (get_dict (company_data s))))
                        (VInt (1 + len (get_dict (company_data s)))));
                     ("employeeCount", plain first (VInt 1));
                     ("industry",
                      plain (VInt (len (get_dict (industry_data s))))
                        (VInt (len (get_dict (industry_data s)))));
                     ("financial",
                      plain (VInt (len (get_dict (financial_data s))))
                        (VInt (len (get_dict (financial_data s)))));
                     ("news",
                      plain (VInt (len (get_dict (news_data s))))
                        (VInt (len (get_dict (news_data s)))))]
    | Raise _ _ =>
        dict_get (get_dict (enrichment_counts s')) "employeeCount"
        = Some (mkProgressCounts (VInt 100) (VInt 1)
                  (Some [(company, VInt 100)]) (Some true))
    end.
Proof.
  intros w Ha. cbv zeta.
  unfold employee_count_step, employee_count_try. rewrite Ha.
  destruct (send_status_update env "processing" (sent w)) as [log|e log].
  - cbn [fst snd state].
    set (v := _validate_and_process_employee_count _ _).
    assert (Hv : (0 <? v) = true).
    { apply Z.ltb_lt. pose proof (validated_in_range
                                    (get_employee_count_via_llm env)
                                    (get_str (company (state w))
                                       "Unknown Company")). fold v in H. lia. }
    rewrite Hv.
    set (key := company_key (state w) _).
    destruct (store_employee_count_stores key v 1 (state w)) as [He Hc].
    assert (Hat : attached (store_employee_count key v 1 (state w)) = true).
    { unfold store_employee_count.
      destruct (employee_count (state w)); exact Ha. }
    assert (Hf : exists first,
               first_employee_count (store_employee_count key v 1 (state w))
               = Some first).
    { unfold first_employee_count. rewrite He.
      pose proof (dict_set_nonempty (get_dict (employee_count (state w)))
                    key (VInt v)) as Hne.
      destruct (dict_set (get_dict (employee_count (state w))) key (VInt v))
        as [|[k0 v0] d]; [congruence|]. eauto. }
    destruct Hf as [first Hf]. exists first. split; [exact Hf|].
    unfold _send_employee_count_update. cbn [state objects sent].
    rewrite Hat.
    unfold _send_enrichment_counts_update. cbn [state objects sent].
    assert (Hat2 : forall e, attached (set_enrichment_counts e
                               (store_employee_count key v 1 (state w))) = true)
      by (intros e; exact Hat).
    rewrite Hat2.
    assert (Hc2 : forall e, Company_Count (set_enrichment_counts e
                              (store_employee_count key v 1 (state w)))
                            = Some (VInt 1)) by (intros e; exact Hc).
    rewrite Hc2.
    assert (Hf2 : forall e, first_employee_count (set_enrichment_counts e
                              (store_employee_count key v 1 (state w)))
                            = Some first) by (intros e; exact Hf).
    rewrite Hf2.
    cbn [add_int state].
    unfold store_employee_count.
    destruct (employee_count (state w)); reflexivity.
  - cbn [fst snd state objects sent].
    unfold _send_employee_count_update. cbn [state objects sent].
    assert (Hat : attached (store_employee_count
                              (company_key (state w)
                                 (get_str (company (state w)) "Unknown Company"))
                              100 1 (state w)) = true).
    { unfold store_employee_count.
      destruct (employee_count (state w)); exact Ha. }
    rewrite Hat. cbn [state enrichment_counts set_enrichment_counts get_dict].
    apply dict_get_set_same.
Qed.

End ProgressStructure.

(** X17 on Acme Corp with one company document in the state: the model
    answers, the structure is replaced. *)
Lemma progress_structure_after_the_step_witness :
  let w := mkWorld
             (with_company_data [("https://acme.com", 0%nat)]
                (with_observer (with_company "Acme Corp" blank_state)))
             [] [] in
  let s' := state (fst (Company.employee_count_step
                          (quiet_env (Some "250")) w)) in
  dict_get (get_dict (enrichment_counts s')) "employeeCount"
  = Some (Company.plain (VInt 250) (VInt 1))
  /\ dict_get (get_dict (enrichment_counts s')) "company"
     = Some (Company.plain (VInt 1) (VInt 2)).
Proof.
  cbv zeta.
  pose proof (progress_structure_after_the_step (quiet_env (Some "250"))
                (mkWorld
                   (with_company_data [("https://acme.com", 0%nat)]
                      (with_observer (with_company "Acme Corp" blank_state)))
                   [] []) eq_refl) as H.
  cbv zeta in H.
  match eval vm_compute in
    (Company.employee_count_try (quiet_env (Some "250"))
       (mkWorld
          (with_company_data [("https://acme.com", 0%nat)]
             (with_observer (with_company "Acme Corp" blank_state)))
          [] [])) with
  | Ok (?w1, ?v) =>
      assert (E : Company.employee_count_try (quiet_env (Some "250"))
                    (mkWorld
                       (with_company_data [("https://acme.com", 0%nat)]
                          (with_observer
                             (with_company "Acme Corp" blank_state)))
                       [] []) = Ok (w1, v)) by (vm_compute; reflexivity)
  end.
  rewrite E in H. destruct H as (first & Hf & He). rewrite He.
  vm_compute in Hf. inversion Hf. subst first. split; vm_compute; reflexivity.
Defined.

(** ** The industry analyzer *)

Section IndustryReport.

Import Industry.

Lemma bucket_eqb_eq (a b : Bucket) : bucket_eqb a b = true <-> a = b.
Proof.
  split; [|intros ->; unfold bucket_eqb; apply String.eqb_refl].
  destruct a, b; unfold bucket_eqb; simpl; intros H;
    try reflexivity; discriminate.
Qed.

(** Appending to a section leaves the other sections alone. *)
Lemma append_to_section (acc : Bucket -> list Document) (b : Bucket)
    (doc : Document) :
  append_to (map (fun b' => (bucket_name b', acc b')) buckets)
    (bucket_name b) doc
  = map (fun b' => (bucket_name b',
                    if bucket_eqb b b' then acc b' ++ [doc] else acc b'))
      buckets.
Proof. destruct b; reflexivity. Qed.

Lemma report_from (industry_data : dict Document) :
  forall acc : Bucket -> list Document,
    fold_left (fun report kv =>
                 append_to report (bucket_name (bucket_of (snd kv))) (snd kv))
      industry_data (map (fun b => (bucket_name b, acc b)) buckets)
    = map (fun b =>
             (bucket_name b,
              acc b ++ filter (fun doc => bucket_eqb (bucket_of doc) b)
                         (values industry_data)))
        buckets.
Proof.
  induction industry_data as [|[url doc] data IH]; intros acc.
  - transitivity (map (fun b => (bucket_name b, acc b)) buckets);
      [reflexivity|].
    apply map_ext. intros b. simpl. now rewrite app_nil_r.
  - cbn [fold_left snd]. rewrite append_to_section, IH.
    apply map_ext. intros b. unfold values. cbn [map snd filter].
    destruct (bucket_eqb (bucket_of doc) b); [|reflexivity].
    now rewrite <- app_assoc.
Qed.

(** X18. The structured report of the industry analyzer holds its eleven
    sections in the order of the literal, and each section holds, in the
    order of [industry_data], exactly the documents whose query selects it:
    every document is in one section and in one only, the first of the
    chain of tests that its lower-cased query passes. *)
Theorem structured_report_puts_each_document_in_one_section :
  forall industry_data : dict Document,
    structured_report industry_data
    = map (fun b =>
             (bucket_name b,
              filter (fun doc => bucket_eqb (bucket_of doc) b)
                (values industry_data)))
        buckets
    /\ (forall (b : Bucket) (doc : Document),
          In doc (filter (fun doc => bucket_eqb (bucket_of doc) b)
                    (values industry_data))
          <-> In doc (values industry_data) /\ bucket_of doc = b).
Proof.
  intros industry_data. split.
  - unfold structured_report.
    apply (report_from industry_data (fun _ => [])).
  - intros b doc. rewrite filter_In, bucket_eqb_eq. reflexivity.
Qed.

Lemma search_loop_app (pre rest : list Search) :
  forall industry_data : dict Document,
    search_loop (pre ++ rest) industry_data
    = match search_loop pre industry_data with
      | Ok found => search_loop rest found
      | Raise e found => Raise e found
      end.
Proof.
  induction pre as [|[q [[[|kv docs]|]|e u]] pre IH]; intros d; simpl;
    try apply IH; reflexivity.
Qed.

(** X19. The searches of the industry analyzer are inside one [try]: when a
    search raises, the queries after it are never searched, and
    [industry_data] holds what the site scrape and the searches before it
    gave. *)
Theorem industry_search_stops_at_the_first_failure :
  forall (s : ResearchState) (site_scrape : option string)
         (pre post : list Search) (query : string) (e : exn) (u : unit),
    industry_data_of s site_scrape (pre ++ (query, Raise e u) :: post)
    = industry_data_of s site_scrape pre.
Proof.
  intros s site_scrape pre post query e u. unfold industry_data_of.
  rewrite search_loop_app.
  destruct (search_loop pre (site_scrape_entry s site_scrape)); reflexivity.
Qed.





End IndustryReport.

(** X18 on four searches of which the third raises: the document found
    under a URL twice is reported once, in the section of the later query;
    the query in capitals selects its section. *)
Lemma structured_report_puts_each_document_in_one_section_witness :
  map (fun kv => (fst kv, map d_title (snd kv)))
    (Industry.structured_report
       (Industry.industry_data_of blank_state None industry_searches))
  = [("Market Position", []); ("Competitors", []);
     ("Trends and Challenges", [Some "three"; Some "two"]);
     ("Market Size and Growth", []); ("Regulatory Environment", []);
     ("Supply Chain", []); ("Technology and Innovation", []);
     ("Customer Segments", []); ("Sustainability and ESG", []);
     ("Financial Benchmarks", []); ("Other", [])].
Proof.
  rewrite (proj1 (structured_report_puts_each_document_in_one_section
                    (Industry.industry_data_of blank_state None
                       industry_searches))).
  vm_compute. reflexivity.
Defined.

(** X19 on the same searches: the fourth one is never made. *)
Lemma industry_search_stops_at_the_first_failure_witness :
  keys (Industry.industry_data_of blank_state None industry_searches)
  = ["https://a.com/1"; "https://a.com/2"].
Proof.
  change industry_searches
    with (firstn 2 industry_searches
          ++ ("Average margins", @Raise (option (dict Document)) unit
                                   OtherError tt)
          :: skipn 3 industry_searches).
  rewrite (industry_search_stops_at_the_first_failure blank_state None
             (firstn 2 industry_searches) (skipn 3 industry_searches)
             "Average margins" OtherError tt).
  vm_compute. reflexivity.
Defined.


(* ================================================================== *)
(** * Properties of the specification on the paths of failure and on the
      copies, as amended *)

(** ** All or nothing: the evaluation of a batch *)

Section AllOrNothing.

Import Curator.

Variable env : Env.


End AllOrNothing.



(** ** Failure of one category *)

Section CategoryFailure.

Import Curator.

Variable env : Env.










End CategoryFailure.


(** The same failure seen from [run]: the job ends with a snapshot in which
    the financial category has one document and none enriched, and the
    three other categories have what they kept. *)
Lemma category_failure_seen_from_run :
  exists w' : World,
    Curator.run (env_failing_at 3 OtherError)
      (mkWorld scenario_state scenario_heap []) = Ok w'
    /\ option_map sn_financial (enrichmentCounts (state w'))
       = Some (mkCategoryCounts 0 1)
    /\ option_map sn_news (enrichmentCounts (state w'))
       = Some (mkCategoryCounts 1 2)
    /\ option_map sn_industry (enrichmentCounts (state w'))
       = Some (mkCategoryCounts 1 1)
    /\ option_map sn_company (enrichmentCounts (state w'))
       = Some (mkCategoryCounts 1 1).
Proof.
  match goal with
  | |- exists w', ?run = _ /\ _ =>
      match eval vm_compute in run with
      | Ok ?w => exists w
      end
  end.
  split; [vm_compute; reflexivity|].
  repeat split.
Qed.


(** ** The entry point, on every path *)

Section RunOnEveryPath.

Import Curator.

Variable env : Env.





End RunOnEveryPath.



(** ** The raw documents and their curated copies *)

Section RawAndCurated.

Import Curator.

Variable env : Env.





End RawAndCurated.


